(** * Rich Live Output (rlo_cb): a shallow embedding of the callback plugin

    The development follows the layout of the repository:
    - [PyData]: the Python values that flow through the plugin (result
      dictionaries, task variables) and the dictionary operations used on them;
    - [Transformers]: [rlo/transformers] ([Identity], [Dummy], [Sanitizer]) and
      [transform_dict] of [plugins/callback/rlo_cb.py];
    - [Seconds]: [CallbackModule._format_float_seconds] over IEEE-754 binary64;
    - [Callback]: the state of [CallbackModule], its handlers and the run of an
      event stream; [Markup]: which printed lines the console of rich accepts;
    - the properties of each part: [Visibility], [Shaping], [Dispatch],
      [Traversal], [Sanitizing], [Tracker], [RoleBanner] and, with the
      rounding lemmas it needs, [ElapsedFormat];
    - further properties of the handlers and of the run of a stream:
      [VerbosityLevels], [FinishedOutput], [ComprehensiveObject],
      [SanitizedOutput], [Lifecycle], [BannerSequence], [Recap],
      [ElapsedRange];
    - the resolution of the transformer of the user ([TransformerOption]) and
      the YAML helpers of [rlo_cb.py] ([YamlText]). *)

From Stdlib Require Import ZArith String Ascii List Bool Lia DecimalString.
From Stdlib Require Import Floats.SpecFloat.
From stdpp Require Import gmap strings list fin_maps.

Set Warnings "-register-all".

Local Open Scope string_scope.
Local Open Scope list_scope.
Local Open Scope stdpp_scope.
Local Open Scope Z_scope.

(* ===================================================================== *)
(** ** Python values *)
(* ===================================================================== *)

Module PyData.

(** A Python [float] is an IEEE-754 binary64 number; [spec_float] of the
    Standard Library is its specification-level representation. *)
Definition float := spec_float.

(** The objects [transform_dict] distinguishes with [isinstance], in the order
    of its branches.  A dictionary is the list of its items in insertion order
    (keys are strings, as in the JSON results of the engine, and pairwise
    distinct).  [PGenerator elems] is the generator object produced by a
    generator expression that yields [elems]; [POther ty] is any object of
    another type, [ty] being the text of [type(data)]. *)
Inductive pyval : Type :=
| PStr (s : string)
| PDict (items : list (string * pyval))
| PTuple (elems : list pyval)
| PList (elems : list pyval)
| PNone
| PInt (z : Z)
| PFloat (f : float)
| PBool (b : bool)
| PGenerator (elems : list pyval)
| POther (type_repr : string).

Abbreviation dict := (list (string * pyval)).

(** [key in d] *)
Fixpoint dict_get (key : string) (d : dict) : option pyval :=
  match d with
  | [] => None
  | (k, v) :: d' => if String.eqb k key then Some v else dict_get key d'
  end.

Definition dict_in (key : string) (d : dict) : bool :=
  match dict_get key d with Some _ => true | None => false end.

(** [d[key] = v]: an existing key keeps its position, a new key goes last. *)
Fixpoint dict_set (key : string) (v : pyval) (d : dict) : dict :=
  match d with
  | [] => [(key, v)]
  | (k, w) :: d' =>
      if String.eqb k key then (k, v) :: d' else (k, w) :: dict_set key v d'
  end.

(** [del d[key]] for a key that is present. *)
Fixpoint dict_del (key : string) (d : dict) : dict :=
  match d with
  | [] => []
  | (k, w) :: d' => if String.eqb k key then d' else (k, w) :: dict_del key d'
  end.

Definition dict_keys (d : dict) : list string := map fst d.

(** Truth value of an object in a condition ([if x:]). *)
Definition truthy (v : pyval) : bool :=
  match v with
  | PStr s => negb (String.eqb s "")
  | PDict items => match items with [] => false | _ => true end
  | PTuple elems | PList elems => match elems with [] => false | _ => true end
  | PNone => false
  | PInt z => negb (Z.eqb z 0)
  | PFloat f => match f with S754_zero _ => false | _ => true end
  | PBool b => b
  | PGenerator _ | POther _ => true
  end.

(** [v == lit] for a string literal [lit]. *)
Definition is_str (v : pyval) (lit : string) : bool :=
  match v with PStr s => String.eqb s lit | _ => false end.

(** [s.startswith(prefix)] *)
Fixpoint startswith (s prefix : string) {struct prefix} : bool :=
  match prefix with
  | EmptyString => true
  | String a prefix' =>
      match s with
      | EmptyString => false
      | String b s' => Ascii.eqb a b && startswith s' prefix'
      end
  end.

(** [str(z)] for an [int]. *)
Definition str_of_int (z : Z) : string := NilZero.string_of_int (Z.to_int z).

(** [f"{z:0>width}"]: the text of [z], filled on the left with ['0'] up to
    [width] characters. *)
Fixpoint zeros (k : nat) : string :=
  match k with O => EmptyString | S k' => String "0" (zeros k') end.

Definition format_0_right (width : nat) (z : Z) : string :=
  let text := str_of_int z in
  zeros (width - String.length text) +:+ text.

End PyData.
Export PyData.

(* ===================================================================== *)
(** ** Transformers and the traversal *)
(* ===================================================================== *)

Module Transformers.

(** [BaseRLOTransformer]: the capability [{priority, transform}]. *)
Record transformer := {
  priority : Z;
  transform : string -> string;
}.

(** rlo/transformers/identity.py *)
Definition Identity : transformer :=
  {| priority := 0; transform := fun input => input |}.

(** rlo/transformers/dummy.py *)
Definition Dummy : transformer :=
  {| priority := 10; transform := fun _ => "RLODUMMYTRANSFORMER" |}.

(** rlo/transformers/sanitizer.py: [BLACKLISTED_BYTES], in the order of the
    dictionary literal. *)
Definition BLACKLISTED_BYTES : list (ascii * string) :=
  [ ("007"%char, "<BEL>");
    ("008"%char, "<BS>");
    ("012"%char, "<FF>");
    ("013"%char, "<CR>");
    ("027"%char, "<ESC>");
    ("127"%char, "<DEL>") ].

(** [s.replace(chr(b), new)] for a one-character pattern. *)
Fixpoint str_replace (old : ascii) (new : string) (s : string) : string :=
  match s with
  | EmptyString => EmptyString
  | String c s' =>
      if Ascii.eqb c old then new +:+ str_replace old new s'
      else String c (str_replace old new s')
  end.

Definition Sanitizer_transform (input : string) : string :=
  fold_left (fun current '(byte_to_replace, replace_with) =>
               str_replace byte_to_replace replace_with current)
            BLACKLISTED_BYTES input.

Definition Sanitizer : transformer :=
  {| priority := 9999; transform := Sanitizer_transform |}.

(** [get_transform_callback] *)
Definition get_transform_callback (t : transformer) : string -> string :=
  fun input => transform t input.

Definition unrecognized (type_repr : string) : pyval :=
  PStr ("<RLO error - unrecognized type - " +:+ type_repr +:+ ">").

(** rlo_cb.py, [transform_dict].  The branches are those of the source, in its
    order: [str], [dict], [tuple] (a generator expression, hence a generator
    object), [list], [None] and the numbers, anything else. *)
Fixpoint transform_dict (data : pyval) (callback : string -> string) : pyval :=
  match data with
  | PStr s => PStr (callback s)
  | PDict items =>
      PDict (map (fun kv => (fst kv, transform_dict (snd kv) callback)) items)
  | PTuple elems => PGenerator (map (fun d => transform_dict d callback) elems)
  | PList elems => PList (map (fun d => transform_dict d callback) elems)
  | PNone | PInt _ | PFloat _ | PBool _ => data
  | PGenerator _ => unrecognized "<class 'generator'>"
  | POther type_repr => unrecognized type_repr
  end.

End Transformers.
Export Transformers.

(* ===================================================================== *)
(** ** Formatting of elapsed seconds *)
(* ===================================================================== *)

Module Seconds.

(** binary64 *)
Definition prec : Z := 53.
Definition emax : Z := 1024.

(** Conversion of an [int] operand to [float] (exact for the literals of the
    source). *)
Definition float_of_int (z : Z) : float := binary_normalize prec emax z 0 false.

(** C's [x != 0] (true for a NaN). *)
Definition float_nonzero (x : float) : bool :=
  match x with S754_zero _ => false | _ => true end.

(** C's [fmod]: the remainder of the truncated division, exact, with the sign
    of [x]. *)
Definition fmod (x y : float) : float :=
  match x, y with
  | S754_nan, _ | _, S754_nan => S754_nan
  | S754_infinity _, _ => S754_nan
  | _, S754_zero _ => S754_nan
  | S754_zero _, _ => x
  | S754_finite _ _ _, S754_infinity _ => x
  | S754_finite sx mx ex, S754_finite _ my ey =>
      let e := Z.min ex ey in
      let X := Zpos mx * 2 ^ (ex - e) in
      let Y := Zpos my * 2 ^ (ey - e) in
      binary_normalize prec emax (cond_Zopp sx (X mod Y)) e sx
  end.

(** CPython's [float_rem] ([vx % wx]) for a divisor that is not zero. *)
Definition float_rem (vx wx : float) : float :=
  let r := fmod vx wx in
  if float_nonzero r then
    if xorb (SFltb wx (S754_zero false)) (SFltb r (S754_zero false))
    then SFadd prec emax r wx
    else r
  else
    match wx with
    | S754_zero s | S754_infinity s | S754_finite s _ _ => S754_zero s
    | S754_nan => S754_zero false
    end.

Definition float_mul : float -> float -> float := SFmul prec emax.
Definition float_div : float -> float -> float := SFdiv prec emax.

(** [int(x)]: truncation toward zero; [None] stands for the [ValueError] of a
    NaN and the [OverflowError] of an infinity. *)
Definition int_of_float (x : float) : option Z :=
  match x with
  | S754_zero _ => Some 0
  | S754_finite s m e =>
      Some (cond_Zopp s (if 0 <=? e then Zpos m * 2 ^ e else Zpos m / 2 ^ (- e)))
  | S754_infinity _ | S754_nan => None
  end.

(** rlo_cb.py, [CallbackModule._format_float_seconds]; [None] when one of the
    [int(...)] conversions raises. *)
Definition _format_float_seconds (n : float) : option string :=
  match int_of_float (float_mul (float_rem n (float_of_int 1)) (float_of_int 1000)) with
  | None => None
  | Some milliseconds =>
      if SFltb n (float_of_int 1) then
        Some ("." +:+ format_0_right 3 milliseconds)
      else
        match int_of_float (float_rem n (float_of_int 60)),
              int_of_float (float_div n (float_of_int 60)),
              int_of_float (float_div n (float_of_int 3600)) with
        | Some seconds, Some minutes_total, Some hours_total =>
            let minutes := minutes_total mod 60 in
            let hours := hours_total mod 3600 in
            Some (str_of_int hours +:+ ":" +:+ format_0_right 2 minutes +:+ ":"
                  +:+ format_0_right 2 seconds +:+ "." +:+ format_0_right 3 milliseconds)
        | _, _, _ => None
        end
  end.

(** The binary64 numbers nearest to the decimal literals [0.003], [65.5] and
    [3725.125] (the last two are exact). *)
Definition f_0_003 : float := S754_finite false 6917529027641082 (-61).
Definition f_65_5 : float := S754_finite false 4609152743636992 (-46).
Definition f_3725_125 : float := S754_finite false 8191636504838144 (-41).

End Seconds.
Export Seconds.

(* ===================================================================== *)
(** ** The callback module *)
(* ===================================================================== *)

Module Callback.

(** *** Values read from the engine *)

(** The recognised options and the verbosity of the display
    ([self.get_option(...)], [self._display.verbosity]). *)
Record options := {
  verbosity : Z;
  display_skipped_hosts : bool;
  display_ok_hosts : bool;
  check_mode_markers : bool;
  show_task_path_on_failure : bool;
}.

(** The task object of an event, as far as the plugin reads it.  [task_role]
    is [task._role._role_name] when [task._role] is set, [task_is_handler] is
    [str(task).startswith('HANDLER:')], [task_loop] the truth value of
    [task.loop], [task_path] is [task.get_path()]. *)
Record task := {
  task_name : string;
  task_action : string;
  task_no_log : bool;
  task_check_mode : bool;
  task_delegate_to : option string;
  task_role : option string;
  task_vars : dict;
  task_loop : bool;
  task_is_handler : bool;
  task_path : string;
}.

(** A [TaskResult]: [_host] is [result._host.get_name()], [is_changed] the
    answer of [result.is_changed()]. *)
Record task_result := {
  _host : string;
  _task : task;
  _result : dict;
  is_changed : bool;
}.

(** [stats.summarize(host)] *)
Record host_stats := {
  ok : Z; changed : Z; unreachable : Z; failures : Z;
  skipped : Z; rescued : Z; ignored : Z;
}.

(** Functions of the engine and of the libraries the plugin calls:
    - [strip_internal_keys (module_response_deepcopy r)] of Ansible;
    - [self._get_diff(difflist).strip(" \n")], the pretty diff of Ansible;
    - [escape(get_yaml_string_from_result(v))], the YAML text of a value;
    - the [transform] method of the transformer named by the
      [rlo_transformer] option, which is taken to resolve. *)
Record collaborators := {
  strip_internal_keys : dict -> dict;
  get_diff : list pyval -> string;
  yaml_text : pyval -> string;
  user_transformer : transformer;
}.

(** *** Output *)

(** What a call of [console.print] / [console.out] is given. *)
Inductive renderable :=
| RStr (s : string)
    (** a [str], markup included *)
| RTimestamp
    (** [_get_current_time_formatted()]: the wall clock *)
| RElapsed (n : float)
    (** [Text(_format_float_seconds(n), style="rlo.time")] *)
| RTable (title_seconds : float) (rows : list (list string)).
    (** the recap [Table] *)

(** One call of [self._print] with its arguments and its [raw] flag. *)
Inductive printed := Print (raw : bool) (args : list renderable).

(** *** State *)

(** A task of rich's [Progress]: its description and its [host] field. *)
Record slot := {
  slot_description : string;
  slot_host : string;
}.

(** The mutable attributes of [CallbackModule]; [_progress_tasks] and
    [_progress_task_index] are [self._progress._tasks] and the counter from
    which [Progress.add_task] draws its ids. *)
Record state := {
  _hosts : gmap string nat;
  _progress_tasks : gmap nat slot;
  _progress_task_index : nat;
  _role_progress_description : string;
  _current_role : option string;
  _last_printed_role : option string;
  _should_print_role : bool;
  _live_started : bool;
}.

(** [__init__] *)
Definition init (force_interactive : bool) : state :=
  {| _hosts := ∅;
     _progress_tasks := ∅;
     _progress_task_index := 0;
     _role_progress_description := "None";
     _current_role := None;
     _last_printed_role := None;
     _should_print_role := false;
     _live_started := force_interactive |}.

Inductive exn :=
| KeyError (key : string)
| TypeError.

Inductive outcome (A : Type) :=
| Returned (a : A)
| Raised (e : exn).
Arguments Returned {A} a.
Arguments Raised {A} e.

(** [Progress.add_task(description, total=1, host=host)] *)
Definition add_task (st : state) (description host : string) : state * nat :=
  let id := _progress_task_index st in
  ({| _hosts := _hosts st;
      _progress_tasks := <[id := {| slot_description := description; slot_host := host |}]> (_progress_tasks st);
      _progress_task_index := S id;
      _role_progress_description := _role_progress_description st;
      _current_role := _current_role st;
      _last_printed_role := _last_printed_role st;
      _should_print_role := _should_print_role st;
      _live_started := _live_started st |}, id).

(** [Progress.remove_task(task_id)] *)
Definition remove_task (st : state) (task_id : nat) : state :=
  {| _hosts := _hosts st;
     _progress_tasks := delete task_id (_progress_tasks st);
     _progress_task_index := _progress_task_index st;
     _role_progress_description := _role_progress_description st;
     _current_role := _current_role st;
     _last_printed_role := _last_printed_role st;
     _should_print_role := _should_print_role st;
     _live_started := _live_started st |}.

Definition set_host (st : state) (host_name : string) (id : nat) : state :=
  {| _hosts := <[host_name := id]> (_hosts st);
     _progress_tasks := _progress_tasks st;
     _progress_task_index := _progress_task_index st;
     _role_progress_description := _role_progress_description st;
     _current_role := _current_role st;
     _last_printed_role := _last_printed_role st;
     _should_print_role := _should_print_role st;
     _live_started := _live_started st |}.

Definition set_role_description (st : state) (description : string) : state :=
  {| _hosts := _hosts st;
     _progress_tasks := _progress_tasks st;
     _progress_task_index := _progress_task_index st;
     _role_progress_description := description;
     _current_role := _current_role st;
     _last_printed_role := _last_printed_role st;
     _should_print_role := _should_print_role st;
     _live_started := _live_started st |}.

Definition set_roles (st : state) (current last_printed : option string)
    (should_print : bool) : state :=
  {| _hosts := _hosts st;
     _progress_tasks := _progress_tasks st;
     _progress_task_index := _progress_task_index st;
     _role_progress_description := _role_progress_description st;
     _current_role := current;
     _last_printed_role := last_printed;
     _should_print_role := should_print;
     _live_started := _live_started st |}.

Definition live_stop (st : state) : state :=
  {| _hosts := _hosts st;
     _progress_tasks := _progress_tasks st;
     _progress_task_index := _progress_task_index st;
     _role_progress_description := _role_progress_description st;
     _current_role := _current_role st;
     _last_printed_role := _last_printed_role st;
     _should_print_role := _should_print_role st;
     _live_started := false |}.

(** *** Handlers *)

Section Handlers.

Variable opts : options.
Variable ext : collaborators.

Definition SYMBOL_OK : string := "✔".
Definition SYMBOL_CHANGED : string := "⚙".
Definition SYMBOL_SKIPPED : string := "⏭".
Definition SYMBOL_FAILED : string := "✘".
Definition SYMBOL_UNREACHABLE : string := "🖧".

Definition _run_is_verbose (result : dict) (level : Z) : bool :=
  verbosity opts >? level.

Definition _should_log_task (result : task_result) (status : string) : bool :=
  if _run_is_verbose (_result result) 1 then true
  else if String.eqb (task_action (_task result)) "debug"
          && negb (task_no_log (_task result)) then true
  else if String.eqb status "failed" || String.eqb status "unreachable" then true
  else if String.eqb status "skipped"
          && (display_skipped_hosts opts || _run_is_verbose (_result result) 2)
       then true
  else if String.eqb status "ok"
          && (is_changed result || display_ok_hosts opts
              || _run_is_verbose (_result result) 2)
       then true
  else false.

Definition _should_print_comprehensive_task_result
    (result : task_result) (status : string) : bool :=
  if _run_is_verbose (_result result) 3 then true
  else if String.eqb status "failed" then true
  else if String.eqb (task_action (_task result)) "debug"
          && negb (task_no_log (_task result)) then true
  else false.

Definition _should_print_reduced_task_result
    (result : task_result) (status : string) : bool :=
  if _run_is_verbose (_result result) 1 then true
  else if String.eqb status "ok" && is_changed result then true
  else false.

Definition _censored_no_log_response : dict :=
  [("censored",
    PStr "the output has been hidden due to the fact that 'no_log: true' was specified for this result (via RLO)")].

(** With [strip_internal_keys] of Ansible the keys deleted below are present
    in the copy whenever the test before the [del] holds. *)
Definition _get_comprehensive_result_object (result : dict) (t : task) : dict :=
  if task_no_log t && negb (_run_is_verbose result 2) then
    _censored_no_log_response
  else
    let c0 := strip_internal_keys ext result in
    let c1 := if negb (_run_is_verbose result 3) && dict_in "invocation" result
              then dict_del "invocation" c0 else c0 in
    let c2 := if negb (_run_is_verbose result 2) then
                let d := if dict_in "diff" result then dict_del "diff" c1 else c1 in
                if dict_in "skipped" d then dict_del "skipped" d else d
              else c1 in
    let c3 := if dict_in "stdout" c2 && dict_in "stdout_lines" c2
              then dict_set "stdout_lines" (PStr "<omitted>") c2 else c2 in
    let c4 := if dict_in "stderr" c3 && dict_in "stderr_lines" c3
              then dict_set "stderr_lines" (PStr "<omitted>") c3 else c3 in
    if truthy (PDict (task_vars t))
    then dict_set "task_vars" (PDict (task_vars t)) c4 else c4.

Definition _get_reduced_result_object (result : dict) (t : task) : dict :=
  if task_no_log t && negb (_run_is_verbose result 2) then
    _censored_no_log_response
  else
    let r1 := fold_left (fun reduced key =>
                           match dict_get key result with
                           | Some v => dict_set key v reduced
                           | None => reduced
                           end) ["stdout"; "stderr"] [] in
    let r2 := match dict_get "msg" result with
              | Some v => if negb (is_str v "All items completed")
                          then dict_set "msg" v r1 else r1
              | None => r1
              end in
    if truthy (PDict (task_vars t))
    then dict_set "task_vars" (PDict (task_vars t)) r2 else r2.

Definition _sanitize_dict (input : pyval) : pyval :=
  transform_dict input (get_transform_callback Sanitizer).

Definition _transform_dict (input : pyval) : pyval :=
  transform_dict input (get_transform_callback (user_transformer ext)).

(** [_print] is written as it runs when rich takes its arguments.
    [console.print] reads a [str] as markup and raises [MarkupError] for a
    closing tag that closes no open tag, and the names of tasks, hosts and
    roles reach it unescaped: a handler then stops at that call, with what it
    printed and assigned before.  Whether a call is taken is [accepted],
    below; a statement on what follows a call is made for the runs in which
    the calls are accepted. *)
Definition _print (raw : bool) (args : list renderable) : list printed :=
  [Print raw args].

Definition _log (args : list renderable) : list printed :=
  _print false (RTimestamp :: args).

Definition _print_result (result : dict) (t : task)
    (preprocessor : dict -> task -> dict) : list printed :=
  let preprocessed_result := preprocessor result t in
  if truthy (PDict preprocessed_result) then
    let sanitized_result := _sanitize_dict (PDict preprocessed_result) in
    let transformed_result := _transform_dict sanitized_result in
    let escaped := yaml_text ext transformed_result in
    _print false [RStr ("[bold][bright_magenta]" +:+ escaped +:+ "[/bold][/bright_magenta]")]
  else [].

Definition _print_single_diff (result_object : dict) : list printed :=
  match dict_get "diff" result_object with
  | None => []
  | Some diff_raw =>
      let diff_list := match diff_raw with PList l => l | _ => [diff_raw] end in
      let sanitized_difflist := map _sanitize_dict diff_list in
      let transformed_difflist := map _transform_dict sanitized_difflist in
      let pretty_diff := get_diff ext transformed_difflist in
      if negb (String.eqb pretty_diff "")
      then _print true [RStr pretty_diff] else []
  end.

(** ['diff' in res and res['diff'] and res.get('changed', False)] *)
Definition has_changed_diff (res : dict) : bool :=
  match dict_get "diff" res with
  | Some d => truthy d && match dict_get "changed" res with
                          | Some c => truthy c
                          | None => false
                          end
  | None => false
  end.

(** The items of a loop result are dictionaries; another item is passed over. *)
Definition _print_diff (result : task_result) : list printed :=
  match (if task_loop (_task result) then dict_get "results" (_result result) else None) with
  | Some results =>
      flat_map (fun res => match res with
                           | PDict d => if has_changed_diff d
                                        then _print_single_diff d else []
                           | _ => []
                           end)
               (match results with PList l | PTuple l => l | _ => [] end)
  | None =>
      if has_changed_diff (_result result)
      then _print_single_diff (_result result) else []
  end.

Definition _get_host_label (host : string) (t : task) : string :=
  match task_delegate_to t with
  | Some d => if negb (String.eqb d "") && negb (String.eqb d host)
              then host +:+ " -> " +:+ d else host
  | None => host
  end.

Definition _get_task_infos (host : string) (t : task)
    : string * string * string * string :=
  let host_name := host in
  let host_label := _get_host_label host t in
  let d0 := if negb (String.eqb (task_name t) "")
            then "[italic]" +:+ task_action t +:+ "[/italic] - " +:+ task_name t
            else "[italic]" +:+ task_action t +:+ "[/italic]" in
  let d1 := if task_is_handler t then d0 +:+ " - [bold]handler[/bold]" else d0 in
  let task_desc := if task_check_mode t && check_mode_markers opts
                   then d1 +:+ " - [italic]check[/italic]" else d1 in
  let role_name := match task_role t with Some r => r | None => "None" end in
  (host_name, host_label, task_desc, role_name).

Definition _handle_new_task (st : state)
    (host_name host_label task_desc role_name : string) : state :=
  let '(st1, id) := add_task st task_desc host_label in
  set_role_description (set_host st1 host_name id) role_name.

Definition _handle_role (st : state) (role_name : string) : state :=
  let st1 := if negb (bool_decide (_current_role st = Some role_name))
             then set_roles st (Some role_name) (_last_printed_role st) true
             else st in
  let st2 := if String.eqb role_name "None"
             then set_roles st1 (_current_role st1) (_last_printed_role st1) false
             else st1 in
  if bool_decide (_last_printed_role st2 = _current_role st2)
  then set_roles st2 (_current_role st2) (_last_printed_role st2) false
  else st2.

(** The text of [self._current_role] inside an f-string. *)
Definition role_text (role : option string) : string :=
  match role with Some r => r | None => "None" end.

Definition role_banner (role : option string) : list renderable :=
  [RStr ("[bold] --- Role - " +:+ role_text role +:+ " ---[/bold]")].

Definition _log_task (st : state) (message : string) (elapsed : option float)
    : state * list printed :=
  let '(st1, banner) :=
    if _should_print_role st
    then (set_roles st (_current_role st) (_current_role st) false,
          _log (role_banner (_current_role st)))
    else (st, []) in
  (st1, banner ++ match elapsed with
                  | None => _log [RStr message]
                  | Some n => _log [RStr message; RStr "-"; RElapsed n]
                  end).

Definition finished_message (result : task_result) (status host_label task_desc : string)
    : string :=
  let message := "[bold]" +:+ host_label +:+ "[/bold] - " +:+ task_desc in
  if String.eqb status "ok" then
    if is_changed result
    then "[rlo.task.log.changed]" +:+ SYMBOL_CHANGED +:+ " " +:+ message +:+ " - [bold]changed[/bold]"
    else SYMBOL_OK +:+ " " +:+ message
  else if String.eqb status "skipped" then
    "[rlo.task.log.skipped]" +:+ SYMBOL_SKIPPED +:+ " " +:+ message +:+ " - [bold]skipped[/bold]"
  else if String.eqb status "unreachable" then
    "[rlo.task.log.unreachable]" +:+ SYMBOL_UNREACHABLE +:+ " " +:+ message +:+ " - [bold]unreachable[/bold]"
  else if String.eqb status "failed" then
    "[rlo.task.log.failed]" +:+ SYMBOL_FAILED +:+ " " +:+ message +:+ " - [bold]failed[/bold]"
  else message.

(** [slot_elapsed] is what rich reports as the elapsed time of the host's
    slot when the event is handled; the literal [0] of the other branch
    formats as the float zero does. *)
Definition _on_finished_task (st : state) (result : task_result) (status : string)
    (slot_elapsed : float) : outcome (state * list printed) :=
  let '(host_name, host_label, task_desc, role_name) :=
    _get_task_infos (_host result) (_task result) in
  match _hosts st !! host_name with
  | None => Raised (KeyError host_name)
  | Some id =>
      let '(st1, elapsed) :=
        match _progress_tasks st !! id with
        | Some _ => (remove_task st id, slot_elapsed)
        | None => (st, S754_zero false)
        end in
      let st2 := _handle_role st1 role_name in
      let '(st3, out_log) :=
        if _should_log_task result status
        then _log_task st2 (finished_message result status host_label task_desc)
                       (Some elapsed)
        else (st2, []) in
      let out_diff := if is_changed result then _print_diff result else [] in
      let out_result :=
        if _should_print_comprehensive_task_result result status
        then _print_result (_result result) (_task result) _get_comprehensive_result_object
        else if _should_print_reduced_task_result result status
        then _print_result (_result result) (_task result) _get_reduced_result_object
        else [] in
      let out_path :=
        if String.eqb status "failed" && show_task_path_on_failure opts
        then _print false [RStr ("[rlo.task.log.task_path][italic]task path: "
                                 +:+ task_path (_task result))]
        else [] in
      Returned (st3, out_log ++ out_diff ++ out_result ++ out_path)
  end.

Definition v2_playbook_on_play_start (st : state) (play_name : string)
    (play_check_mode : bool) : state * list printed :=
  let message := "[bold] - Playbook - " +:+ play_name +:+ " -[/bold]" in
  let message := if play_check_mode
                 then message +:+ " [italic]Check Mode[/italic]" else message in
  (st, _log [RStr message]).

Definition v2_runner_on_start (st : state) (host : string) (t : task) : state :=
  let '(host_name, host_label, task_desc, role_name) := _get_task_infos host t in
  _handle_new_task st host_name host_label task_desc role_name.

Definition v2_playbook_on_no_hosts_matched (st : state) : state * list printed :=
  _log_task st "[rlo.task.log.unreachable][bold]No hosts matched" None.

(** [result._result['retries'] - result._result['attempts']] *)
Definition retries_left (result : dict) : outcome Z :=
  match dict_get "retries" result with
  | None => Raised (KeyError "retries")
  | Some retries =>
      match dict_get "attempts" result with
      | None => Raised (KeyError "attempts")
      | Some attempts =>
          match retries, attempts with
          | PInt r, PInt a => Returned (r - a)
          | _, _ => Raised TypeError
          end
      end
  end.

Definition v2_runner_retry (st : state) (result : task_result)
    : outcome (state * list printed) :=
  let '(host_name, host_label, task_desc, role_name) :=
    _get_task_infos (_host result) (_task result) in
  match retries_left (_result result) with
  | Raised e => Raised e
  | Returned n_left =>
      Returned (_log_task st
        ("[rlo.task.log.retried][bold]" +:+ host_label +:+ "[/bold] - " +:+ task_desc
         +:+ " - [bold]Failed - Retrying... (" +:+ str_of_int n_left
         +:+ " retries left)[/bold]") None)
  end.

Definition v2_playbook_on_notify (st : state) (handler : task) (host : string)
    : state * list printed :=
  let '(host_name, host_label, task_desc, role_name) := _get_task_infos host handler in
  (st, _log [RStr ("[italic][bold]notified[/bold] - " +:+ task_desc +:+ " [/italic]")]).

(** [sorted(stats.processed.keys())] *)
Fixpoint insert_sorted (h : string * host_stats) (l : list (string * host_stats))
    : list (string * host_stats) :=
  match l with
  | [] => [h]
  | x :: l' => if String.leb (fst h) (fst x) then h :: l else x :: insert_sorted h l'
  end.

Definition sorted_hosts (processed : list (string * host_stats))
    : list (string * host_stats) :=
  fold_right insert_sorted [] processed.

Definition recap_row (host : string) (s : host_stats) : list string :=
  let host_color :=
    if negb (failures s =? 0) || negb (unreachable s =? 0) then "rlo.task.result.failed"
    else if negb (changed s =? 0) then "rlo.task.result.changed"
    else "rlo.task.result.ok" in
  [ "[bold][" +:+ host_color +:+ "]" +:+ host;
    str_of_int (ok s); str_of_int (changed s); str_of_int (unreachable s);
    str_of_int (failures s); str_of_int (skipped s); str_of_int (rescued s);
    str_of_int (ignored s) ].

(** [seconds] is the wall-clock time since [__init__]. *)
Definition v2_playbook_on_stats (st : state) (processed : list (string * host_stats))
    (seconds : float) : state * list printed :=
  let table := RTable seconds (map (fun hs => recap_row (fst hs) (snd hs))
                                   (sorted_hosts processed)) in
  (live_stop st, _print false [] ++ _print false [table]).

(** *** The event stream *)

(** The callbacks the engine invokes, with their arguments. *)
Inductive event :=
| PlayStart (play_name : string) (play_check_mode : bool)
| RunnerStart (host : string) (t : task)
| RunnerOk (result : task_result) (slot_elapsed : float)
| RunnerSkipped (result : task_result) (slot_elapsed : float)
| RunnerFailed (result : task_result) (slot_elapsed : float)
| RunnerUnreachable (result : task_result) (slot_elapsed : float)
| RunnerRetry (result : task_result)
| Notify (handler : task) (host : string)
| NoHostsMatched
| Stats (processed : list (string * host_stats)) (seconds : float).

Definition handle (st : state) (ev : event) : outcome (state * list printed) :=
  match ev with
  | PlayStart n c => Returned (v2_playbook_on_play_start st n c)
  | RunnerStart h t => Returned (v2_runner_on_start st h t, [])
  | RunnerOk r e => _on_finished_task st r "ok" e
  | RunnerSkipped r e => _on_finished_task st r "skipped" e
  | RunnerFailed r e => _on_finished_task st r "failed" e
  | RunnerUnreachable r e => _on_finished_task st r "unreachable" e
  | RunnerRetry r => v2_runner_retry st r
  | Notify t h => Returned (v2_playbook_on_notify st t h)
  | NoHostsMatched => Returned (v2_playbook_on_no_hosts_matched st)
  | Stats p s => Returned (v2_playbook_on_stats st p s)
  end.

(** The engine reports an exception of a callback and goes on with the next
    event; the exceptions of [exn] are raised before a handler changes
    anything. *)
Definition step (st : state) (ev : event) : state * list printed :=
  match handle st ev with
  | Returned r => r
  | Raised _ => (st, [])
  end.

Fixpoint run (st : state) (evs : list event) : state * list printed :=
  match evs with
  | [] => (st, [])
  | ev :: evs' =>
      let '(st1, out1) := step st ev in
      let '(st2, out2) := run st1 evs' in
      (st2, out1 ++ out2)
  end.

End Handlers.

End Callback.
Export Callback.

(* ===================================================================== *)
(** ** What the console accepts *)
(* ===================================================================== *)

Module Markup.

(** The texts of an argument that [console.print] reads as markup: a [str],
    and the cells of a table.  The time stamp is a fixed text of matched
    tags, an elapsed time is a [Text] object. *)
Definition markup_of (r : renderable) : list string :=
  match r with
  | RStr s => [s]
  | RTable _ rows => concat rows
  | RTimestamp | RElapsed _ => []
  end.

(** The call [p] of [self._print] does not raise: [console.out] reads no
    markup, and [console.print] takes every text of its arguments, [accepts s]
    being the answer of rich for the text [s]. *)
Definition accepted (accepts : string -> bool) (p : printed) : bool :=
  match p with
  | Print true _ => true
  | Print false args => forallb (fun r => forallb accepts (markup_of r)) args
  end.

Definition all_accepted (accepts : string -> bool) (out : list printed) : bool :=
  forallb (accepted accepts) out.

(** What reaches the console of the calls [out] that one handler makes in this
    order: the handler stops at the first call that raises.  (What the handler
    assigned before that call stays assigned; the statements on the state
    after a stream are made for streams whose calls are accepted.) *)
Fixpoint console_receives (accepts : string -> bool) (out : list printed)
    : list printed :=
  match out with
  | [] => []
  | p :: rest =>
      if accepted accepts p then p :: console_receives accepts rest else []
  end.

(** *** An acceptance test for concrete runs

    The test of rich as far as the tags go: a tag is [[] , a character of
    [a-z#/@], characters other than [[] and [\]]; its name is its text up to
    [=]; a tag [[/name]] closes the tag [[name]] that was opened last and is
    still open, [[/]] the tag opened last, and a closing tag that closes
    nothing is refused.  Backslash escapes and the normalization of style
    names are left out. *)
Definition tag_start (c : ascii) : bool :=
  let n := nat_of_ascii c in
  ((97 <=? n)%nat && (n <=? 122)%nat) || (n =? 35)%nat || (n =? 47)%nat || (n =? 64)%nat.

Fixpoint tag_name (t : string) : string :=
  match t with
  | EmptyString => EmptyString
  | String c t' => if Ascii.eqb c "=" then EmptyString else String c (tag_name t')
  end.

(** The open tags, the one opened last first, without the last one opened
    under [name]. *)
Fixpoint pop_style (name : string) (open : list string) : option (list string) :=
  match open with
  | [] => None
  | t :: rest =>
      if String.eqb t name then Some rest
      else option_map (cons t) (pop_style name rest)
  end.

Definition close_or_open (t : string) (open : list string) : option (list string) :=
  match tag_name t with
  | String "/" style_name =>
      if String.eqb style_name ""
      then match open with [] => None | _ :: rest => Some rest end
      else pop_style style_name open
  | name => Some (name :: open)
  end.

(** [tag] is the text read since the last [[], when a tag can still come of
    it. *)
Fixpoint scan_tags (open : list string) (tag : option string) (s : string) : bool :=
  match s with
  | EmptyString => true
  | String c s' =>
      match tag with
      | None => scan_tags open (if Ascii.eqb c "[" then Some EmptyString else None) s'
      | Some t =>
          if Ascii.eqb c "[" then scan_tags open (Some EmptyString) s'
          else if String.eqb t "" then
            scan_tags open (if tag_start c then Some (String c EmptyString) else None) s'
          else if Ascii.eqb c "]" then
            match close_or_open t open with
            | Some open' => scan_tags open' None s'
            | None => false
            end
          else scan_tags open (Some (t +:+ String c EmptyString)) s'
      end
  end.

Definition matched_tags (s : string) : bool := scan_tags [] None s.

Lemma all_accepted_app (accepts : string -> bool) (a b : list printed) :
  all_accepted accepts (a ++ b) = all_accepted accepts a && all_accepted accepts b.
Proof. apply forallb_app. Qed.



(** A call that is refused ends the handler: nothing that comes after it
    reaches the console. *)
Lemma console_receives_refused (accepts : string -> bool) (before : list printed)
    (p : printed) (after : list printed) :
  all_accepted accepts before = true -> accepted accepts p = false ->
  console_receives accepts (before ++ p :: after) = before.
Proof.
  intros Hb Hp. induction before as [|q before IH].
  - cbn [app console_receives]. rewrite Hp. reflexivity.
  - cbn [all_accepted forallb] in Hb. apply andb_true_iff in Hb as [Hq Hb].
    cbn [app console_receives]. rewrite Hq. f_equal. apply IH. exact Hb.
Qed.

End Markup.
Export Markup.

(* ===================================================================== *)
(** ** Visibility policy *)
(* ===================================================================== *)

Module Visibility.

(** A "debug"-kind action without suppression. *)
Definition unsuppressed_debug (result : task_result) : Prop :=
  task_action (_task result) = "debug" /\ task_no_log (_task result) = false.

(** A task and a result for concrete runs. *)
Definition plain_task (action : string) (no_log : bool) : task :=
  {| task_name := "show"; task_action := action; task_no_log := no_log;
     task_check_mode := false; task_delegate_to := None; task_role := None;
     task_vars := []; task_loop := false; task_is_handler := false;
     task_path := "site.yml:3" |}.

Definition plain_result (action : string) (no_log changed : bool) : task_result :=
  {| _host := "web1"; _task := plain_task action no_log; _result := [];
     is_changed := changed |}.

(** Verbosity 0, no option set. *)
Definition quiet_options : options :=
  {| verbosity := 0; display_skipped_hosts := false; display_ok_hosts := false;
     check_mode_markers := false; show_task_path_on_failure := false |}.

Lemma unsuppressed_debug_bool (result : task_result) :
  String.eqb (task_action (_task result)) "debug" && negb (task_no_log (_task result)) = true
  <-> unsuppressed_debug result.
Proof.
  unfold unsuppressed_debug.
  rewrite andb_true_iff, String.eqb_eq, negb_true_iff. reflexivity.
Qed.

Lemma run_is_verbose_gt (opts : options) (d : dict) (level : Z) :
  _run_is_verbose opts d level = true <-> verbosity opts > level.
Proof. unfold _run_is_verbose. rewrite Z.gtb_gt. reflexivity. Qed.

(** The decision of [_should_log_task], disjunct by disjunct. *)
Lemma should_log_task_iff (opts : options) (result : task_result) (status : string) :
  _should_log_task opts result status = true <->
  ( verbosity opts > 1
    \/ unsuppressed_debug result
    \/ status = "failed" \/ status = "unreachable"
    \/ (status = "skipped"
        /\ (display_skipped_hosts opts = true \/ verbosity opts > 2))
    \/ (status = "ok"
        /\ (is_changed result = true \/ display_ok_hosts opts = true
            \/ verbosity opts > 2)) ).
Proof.
  unfold _should_log_task.
  rewrite <- !run_is_verbose_gt with (d := _result result).
  rewrite <- unsuppressed_debug_bool.
  rewrite <- !String.eqb_eq.
  destruct (_run_is_verbose opts (_result result) 1),
    (String.eqb (task_action (_task result)) "debug" && negb (task_no_log (_task result))),
    (String.eqb status "failed"), (String.eqb status "unreachable"),
    (String.eqb status "skipped"), (String.eqb status "ok"),
    (display_skipped_hosts opts), (display_ok_hosts opts), (is_changed result),
    (_run_is_verbose opts (_result result) 2); simpl; intuition congruence.
Qed.

(** C1, as the claim states its first truth-table row, fails: at verbosity 0,
    with no option set, a ["debug"] task without [no_log] that ends [ok]
    without a change (or is [skipped]) is logged. *)
Lemma should_log_task_debug_row_counterexample :
  verbosity quiet_options = 0
  /\ display_ok_hosts quiet_options = false
  /\ display_skipped_hosts quiet_options = false
  /\ is_changed (plain_result "debug" false false) = false
  /\ _should_log_task quiet_options (plain_result "debug" false false) "ok" = true
  /\ _should_log_task quiet_options (plain_result "debug" false false) "skipped" = true.
Proof. repeat split; reflexivity. Qed.

(** C1 (amended): [_should_log_task] returns true exactly when the verbosity
    exceeds 1, or the task is a ["debug"] action without [no_log], or the
    status is [failed] or [unreachable], or it is [skipped] and
    [display_skipped_hosts] is set or the verbosity exceeds 2, or it is [ok]
    and the result reports a change or [display_ok_hosts] is set or the
    verbosity exceeds 2.  At verbosity 0: [failed] is logged; [skipped] with
    [display_skipped_hosts] is logged; and, for a task that is not a ["debug"]
    action without [no_log], [ok] without a change and without
    [display_ok_hosts] is not logged, nor is [skipped] without
    [display_skipped_hosts]. *)
Theorem should_log_task_policy :
  forall (opts : options) (result : task_result) (status : string),
    (_should_log_task opts result status = true <->
     ( verbosity opts > 1
       \/ unsuppressed_debug result
       \/ status = "failed" \/ status = "unreachable"
       \/ (status = "skipped"
           /\ (display_skipped_hosts opts = true \/ verbosity opts > 2))
       \/ (status = "ok"
           /\ (is_changed result = true \/ display_ok_hosts opts = true
               \/ verbosity opts > 2)) ))
    /\ (verbosity opts = 0 ->
        _should_log_task opts result "failed" = true
        /\ (display_skipped_hosts opts = true ->
            _should_log_task opts result "skipped" = true)
        /\ (~ unsuppressed_debug result ->
            is_changed result = false -> display_ok_hosts opts = false ->
            _should_log_task opts result "ok" = false)
        /\ (~ unsuppressed_debug result ->
            display_skipped_hosts opts = false ->
            _should_log_task opts result "skipped" = false)).
Proof.
  intros opts result status. split; [apply should_log_task_iff|].
  intros Hv. repeat split.
  - apply should_log_task_iff. auto.
  - intros Hd. apply should_log_task_iff. do 4 right. left. auto.
  - intros Hnd Hc Ho. apply not_true_iff_false. rewrite should_log_task_iff.
    intros [H|[H|[H|[H|[[H _]|[_ [H|[H|H]]]]]]]]; try congruence; try lia; try discriminate; tauto.
  - intros Hnd Hs. apply not_true_iff_false. rewrite should_log_task_iff.
    intros [H|[H|[H|[H|[[_ [H|H]]|[H _]]]]]]; try congruence; try lia; try discriminate; tauto.
Qed.

End Visibility.

(* ===================================================================== *)
(** ** Result shaping and the choice of the payload *)
(* ===================================================================== *)

Module Shaping.

Import Visibility.

Local Arguments String.eqb : simpl never.

(** Collaborators for concrete runs: internal keys are those that start with
    [_ansible_], the identity transformer is configured. *)
Definition plain_collaborators : collaborators :=
  {| strip_internal_keys :=
       List.filter (fun kv => negb (startswith (fst kv) "_ansible_"));
     get_diff := fun _ => "";
     yaml_text := fun _ => "  ...";
     user_transformer := Identity |}.

(** The two forms of a structured payload. *)
Inductive result_form := Comprehensive | Reduced.

Definition preprocessor (opts : options) (ext : collaborators) (form : result_form)
    : dict -> task -> dict :=
  match form with
  | Comprehensive => _get_comprehensive_result_object opts ext
  | Reduced => _get_reduced_result_object opts
  end.

(** The form the policy selects for a finished task, if any. *)
Definition selected_form (opts : options) (result : task_result) (status : string)
    : option result_form :=
  if _should_print_comprehensive_task_result opts result status then Some Comprehensive
  else if _should_print_reduced_task_result opts result status then Some Reduced
  else None.

(** A printed structured payload: the one [print] of [_print_result]. *)
Definition is_result_payload (p : printed) : bool :=
  match p with
  | Print false [RStr s] => startswith s "[bold][bright_magenta]"
  | _ => false
  end.

Definition result_payloads (out : list printed) : list printed :=
  List.filter is_result_payload out.

(** A line written by [_log]: it starts with the time stamp. *)
Definition is_log_line (p : printed) : bool :=
  match p with
  | Print false (RTimestamp :: _) => true
  | _ => false
  end.

(** What a handler printed; nothing when it raised. *)
Definition printed_by (o : outcome (state * list printed)) : list printed :=
  match o with
  | Returned (_, out) => out
  | Raised _ => []
  end.

(** *** Dictionary lemmas *)

Lemma dict_get_set (k k' : string) (v : pyval) (d : dict) :
  dict_get k (dict_set k' v d) = if String.eqb k' k then Some v else dict_get k d.
Proof.
  induction d as [|[k0 w] d IH]; simpl.
  - reflexivity.
  - destruct (String.eqb_spec k0 k') as [->|Hne]; simpl.
    + destruct (String.eqb k' k); reflexivity.
    + rewrite IH. destruct (String.eqb_spec k0 k) as [->|Hne'].
      * destruct (String.eqb_spec k' k) as [->|]; [congruence | reflexivity].
      * reflexivity.
Qed.

Lemma dict_keys_set_in (k : string) (v : pyval) (d : dict) (x : string) :
  In x (dict_keys (dict_set k v d)) -> x = k \/ In x (dict_keys d).
Proof.
  unfold dict_keys. induction d as [|[k0 w] d IH]; simpl.
  - intros [<-|[]]. auto.
  - destruct (String.eqb_spec k0 k) as [->|Hne]; simpl.
    + intros [<-|H]; auto.
    + intros [<-|H]; auto. destruct (IH H); auto.
Qed.

Lemma dict_set_NoDup (k : string) (v : pyval) (d : dict) :
  List.NoDup (dict_keys d) -> List.NoDup (dict_keys (dict_set k v d)).
Proof.
  unfold dict_keys. induction d as [|[k0 w] d IH]; simpl; intros Hnd.
  - constructor; [intros []|constructor].
  - inversion Hnd as [|? ? Hnin Hnd']; subst.
    destruct (String.eqb_spec k0 k) as [->|Hne]; simpl.
    + constructor; assumption.
    + constructor; [|auto].
      intros Hin. destruct (dict_keys_set_in k v d k0 Hin); [congruence|].
      apply Hnin. assumption.
Qed.

(** *** Censorship *)

Definition censored (opts : options) (t : task) : bool :=
  task_no_log t && negb (verbosity opts >? 2).

(** C7: for a task with [no_log] set, at verbosity 0, both shapers return the
    fixed censored object, the mapping with the single key [censored] and its
    fixed message, whatever the result holds (and whatever the status, which
    the shapers do not read). *)
Theorem no_log_result_is_censored
    (opts : options) (ext : collaborators) (result : dict) (t : task) :
  task_no_log t = true ->
  verbosity opts = 0 ->
  _get_comprehensive_result_object opts ext result t = _censored_no_log_response
  /\ _get_reduced_result_object opts result t = _censored_no_log_response
  /\ _censored_no_log_response =
     [("censored",
       PStr "the output has been hidden due to the fact that 'no_log: true' was specified for this result (via RLO)")].
Proof.
  intros Hnl Hv.
  unfold _get_comprehensive_result_object, _get_reduced_result_object, _run_is_verbose.
  rewrite Hnl, Hv. simpl. repeat split; reflexivity.
Qed.

Definition secret_result : dict :=
  [("stdout", PStr "hunter2"); ("msg", PStr "password set"); ("changed", PBool true)].

Lemma no_log_result_is_censored_witness :
  _get_comprehensive_result_object quiet_options plain_collaborators secret_result
    (plain_task "command" true) = _censored_no_log_response
  /\ _get_reduced_result_object quiet_options secret_result (plain_task "command" true)
     = _censored_no_log_response
  /\ _censored_no_log_response =
     [("censored",
       PStr "the output has been hidden due to the fact that 'no_log: true' was specified for this result (via RLO)")].
Proof.
  apply (no_log_result_is_censored quiet_options plain_collaborators secret_result
           (plain_task "command" true)); reflexivity.
Defined.

(** *** The reduced object *)

(** The entries the reduced object is allowed to hold, key by key. *)
Definition reduced_entry (result : dict) (t : task) (key : string) : option pyval :=
  if String.eqb key "stdout" then dict_get "stdout" result
  else if String.eqb key "stderr" then dict_get "stderr" result
  else if String.eqb key "msg" then
    match dict_get "msg" result with
    | Some v => if is_str v "All items completed" then None else Some v
    | None => None
    end
  else if String.eqb key "task_vars" then
    match task_vars t with
    | [] => None
    | _ :: _ => Some (PDict (task_vars t))
    end
  else None.

Lemma reduced_object_lookup (opts : options) (result : dict) (t : task) (key : string) :
  censored opts t = false ->
  dict_get key (_get_reduced_result_object opts result t) = reduced_entry result t key.
Proof.
  unfold censored, _get_reduced_result_object, _run_is_verbose, reduced_entry.
  intros ->.
  rewrite (String.eqb_sym key "stdout"), (String.eqb_sym key "stderr"),
    (String.eqb_sym key "msg"), (String.eqb_sym key "task_vars").
  cbn [fold_left truthy].
  destruct (dict_get "stdout" result) as [so|];
  destruct (dict_get "stderr" result) as [se|];
  destruct (dict_get "msg" result) as [m|];
  try destruct (is_str m "All items completed");
  destruct (task_vars t) as [|kv vars]; cbn [negb];
  rewrite ?dict_get_set; cbn [dict_get];
  destruct (String.eqb_spec "stdout" key) as [<-|]; try reflexivity;
  destruct (String.eqb_spec "stderr" key) as [<-|]; try reflexivity;
  destruct (String.eqb_spec "msg" key) as [<-|]; try reflexivity;
  destruct (String.eqb_spec "task_vars" key) as [<-|]; reflexivity.
Qed.

Lemma reduced_object_NoDup (opts : options) (result : dict) (t : task) :
  List.NoDup (dict_keys (_get_reduced_result_object opts result t)).
Proof.
  unfold _get_reduced_result_object.
  destruct (task_no_log t && negb (_run_is_verbose opts result 2)).
  - simpl. constructor; [intros []|constructor].
  - cbn [fold_left truthy].
    destruct (dict_get "stdout" result); destruct (dict_get "stderr" result);
    destruct (dict_get "msg" result) as [m|];
    try destruct (negb (is_str m "All items completed"));
    destruct (task_vars t);
    repeat (apply dict_set_NoDup); constructor.
Qed.

(** C8: for a result and a task that are not censored, the reduced object
    holds exactly the [stdout] and [stderr] entries of the result when present,
    its [msg] entry when present and different from ["All items completed"],
    and [task_vars] when the task has variables of its own: each key is found
    with the value [reduced_entry] gives and no key occurs twice.  When the
    object is empty [_print_result] prints nothing (and completes). *)
Theorem reduced_result_object_exact
    (opts : options) (ext : collaborators) (result : dict) (t : task) :
  censored opts t = false ->
  (forall key, dict_get key (_get_reduced_result_object opts result t)
               = reduced_entry result t key)
  /\ List.NoDup (dict_keys (_get_reduced_result_object opts result t))
  /\ (forall key, In key (dict_keys (_get_reduced_result_object opts result t)) ->
                  In key ["stdout"; "stderr"; "msg"; "task_vars"])
  /\ (_get_reduced_result_object opts result t = [] ->
      _print_result ext result t (_get_reduced_result_object opts) = []).
Proof.
  intros Hc. split; [|split; [|split]].
  - intros key. apply reduced_object_lookup. assumption.
  - apply reduced_object_NoDup.
  - intros key Hin.
    assert (Hsome : dict_get key (_get_reduced_result_object opts result t) <> None).
    { revert Hin. generalize (_get_reduced_result_object opts result t).
      unfold dict_keys. intros d. induction d as [|[k0 w] d IH]; simpl; [tauto|].
      intros [->|Hin]; [rewrite String.eqb_refl; discriminate|].
      destruct (String.eqb k0 key); [discriminate|auto]. }
    rewrite reduced_object_lookup in Hsome by assumption.
    unfold reduced_entry in Hsome. simpl.
    destruct (String.eqb_spec key "stdout"); [auto|].
    destruct (String.eqb_spec key "stderr"); [auto|].
    destruct (String.eqb_spec key "msg"); [auto|].
    destruct (String.eqb_spec key "task_vars"); [auto 6|].
    congruence.
  - intros Hempty. unfold _print_result. rewrite Hempty. reflexivity.
Qed.

Definition loop_result : dict :=
  [("msg", PStr "All items completed"); ("stdout", PStr "done"); ("rc", PInt 0)].

Lemma reduced_result_object_exact_witness :
  (forall key, dict_get key (_get_reduced_result_object quiet_options loop_result
                               (plain_task "command" false))
               = reduced_entry loop_result (plain_task "command" false) key)
  /\ List.NoDup (dict_keys (_get_reduced_result_object quiet_options loop_result
                              (plain_task "command" false)))
  /\ (forall key, In key (dict_keys (_get_reduced_result_object quiet_options loop_result
                                       (plain_task "command" false))) ->
                  In key ["stdout"; "stderr"; "msg"; "task_vars"])
  /\ (_get_reduced_result_object quiet_options loop_result (plain_task "command" false) = [] ->
      _print_result plain_collaborators loop_result (plain_task "command" false)
        (_get_reduced_result_object quiet_options) = []).
Proof.
  apply (reduced_result_object_exact quiet_options plain_collaborators loop_result
           (plain_task "command" false)).
  reflexivity.
Defined.

End Shaping.

(* ===================================================================== *)
(** ** What a finished task prints *)
(* ===================================================================== *)

Module Dispatch.

Import Visibility Shaping.

(** The payload a finished task prints according to the policy. *)
Definition payload_output (opts : options) (ext : collaborators)
    (result : task_result) (status : string) : list printed :=
  match selected_form opts result status with
  | Some form =>
      _print_result ext (_result result) (_task result) (preprocessor opts ext form)
  | None => []
  end.

Definition is_raw (p : printed) : bool :=
  match p with Print raw _ => raw end.





Lemma log_task_lines (st : state) (message : string) (elapsed : option float) :
  List.Forall (fun p => is_log_line p = true) (snd (_log_task st message elapsed)).
Proof.
  unfold _log_task.
  destruct (_should_print_role st), elapsed; simpl; repeat constructor.
Qed.

Lemma print_single_diff_raw (ext : collaborators) (d : dict) :
  List.Forall (fun p => is_raw p = true) (_print_single_diff ext d).
Proof.
  unfold _print_single_diff.
  destruct (dict_get "diff" d); [|constructor].
  match goal with |- context [if ?c then _ else _] => destruct c end;
    repeat constructor.
Qed.

Lemma print_diff_raw (ext : collaborators) (result : task_result) :
  List.Forall (fun p => is_raw p = true) (_print_diff ext result).
Proof.
  unfold _print_diff.
  match goal with |- context [match ?x with Some _ => _ | None => _ end] => destruct x as [results|] end.
  - match goal with |- context [flat_map _ ?items] =>
      induction items as [|res rest IH]
    end; simpl.
    + constructor.
    + apply List.Forall_app. split; [|exact IH].
      destruct res; try constructor.
      destruct (has_changed_diff items); [apply print_single_diff_raw | constructor].
  - destruct (has_changed_diff (_result result)); [apply print_single_diff_raw | constructor].
Qed.

Lemma print_result_shape (ext : collaborators) (result : dict) (t : task)
    (pre : dict -> task -> dict) :
  result_payloads (_print_result ext result t pre) = _print_result ext result t pre
  /\ (length (_print_result ext result t pre) <= 1)%nat.
Proof.
  unfold _print_result.
  destruct (truthy (PDict (pre result t))); (split; [reflexivity | simpl; lia]).
Qed.

Lemma payload_output_shape (opts : options) (ext : collaborators)
    (result : task_result) (status : string) :
  result_payloads (payload_output opts ext result status)
    = payload_output opts ext result status
  /\ (length (payload_output opts ext result status) <= 1)%nat.
Proof.
  unfold payload_output. destruct (selected_form opts result status).
  - apply print_result_shape.
  - simpl. auto.
Qed.

(** The output of [_on_finished_task] for a host of the table: the log part,
    the diff, the payload and the task path, in this order. *)
Lemma on_finished_task_output (opts : options) (ext : collaborators) (st : state)
    (result : task_result) (status : string) (slot_elapsed : float) (id : nat) :
  _hosts st !! _host result = Some id ->
  exists st' out_log out_diff out_path,
    _on_finished_task opts ext st result status slot_elapsed
      = Returned (st', out_log ++ out_diff ++ payload_output opts ext result status ++ out_path)
    /\ List.Forall (fun p => is_log_line p = true) out_log
    /\ List.Forall (fun p => is_raw p = true) out_diff
    /\ result_payloads out_path = [].
Proof.
  intros Hid. unfold _on_finished_task.
  cbv beta iota zeta delta [_get_task_infos]. rewrite Hid.
  unfold payload_output, selected_form, preprocessor.
  set (out_res := if _should_print_comprehensive_task_result opts result status
                  then _ else _).
  assert (Hres : out_res =
    match (if _should_print_comprehensive_task_result opts result status
           then Some Comprehensive
           else if _should_print_reduced_task_result opts result status
                then Some Reduced else None) with
    | Some form =>
        _print_result ext (_result result) (_task result)
          match form with
          | Comprehensive => _get_comprehensive_result_object opts ext
          | Reduced => _get_reduced_result_object opts
          end
    | None => []
    end).
  { unfold out_res.
    destruct (_should_print_comprehensive_task_result opts result status); [reflexivity|].
    destruct (_should_print_reduced_task_result opts result status); reflexivity. }
  rewrite <- Hres. clearbody out_res. clear Hres.
  match goal with
  | |- context [let '(st1, elapsed) := ?x in _] => destruct x as [st1 elapsed]
  end.
  match goal with
  | |- context [let '(st3, out_log) := ?x in _] =>
      assert (Hlog : List.Forall (fun p => is_log_line p = true) (snd x));
      [| destruct x as [st3 out_log]]
  end.
  { destruct (_should_log_task opts result status); [apply log_task_lines | constructor]. }
  eexists st3, out_log, _, _. split; [reflexivity|]. split; [exact Hlog|]. split.
  - destruct (is_changed result); [apply print_diff_raw | constructor].
  - destruct (String.eqb status "failed" && show_task_path_on_failure opts); reflexivity.
Qed.

Lemma comprehensive_predicate_iff (opts : options) (result : task_result) (status : string) :
  _should_print_comprehensive_task_result opts result status = true <->
  verbosity opts > 3 \/ status = "failed" \/ unsuppressed_debug result.
Proof.
  unfold _should_print_comprehensive_task_result.
  rewrite <- run_is_verbose_gt with (d := _result result).
  rewrite <- unsuppressed_debug_bool, <- String.eqb_eq.
  destruct (_run_is_verbose opts (_result result) 3), (String.eqb status "failed"),
    (String.eqb (task_action (_task result)) "debug" && negb (task_no_log (_task result)));
    simpl; intuition congruence.
Qed.

Lemma reduced_predicate_iff (opts : options) (result : task_result) (status : string) :
  _should_print_reduced_task_result opts result status = true <->
  verbosity opts > 1 \/ (status = "ok" /\ is_changed result = true).
Proof.
  unfold _should_print_reduced_task_result.
  rewrite <- run_is_verbose_gt with (d := _result result).
  rewrite <- String.eqb_eq.
  destruct (_run_is_verbose opts (_result result) 1), (String.eqb status "ok"),
    (is_changed result); simpl; intuition congruence.
Qed.

Lemma selected_comprehensive_iff (opts : options) (result : task_result) (status : string) :
  selected_form opts result status = Some Comprehensive <->
  _should_print_comprehensive_task_result opts result status = true.
Proof.
  unfold selected_form.
  destruct (_should_print_comprehensive_task_result opts result status);
    [intuition congruence|].
  destruct (_should_print_reduced_task_result opts result status);
    intuition congruence.
Qed.

Lemma selected_reduced_iff (opts : options) (result : task_result) (status : string) :
  selected_form opts result status = Some Reduced <->
  _should_print_comprehensive_task_result opts result status = false
  /\ _should_print_reduced_task_result opts result status = true.
Proof.
  unfold selected_form.
  destruct (_should_print_comprehensive_task_result opts result status);
    [intuition congruence|].
  destruct (_should_print_reduced_task_result opts result status);
    intuition congruence.
Qed.




Definition after_start : state :=
  v2_runner_on_start quiet_options (init true) "web1" (plain_task "command" false).




(** The same failed task under a name with a closing tag that closes nothing:
    the console refuses its line, and the payload of the event is not
    printed. *)
Definition failed_hosts_file : task_result :=
  {| _host := "web1";
     _task := {| task_name := "copy [/etc/hosts]"; task_action := "copy";
                 task_no_log := false; task_check_mode := false;
                 task_delegate_to := None; task_role := None; task_vars := [];
                 task_loop := false; task_is_handler := false;
                 task_path := "site.yml:9" |};
     _result := [("msg", PStr "non-zero return code"); ("rc", PInt 2)];
     is_changed := false |}.

Lemma refused_line_ends_the_event :
  result_payloads
    (printed_by (_on_finished_task quiet_options plain_collaborators after_start
                   failed_hosts_file "failed" (S754_zero false)))
  = [Print false [RStr "[bold][bright_magenta]  ...[/bold][/bright_magenta]"]]
  /\ console_receives matched_tags
       (printed_by (_on_finished_task quiet_options plain_collaborators after_start
                      failed_hosts_file "failed" (S754_zero false))) = [].
Proof. split; vm_compute; reflexivity. Qed.

End Dispatch.

(* ===================================================================== *)
(** ** The traversal [transform_dict] *)
(* ===================================================================== *)

Module Traversal.

(** Induction over nested values. *)
Section PyvalInduction.

Variable P : pyval -> Prop.
Hypothesis HStr : forall s, P (PStr s).
Hypothesis HDict : forall items, List.Forall (fun kv => P (snd kv)) items -> P (PDict items).
Hypothesis HTuple : forall elems, List.Forall P elems -> P (PTuple elems).
Hypothesis HList : forall elems, List.Forall P elems -> P (PList elems).
Hypothesis HNone : P PNone.
Hypothesis HInt : forall z, P (PInt z).
Hypothesis HFloat : forall f, P (PFloat f).
Hypothesis HBool : forall b, P (PBool b).
Hypothesis HGenerator : forall elems, List.Forall P elems -> P (PGenerator elems).
Hypothesis HOther : forall ty, P (POther ty).

Fixpoint pyval_nested_ind (v : pyval) : P v :=
  let all :=
    fix all (l : list pyval) : List.Forall P l :=
      match l with
      | [] => @List.Forall_nil _ P
      | x :: l' => @List.Forall_cons _ P x l' (pyval_nested_ind x) (all l')
      end in
  match v with
  | PStr s => HStr s
  | PDict items =>
      HDict items
        ((fix all_items (l : list (string * pyval))
            : List.Forall (fun kv => P (snd kv)) l :=
            match l with
            | [] => @List.Forall_nil _ _
            | kv :: l' =>
                @List.Forall_cons _ (fun kv => P (snd kv)) kv l'
                  (pyval_nested_ind (snd kv)) (all_items l')
            end) items)
  | PTuple elems => HTuple elems (all elems)
  | PList elems => HList elems (all elems)
  | PNone => HNone
  | PInt z => HInt z
  | PFloat f => HFloat f
  | PBool b => HBool b
  | PGenerator elems => HGenerator elems (all elems)
  | POther ty => HOther ty
  end.

End PyvalInduction.

(** A value built from dictionaries, lists and leaves: no tuple occurs in it. *)
Fixpoint no_tuple (v : pyval) : bool :=
  match v with
  | PDict items => forallb (fun kv => no_tuple (snd kv)) items
  | PList elems => forallb no_tuple elems
  | PTuple _ => false
  | _ => true
  end.

(** A value built from dictionaries, lists, strings, numbers, booleans and
    [None] only. *)
Fixpoint json_like (v : pyval) : bool :=
  match v with
  | PDict items => forallb (fun kv => json_like (snd kv)) items
  | PList elems => forallb json_like elems
  | PStr _ | PNone | PInt _ | PFloat _ | PBool _ => true
  | PTuple _ | PGenerator _ | POther _ => false
  end.

Definition is_leaf (v : pyval) : Prop :=
  match v with
  | PDict _ | PList _ | PTuple _ => False
  | _ => True
  end.

(** Numbers, booleans and [None]. *)
Definition is_scalar (v : pyval) : Prop :=
  match v with
  | PNone | PInt _ | PFloat _ | PBool _ => True
  | _ => False
  end.

(** The text of [type(v)] for a leaf of a type the traversal does not know. *)
Definition unrecognized_type (v : pyval) : option string :=
  match v with
  | POther ty => Some ty
  | PGenerator _ => Some "<class 'generator'>"
  | _ => None
  end.

(** Same shape: dictionaries with the same keys in the same order, lists of
    the same length, element by element; a leaf against a leaf. *)
Inductive same_shape : pyval -> pyval -> Prop :=
| shape_dict (items items' : dict) :
    map fst items = map fst items' ->
    List.Forall2 (fun kv kv' => same_shape (snd kv) (snd kv')) items items' ->
    same_shape (PDict items) (PDict items')
| shape_list (elems elems' : list pyval) :
    List.Forall2 same_shape elems elems' ->
    same_shape (PList elems) (PList elems')
| shape_leaf (v v' : pyval) :
    is_leaf v -> is_leaf v' -> same_shape v v'.

(** The value found by following keys and indices from the root. *)
Inductive selector := Key (k : string) | Index (i : nat).

Fixpoint get_path (p : list selector) (v : pyval) : option pyval :=
  match p with
  | [] => Some v
  | Key k :: p' =>
      match v with
      | PDict items =>
          match dict_get k items with
          | Some w => get_path p' w
          | None => None
          end
      | _ => None
      end
  | Index i :: p' =>
      match v with
      | PList elems =>
          match nth_error elems i with
          | Some w => get_path p' w
          | None => None
          end
      | _ => None
      end
  end.

Lemma dict_get_map (f : pyval -> pyval) (k : string) (items : dict) :
  dict_get k (map (fun kv => (fst kv, f (snd kv))) items)
  = option_map f (dict_get k items).
Proof.
  induction items as [|[k0 w] items IH]; simpl.
  - reflexivity.
  - destruct (String.eqb k0 k); [reflexivity | exact IH].
Qed.

(** The traversal commutes with the selection of a sub-value that is reached
    through dictionaries and lists. *)
Lemma get_path_transform (callback : string -> string) (p : list selector) :
  forall v,
    get_path p (transform_dict v callback)
    = option_map (fun w => transform_dict w callback) (get_path p v).
Proof.
  induction p as [|[k|i] p IH]; intros v.
  - reflexivity.
  - destruct v; try reflexivity. cbn [transform_dict get_path].
    rewrite (dict_get_map (fun w => transform_dict w callback)).
    destruct (dict_get k items) as [w|]; [apply IH | reflexivity].
  - destruct v; try reflexivity. cbn [transform_dict get_path].
    rewrite nth_error_map.
    destruct (nth_error elems i) as [w|]; [apply IH | reflexivity].
Qed.

Lemma get_path_transform_some (callback : string -> string) (p : list selector)
    (v w : pyval) :
  get_path p v = Some w ->
  get_path p (transform_dict v callback) = Some (transform_dict w callback).
Proof. intros H. rewrite get_path_transform, H. reflexivity. Qed.

Lemma transform_dict_same_shape (callback : string -> string) (v : pyval) :
  no_tuple v = true -> same_shape v (transform_dict v callback).
Proof.
  induction v as [s|items IH|elems IH|elems IH| | | | |elems IH|ty]
    using pyval_nested_ind; simpl; intros Hnt;
    try (apply shape_leaf; exact I); try discriminate.
  - apply shape_dict.
    + rewrite map_map. reflexivity.
    + induction IH as [|kv items Hkv IH IH']; simpl in *; constructor.
      * apply Hkv. apply andb_true_iff in Hnt. tauto.
      * apply IH'. apply andb_true_iff in Hnt. tauto.
  - apply shape_list.
    induction IH as [|x elems Hx IH IH']; simpl in *; constructor.
    + apply Hx. apply andb_true_iff in Hnt. tauto.
    + apply IH'. apply andb_true_iff in Hnt. tauto.
Qed.

Lemma transform_dict_identity (v : pyval) :
  json_like v = true -> transform_dict v (get_transform_callback Identity) = v.
Proof.
  induction v as [s|items IH|elems IH|elems IH| | | | |elems IH|ty]
    using pyval_nested_ind; simpl; intros Hj; try reflexivity; try discriminate.
  - f_equal. induction IH as [|[k w] items Hkv IH IH']; simpl in *; [reflexivity|].
    apply andb_true_iff in Hj. destruct Hj as [Hw Hrest].
    rewrite (Hkv Hw), (IH' Hrest). reflexivity.
  - f_equal. induction IH as [|x elems Hx IH IH']; simpl in *; [reflexivity|].
    apply andb_true_iff in Hj. destruct Hj as [Hw Hrest].
    rewrite (Hx Hw), (IH' Hrest). reflexivity.
Qed.

(** C3, the tuple branch: for a tuple the traversal returns a generator
    object where the branch of a list returns a list.  It is not the tuple
    (the identity transformer does not give the value back, and it is no
    sequence with a length), and a second traversal, as [_print_result] runs
    after the sanitizer, turns it into the unrecognized-type text: the
    elements of the tuple are lost. *)
Lemma transform_dict_tuple_counterexample :
  transform_dict (PTuple [PStr "a"; PInt 1]) (get_transform_callback Identity)
    = PGenerator [PStr "a"; PInt 1]
  /\ PGenerator [PStr "a"; PInt 1] <> PTuple [PStr "a"; PInt 1]
  /\ transform_dict (PList [PStr "a"; PInt 1]) (get_transform_callback Identity)
     = PList [PStr "a"; PInt 1]
  /\ transform_dict
       (transform_dict (PTuple [PStr "a"; PInt 1]) (get_transform_callback Sanitizer))
       (get_transform_callback Identity)
     = PStr "<RLO error - unrecognized type - <class 'generator'>>".
Proof. repeat split; try reflexivity. discriminate. Qed.

(** C3, what holds: for every value and every callback, [transform_dict]
    replaces each string leaf [s] reached through dictionaries and lists by
    [callback s], leaves numbers, booleans and [None] as they are, replaces a
    leaf of an unrecognized type by
    ["<RLO error - unrecognized type - {type}>"], and puts a generator of the
    transformed elements in the place of a tuple.  A value without tuples
    keeps its shape (the keys of each dictionary in their order, the length
    and order of each list), and with the identity transformer a value
    without tuples and without leaves of an unrecognized type is returned
    unchanged. *)
Theorem transform_dict_preserves_structure
    (v : pyval) (callback : string -> string) :
  (no_tuple v = true -> same_shape v (transform_dict v callback))
  /\ (forall p s, get_path p v = Some (PStr s) ->
        get_path p (transform_dict v callback) = Some (PStr (callback s)))
  /\ (forall p x, get_path p v = Some x -> is_scalar x ->
        get_path p (transform_dict v callback) = Some x)
  /\ (forall p x ty, get_path p v = Some x -> unrecognized_type x = Some ty ->
        get_path p (transform_dict v callback)
        = Some (PStr ("<RLO error - unrecognized type - " +:+ ty +:+ ">")))
  /\ (forall p elems, get_path p v = Some (PTuple elems) ->
        get_path p (transform_dict v callback)
        = Some (PGenerator (map (fun d => transform_dict d callback) elems)))
  /\ (json_like v = true ->
      transform_dict v (get_transform_callback Identity) = v).
Proof.
  split; [|split; [|split; [|split; [|split]]]].
  - apply transform_dict_same_shape.
  - intros p s H. apply (get_path_transform_some callback) in H. exact H.
  - intros p x H Hx. apply (get_path_transform_some callback) in H.
    rewrite H. destruct x; simpl in Hx; try contradiction; reflexivity.
  - intros p x ty H Hx. apply (get_path_transform_some callback) in H.
    rewrite H. destruct x; simpl in Hx; try discriminate; injection Hx as <-; reflexivity.
  - intros p elems H. apply (get_path_transform_some callback) in H. exact H.
  - apply transform_dict_identity.
Qed.

Definition sample_result : pyval :=
  PDict [("msg", PStr "done");
         ("rc", PInt 0);
         ("results", PList [PDict [("stdout", PStr "a"); ("skipped", PBool false)];
                            PNone]);
         ("handle", POther "<class 'bytes'>")].

Lemma transform_dict_preserves_structure_witness :
  no_tuple sample_result = true
  /\ same_shape sample_result (transform_dict sample_result (transform Dummy))
  /\ get_path [Key "results"; Index 0; Key "stdout"]
       (transform_dict sample_result (transform Dummy))
     = Some (PStr "RLODUMMYTRANSFORMER")
  /\ get_path [Key "rc"] (transform_dict sample_result (transform Dummy)) = Some (PInt 0)
  /\ get_path [Key "handle"] (transform_dict sample_result (transform Dummy))
     = Some (PStr "<RLO error - unrecognized type - <class 'bytes'>>").
Proof.
  destruct (transform_dict_preserves_structure sample_result (transform Dummy))
    as (Hshape & Hstr & Hscalar & Hother & _).
  split; [reflexivity|]. split; [apply Hshape; reflexivity|].
  split; [apply (Hstr [Key "results"; Index 0; Key "stdout"] "a"); reflexivity|].
  split; [apply (Hscalar [Key "rc"] (PInt 0)); [reflexivity | exact I]|].
  apply (Hother [Key "handle"] (POther "<class 'bytes'>") "<class 'bytes'>"); reflexivity.
Defined.

End Traversal.

(* ===================================================================== *)
(** ** The sanitizer *)
(* ===================================================================== *)

Module Sanitizing.

(** The placeholder of a blacklisted character. *)
Definition placeholder (c : ascii) : option string :=
  option_map snd (List.find (fun bw => Ascii.eqb (fst bw) c) BLACKLISTED_BYTES).

(** What one character becomes. *)
Definition sanitize_char (c : ascii) : string :=
  match placeholder c with
  | Some text => text
  | None => String c EmptyString
  end.

Fixpoint flat_map_string (f : ascii -> string) (s : string) : string :=
  match s with
  | EmptyString => EmptyString
  | String c s' => f c +:+ flat_map_string f s'
  end.

Definition BEL : ascii := "007"%char.
Definition BS : ascii := "008"%char.
Definition TAB : ascii := "009"%char.
Definition LF : ascii := "010"%char.
Definition FF : ascii := "012"%char.
Definition CR : ascii := "013"%char.
Definition ESC : ascii := "027"%char.
Definition DEL : ascii := "127"%char.

Lemma append_cons (x : ascii) (a b : string) :
  String x a +:+ b = String x (a +:+ b).
Proof. reflexivity. Qed.

Lemma append_assoc (a b c : string) : (a +:+ b) +:+ c = a +:+ (b +:+ c).
Proof.
  induction a as [|x a IH]; [reflexivity|].
  rewrite !append_cons, IH. reflexivity.
Qed.

Lemma str_replace_app (old : ascii) (new s1 s2 : string) :
  str_replace old new (s1 +:+ s2) = str_replace old new s1 +:+ str_replace old new s2.
Proof.
  induction s1 as [|c s1 IH]; [reflexivity|].
  rewrite append_cons. cbn [str_replace]. rewrite IH. destruct (Ascii.eqb c old).
  - rewrite append_assoc. reflexivity.
  - rewrite append_cons. reflexivity.
Qed.

Lemma Sanitizer_transform_app (s1 s2 : string) :
  Sanitizer_transform (s1 +:+ s2) = Sanitizer_transform s1 +:+ Sanitizer_transform s2.
Proof.
  unfold Sanitizer_transform, BLACKLISTED_BYTES. cbn [fold_left].
  rewrite !str_replace_app. reflexivity.
Qed.

Lemma Sanitizer_transform_char (c : ascii) :
  Sanitizer_transform (String c EmptyString) = sanitize_char c.
Proof.
  destruct c as [[|] [|] [|] [|] [|] [|] [|] [|]]; vm_compute; reflexivity.
Qed.

Lemma Sanitizer_transform_cons (c : ascii) (s : string) :
  Sanitizer_transform (String c s) = sanitize_char c +:+ Sanitizer_transform s.
Proof.
  change (String c s) with (String c EmptyString +:+ s).
  rewrite Sanitizer_transform_app, Sanitizer_transform_char. reflexivity.
Qed.

Lemma Sanitizer_transform_pointwise (s : string) :
  Sanitizer_transform s = flat_map_string sanitize_char s.
Proof.
  induction s as [|c s IH].
  - reflexivity.
  - rewrite Sanitizer_transform_cons, IH. reflexivity.
Qed.

(** A placeholder holds no blacklisted character. *)
Lemma sanitize_char_fixed (c : ascii) :
  Sanitizer_transform (sanitize_char c) = sanitize_char c.
Proof.
  destruct c as [[|] [|] [|] [|] [|] [|] [|] [|]]; vm_compute; reflexivity.
Qed.

Lemma Sanitizer_transform_idempotent (s : string) :
  Sanitizer_transform (Sanitizer_transform s) = Sanitizer_transform s.
Proof.
  induction s as [|c s IH].
  - reflexivity.
  - rewrite Sanitizer_transform_cons, Sanitizer_transform_app, sanitize_char_fixed, IH.
    reflexivity.
Qed.

Lemma sanitize_char_other (c : ascii) :
  ~ In c [BEL; BS; FF; CR; ESC; DEL] -> sanitize_char c = String c EmptyString.
Proof.
  unfold BEL, BS, FF, CR, ESC, DEL.
  destruct c as [[|] [|] [|] [|] [|] [|] [|] [|]]; intros Hnot;
    try reflexivity; exfalso; apply Hnot; simpl; tauto.
Qed.

(** C4: [Sanitizer.transform] replaces every occurrence of BEL, BS, FF, CR,
    ESC and DEL by [<BEL>], [<BS>], [<FF>], [<CR>], [<ESC>] and [<DEL>] and
    leaves every other character, tab and line feed among them, in place: the
    result is the concatenation of what each character becomes.  It is
    idempotent, and ['a' BEL 'b' ESC 'c'] becomes ["a<BEL>b<ESC>c"]. *)
Theorem sanitizer_replaces_control_characters :
  forall s : string,
    Sanitizer_transform s = flat_map_string sanitize_char s
    /\ (sanitize_char BEL = "<BEL>" /\ sanitize_char BS = "<BS>"
        /\ sanitize_char FF = "<FF>" /\ sanitize_char CR = "<CR>"
        /\ sanitize_char ESC = "<ESC>" /\ sanitize_char DEL = "<DEL>")
    /\ (sanitize_char TAB = String TAB EmptyString
        /\ sanitize_char LF = String LF EmptyString)
    /\ (forall c, ~ In c [BEL; BS; FF; CR; ESC; DEL] ->
                  sanitize_char c = String c EmptyString)
    /\ Sanitizer_transform (Sanitizer_transform s) = Sanitizer_transform s
    /\ transform Sanitizer (String "a" (String BEL (String "b" (String ESC "c"))))
       = "a<BEL>b<ESC>c".
Proof.
  intros s. split; [apply Sanitizer_transform_pointwise|].
  split; [repeat split; reflexivity|].
  split; [split; reflexivity|].
  split; [apply sanitize_char_other|].
  split; [apply Sanitizer_transform_idempotent | reflexivity].
Qed.

End Sanitizing.

(* ===================================================================== *)
(** ** Progress slots *)
(* ===================================================================== *)

Module Tracker.

Import Visibility Shaping.

(** A slot is live while rich's [Progress] holds a task under its id. *)
Definition live (st : state) (id : nat) : Prop :=
  is_Some (_progress_tasks st !! id).

Definition liveb (st : state) (id : nat) : bool :=
  bool_decide (is_Some (_progress_tasks st !! id)).

(** A host is running when the table points at a live slot. *)
Definition running (st : state) (host : string) : Prop :=
  exists id, _hosts st !! host = Some id /\ live st id.

(** The result of a finishing event. *)
Definition finished_result (ev : event) : option task_result :=
  match ev with
  | RunnerOk r _ | RunnerSkipped r _ | RunnerFailed r _ | RunnerUnreachable r _ => Some r
  | _ => None
  end.

(** The ids of the slots created for [host] while [evs] is handled from [st]
    ([add_task] hands out [_progress_task_index]). *)
Fixpoint created_for (opts : options) (ext : collaborators) (host : string)
    (st : state) (evs : list event) : list nat :=
  match evs with
  | [] => []
  | ev :: evs' =>
      match ev with
      | RunnerStart h _ =>
          if String.eqb h host then [_progress_task_index st] else []
      | _ => []
      end ++ created_for opts ext host (fst (step opts ext st ev)) evs'
  end.

(** The live slots of [host] after the stream [evs], from a fresh plugin. *)
Definition live_slots_of (opts : options) (ext : collaborators) (host : string)
    (evs : list event) : list nat :=
  List.filter (liveb (fst (run opts ext (init true) evs)))
              (created_for opts ext host (init true) evs).

(** At most one live slot per host. *)
Definition one_live_slot_per_host (opts : options) (ext : collaborators)
    (evs : list event) : Prop :=
  forall host, (length (live_slots_of opts ext host evs) <= 1)%nat.

(** Every start of a host is matched by a finishing event of that host before
    its next start; [busy] holds the hosts started and not yet finished. *)
Fixpoint well_matched (busy : gset string) (evs : list event) : bool :=
  match evs with
  | [] => true
  | ev :: evs' =>
      match ev with
      | RunnerStart h _ =>
          bool_decide (h ∉ busy) && well_matched ({[h]} ∪ busy) evs'
      | _ =>
          match finished_result ev with
          | Some r => well_matched (busy ∖ {[_host r]}) evs'
          | None => well_matched busy evs'
          end
      end
  end.

(** *** The effect of a step on the slots *)

Lemma handle_role_slots (st : state) (role_name : string) :
  _hosts (_handle_role st role_name) = _hosts st
  /\ _progress_tasks (_handle_role st role_name) = _progress_tasks st
  /\ _progress_task_index (_handle_role st role_name) = _progress_task_index st.
Proof.
  unfold _handle_role.
  repeat match goal with |- context [if ?c then _ else _] => destruct c end;
    simpl; auto.
Qed.

Lemma log_task_slots (st : state) (message : string) (elapsed : option float) :
  _hosts (fst (_log_task st message elapsed)) = _hosts st
  /\ _progress_tasks (fst (_log_task st message elapsed)) = _progress_tasks st
  /\ _progress_task_index (fst (_log_task st message elapsed)) = _progress_task_index st.
Proof. unfold _log_task. destruct (_should_print_role st); simpl; auto. Qed.

Lemma on_finished_task_slots (opts : options) (ext : collaborators) (st : state)
    (result : task_result) (status : string) (slot_elapsed : float) :
  match _hosts st !! _host result with
  | None =>
      _on_finished_task opts ext st result status slot_elapsed
      = Raised (KeyError (_host result))
  | Some id =>
      exists st' out,
        _on_finished_task opts ext st result status slot_elapsed = Returned (st', out)
        /\ _hosts st' = _hosts st
        /\ _progress_tasks st' = delete id (_progress_tasks st)
        /\ _progress_task_index st' = _progress_task_index st
  end.
Proof.
  unfold _on_finished_task. cbv beta iota zeta delta [_get_task_infos].
  destruct (_hosts st !! _host result) as [id|]; [|reflexivity].
  set (role_name := match task_role (_task result) with Some r => r | None => "None" end).
  assert (Hst1 : exists st1 elapsed,
             match _progress_tasks st !! id with
             | Some _ => (remove_task st id, slot_elapsed)
             | None => (st, S754_zero false)
             end = (st1, elapsed)
             /\ _hosts st1 = _hosts st
             /\ _progress_tasks st1 = delete id (_progress_tasks st)
             /\ _progress_task_index st1 = _progress_task_index st).
  { destruct (_progress_tasks st !! id) eqn:Hl; eexists _, _; (split; [reflexivity|]); simpl.
    - auto.
    - rewrite delete_id by assumption. auto. }
  destruct Hst1 as (st1 & elapsed & -> & Hh & Ht & Hi).
  destruct (handle_role_slots st1 role_name) as (Hh2 & Ht2 & Hi2).
  destruct (_should_log_task opts result status).
  - match goal with |- context [_log_task ?s ?m ?e] =>
      destruct (log_task_slots s m e) as (Hh3 & Ht3 & Hi3);
      destruct (_log_task s m e) as [st3 out_log]
    end.
    simpl in *. eexists _, _. split; [reflexivity|]. simpl.
    rewrite Hh3, Ht3, Hi3, Hh2, Ht2, Hi2. auto.
  - eexists _, _. split; [reflexivity|]. simpl.
    rewrite Hh2, Ht2, Hi2. auto.
Qed.

(** The slots after one step. *)
Lemma step_slots (opts : options) (ext : collaborators) (st : state) (ev : event) :
  let st' := fst (step opts ext st ev) in
  match ev with
  | RunnerStart h t =>
      _hosts st' = <[h := _progress_task_index st]> (_hosts st)
      /\ (exists s, _progress_tasks st'
                    = <[_progress_task_index st := s]> (_progress_tasks st))
      /\ _progress_task_index st' = S (_progress_task_index st)
  | _ =>
      _hosts st' = _hosts st
      /\ _progress_task_index st' = _progress_task_index st
      /\ _progress_tasks st'
         = match finished_result ev with
           | Some r =>
               match _hosts st !! _host r with
               | Some id => delete id (_progress_tasks st)
               | None => _progress_tasks st
               end
           | None => _progress_tasks st
           end
  end.
Proof.
  assert (Hfin : forall r s e,
    let st' := fst (match _on_finished_task opts ext st r s e with
                    | Returned x => x
                    | Raised _ => (st, [])
                    end) in
    _hosts st' = _hosts st
    /\ _progress_task_index st' = _progress_task_index st
    /\ _progress_tasks st'
       = match _hosts st !! _host r with
         | Some id => delete id (_progress_tasks st)
         | None => _progress_tasks st
         end).
  { intros r s e. pose proof (on_finished_task_slots opts ext st r s e) as H.
    destruct (_hosts st !! _host r) as [id|].
    - destruct H as (st1 & out & -> & Hh & Ht & Hi). simpl. auto.
    - rewrite H. simpl. auto. }
  destruct ev; unfold step, handle; simpl finished_result; cbv zeta;
    try apply Hfin.
  - simpl. auto.
  - unfold v2_runner_on_start. cbv beta iota zeta delta [_get_task_infos].
    unfold _handle_new_task. simpl. eauto.
  - unfold v2_runner_retry. cbv beta iota zeta delta [_get_task_infos].
    destruct (retries_left (_result result)); [|simpl; auto].
    match goal with |- context [_log_task ?s ?m ?e] =>
      destruct (log_task_slots s m e) as (Hh3 & Ht3 & Hi3)
    end. simpl. auto.
  - unfold v2_playbook_on_notify. cbv beta iota zeta delta [_get_task_infos]. simpl. auto.
  - unfold v2_playbook_on_no_hosts_matched.
    match goal with |- context [_log_task ?s ?m ?e] =>
      destruct (log_task_slots s m e) as (Hh3 & Ht3 & Hi3)
    end. simpl. auto.
  - simpl. auto.
Qed.

(** *** Liveness after a step *)

Lemma liveb_true (st : state) (id : nat) : liveb st id = true <-> live st id.
Proof. unfold liveb, live. apply bool_decide_eq_true. Qed.

Lemma liveb_same (st st' : state) :
  _progress_tasks st' = _progress_tasks st -> forall id, liveb st' id = liveb st id.
Proof. intros H id. unfold liveb. rewrite H. reflexivity. Qed.

Lemma liveb_insert_ne (st st' : state) (idx : nat) (s : slot) (id : nat) :
  _progress_tasks st' = <[idx := s]> (_progress_tasks st) ->
  id <> idx -> liveb st' id = liveb st id.
Proof.
  intros H Hne. unfold liveb. rewrite H, lookup_insert_ne by congruence. reflexivity.
Qed.

Lemma liveb_insert_eq (st st' : state) (idx : nat) (s : slot) :
  _progress_tasks st' = <[idx := s]> (_progress_tasks st) -> liveb st' idx = true.
Proof.
  intros H. apply liveb_true. unfold live. rewrite H, lookup_insert_eq. eauto.
Qed.

Lemma liveb_delete (st st' : state) (id0 id : nat) :
  _progress_tasks st' = delete id0 (_progress_tasks st) ->
  liveb st' id = liveb st id && negb (Nat.eqb id id0).
Proof.
  intros H. unfold liveb. rewrite H.
  destruct (Nat.eqb_spec id id0) as [->|Hne].
  - rewrite lookup_delete_eq, andb_false_r.
    apply bool_decide_eq_false. intros [x Hx]. discriminate.
  - rewrite lookup_delete_ne by congruence. rewrite andb_true_r. reflexivity.
Qed.

Lemma filter_liveb_ext (st st' : state) (l : list nat) :
  (forall id, In id l -> liveb st' id = liveb st id) ->
  List.filter (liveb st') l = List.filter (liveb st) l.
Proof. intros H. apply List.filter_ext_in. exact H. Qed.

(** *** Streams *)

Lemma run_app (opts : options) (ext : collaborators) (evs1 evs2 : list event) :
  forall st,
    run opts ext st (evs1 ++ evs2)
    = (fst (run opts ext (fst (run opts ext st evs1)) evs2),
       snd (run opts ext st evs1) ++ snd (run opts ext (fst (run opts ext st evs1)) evs2)).
Proof.
  induction evs1 as [|ev evs1 IH]; intros st; simpl.
  - destruct (run opts ext st evs2); reflexivity.
  - destruct (step opts ext st ev) as [st1 out1]. rewrite IH.
    destruct (run opts ext st1 evs1) as [st2 out2]. simpl.
    rewrite <- app_assoc. reflexivity.
Qed.

Lemma run_cons_state (opts : options) (ext : collaborators) (st : state)
    (ev : event) (evs : list event) :
  fst (run opts ext st (ev :: evs)) = fst (run opts ext (fst (step opts ext st ev)) evs).
Proof.
  simpl. destruct (step opts ext st ev) as [st1 out1]. simpl.
  destruct (run opts ext st1 evs). reflexivity.
Qed.

Lemma created_for_app (opts : options) (ext : collaborators) (host : string)
    (evs1 evs2 : list event) :
  forall st,
    created_for opts ext host st (evs1 ++ evs2)
    = created_for opts ext host st evs1
      ++ created_for opts ext host (fst (run opts ext st evs1)) evs2.
Proof.
  induction evs1 as [|ev evs1 IH]; intros st.
  - reflexivity.
  - rewrite run_cons_state. cbn [created_for app]. rewrite IH, <- app_assoc. reflexivity.
Qed.

(** The hosts that are busy after a stream. *)
Fixpoint busy_after (busy : gset string) (evs : list event) : gset string :=
  match evs with
  | [] => busy
  | ev :: evs' =>
      match ev with
      | RunnerStart h _ => busy_after ({[h]} ∪ busy) evs'
      | _ =>
          match finished_result ev with
          | Some r => busy_after (busy ∖ {[_host r]}) evs'
          | None => busy_after busy evs'
          end
      end
  end.

Definition busy_step (busy : gset string) (ev : event) : gset string :=
  busy_after busy [ev].

Definition created_step (host : string) (st : state) (ev : event) : list nat :=
  match ev with
  | RunnerStart h _ => if String.eqb h host then [_progress_task_index st] else []
  | _ => []
  end.

(** *** The invariant of a well-matched stream

    [cr host] lists the slots created for [host] so far. *)
Record matched (busy : gset string) (st : state) (cr : string -> list nat) : Prop := {
  matched_live_lt : forall id, live st id -> (id < _progress_task_index st)%nat;
  matched_created_lt :
    forall h id, In id (cr h) -> (id < _progress_task_index st)%nat;
  matched_owner : forall h h' id, In id (cr h) -> In id (cr h') -> h = h';
  matched_table : forall h id, _hosts st !! h = Some id -> In id (cr h);
  matched_busy :
    forall h, h ∈ busy ->
      exists id, _hosts st !! h = Some id /\ live st id
                 /\ List.filter (liveb st) (cr h) = [id];
  matched_idle : forall h, h ∉ busy -> List.filter (liveb st) (cr h) = [];
}.

Lemma matched_init (b : bool) : matched ∅ (init b) (fun _ => []).
Proof.
  split; simpl; try tauto.
  - intros id [x Hx]. simpl in Hx. rewrite lookup_empty in Hx. discriminate.
  - intros h id H. rewrite lookup_empty in H. discriminate.
  - intros h Hh. set_solver.
Qed.

Lemma matched_start (opts : options) (ext : collaborators) (busy : gset string)
    (st : state) (cr : string -> list nat) (h0 : string) (t : task) :
  matched busy st cr -> h0 ∉ busy ->
  matched ({[h0]} ∪ busy) (fst (step opts ext st (RunnerStart h0 t)))
          (fun h => cr h ++ created_step h st (RunnerStart h0 t)).
Proof.
  intros [Hlive Hcr Hown Htab Hbusy Hidle] Hh0.
  destruct (step_slots opts ext st (RunnerStart h0 t)) as (Hh & [s Ht] & Hi).
  set (st' := fst (step opts ext st (RunnerStart h0 t))) in *.
  assert (Hold : forall h, List.filter (liveb st') (cr h) = List.filter (liveb st) (cr h)).
  { intros h. apply filter_liveb_ext. intros id Hin.
    apply (liveb_insert_ne st st' (_progress_task_index st) s); [exact Ht|].
    apply Hcr in Hin. lia. }
  assert (Hnew : liveb st' (_progress_task_index st) = true)
    by (apply (liveb_insert_eq st st' (_progress_task_index st) s); exact Ht).
  assert (Hkeep : forall id, live st id -> live st' id).
  { intros id Hl. unfold live. rewrite Ht.
    destruct (decide (id = _progress_task_index st)) as [->|Hne].
    - rewrite lookup_insert_eq. eauto.
    - rewrite lookup_insert_ne by congruence. exact Hl. }
  split; cbn [created_step].
  - intros id Hl. rewrite Hi. unfold live in Hl. rewrite Ht in Hl.
    destruct (decide (id = _progress_task_index st)) as [->|Hne]; [lia|].
    rewrite lookup_insert_ne in Hl by congruence. apply Hlive in Hl. lia.
  - intros h id Hin. rewrite Hi. apply in_app_or in Hin. destruct Hin as [Hin|Hin].
    + apply Hcr in Hin. lia.
    + destruct (String.eqb h0 h); simpl in Hin; [|tauto]. destruct Hin as [<-|[]]. lia.
  - intros h h' id Hin Hin'.
    apply in_app_or in Hin. apply in_app_or in Hin'.
    destruct (String.eqb_spec h0 h) as [<-|Hne], (String.eqb_spec h0 h') as [<-|Hne'];
      try reflexivity;
      destruct Hin as [Hin|Hin], Hin' as [Hin'|Hin']; simpl in Hin, Hin';
      try tauto; try (eapply Hown; eassumption);
      repeat match goal with
             | H : _ \/ False |- _ => destruct H as [H|[]]
             | H : _progress_task_index st = id |- _ => subst id
             | H : In (_progress_task_index st) (cr _) |- _ => apply Hcr in H; lia
             end.
  - intros h id Hlk. rewrite Hh in Hlk. apply in_or_app.
    destruct (String.eqb_spec h0 h) as [<-|Hne].
    + rewrite lookup_insert_eq in Hlk. injection Hlk as <-. right. simpl. auto.
    + rewrite lookup_insert_ne in Hlk by congruence. left. eauto.
  - intros h Hin. rewrite List.filter_app, Hold.
    destruct (String.eqb_spec h0 h) as [<-|Hne].
    + exists (_progress_task_index st). rewrite Hh, lookup_insert_eq.
      split; [reflexivity|]. split; [apply liveb_true; exact Hnew|].
      rewrite (Hidle h0 Hh0). simpl. rewrite Hnew. reflexivity.
    + assert (Hb : h ∈ busy).
      { apply elem_of_union in Hin as [Hin|Hin]; [|exact Hin].
        apply elem_of_singleton in Hin. congruence. }
      destruct (Hbusy h Hb) as (id & Hlk & Hl & Hf).
      exists id. rewrite Hh, lookup_insert_ne by congruence.
      split; [exact Hlk|]. split; [auto|]. rewrite Hf. reflexivity.
  - intros h Hnin. rewrite List.filter_app, Hold.
    destruct (String.eqb_spec h0 h) as [<-|Hne]; [set_solver|].
    rewrite (Hidle h) by set_solver. reflexivity.
Qed.

Lemma filter_andb (f g : nat -> bool) (l : list nat) :
  List.filter (fun x => f x && g x) l = List.filter g (List.filter f l).
Proof.
  induction l as [|x l IH]; simpl; [reflexivity|].
  destruct (f x); simpl; [|exact IH]. destruct (g x); rewrite IH; reflexivity.
Qed.

Lemma matched_finish (opts : options) (ext : collaborators) (busy : gset string)
    (st : state) (cr : string -> list nat) (ev : event) (r : task_result) :
  finished_result ev = Some r ->
  matched busy st cr ->
  matched (busy ∖ {[_host r]}) (fst (step opts ext st ev)) cr.
Proof.
  intros Hev [Hlive Hcr Hown Htab Hbusy Hidle].
  assert (Hslots :
    _hosts (fst (step opts ext st ev)) = _hosts st
    /\ _progress_task_index (fst (step opts ext st ev)) = _progress_task_index st
    /\ _progress_tasks (fst (step opts ext st ev))
       = match _hosts st !! _host r with
         | Some id => delete id (_progress_tasks st)
         | None => _progress_tasks st
         end).
  { pose proof (step_slots opts ext st ev) as H.
    destruct ev; simpl in Hev; try discriminate; injection Hev as <-; exact H. }
  destruct Hslots as (Hh & Hi & Ht).
  set (st' := fst (step opts ext st ev)) in *.
  destruct (_hosts st !! _host r) as [id0|] eqn:Hlk0.
  - assert (Hlb : forall id, liveb st' id = liveb st id && negb (Nat.eqb id id0))
      by (intros id; apply liveb_delete; exact Ht).
    assert (Hother : forall h, h <> _host r ->
              List.filter (liveb st') (cr h) = List.filter (liveb st) (cr h)).
    { intros h Hne. apply filter_liveb_ext. intros id Hin. rewrite Hlb.
      destruct (Nat.eqb_spec id id0) as [->|]; [|apply andb_true_r].
      exfalso. apply Hne. eapply Hown; [exact Hin|]. apply Htab. exact Hlk0. }
    assert (Hself : List.filter (liveb st') (cr (_host r)) = []).
    { rewrite (List.filter_ext _ _ Hlb), filter_andb.
      destruct (decide (_host r ∈ busy)) as [Hb|Hb].
      - destruct (Hbusy _ Hb) as (id & Hlk & _ & ->).
        rewrite Hlk0 in Hlk. injection Hlk as <-. simpl.
        rewrite Nat.eqb_refl. reflexivity.
      - rewrite (Hidle _ Hb). reflexivity. }
    split.
    + intros id Hl. rewrite Hi. apply Hlive. apply liveb_true.
      apply liveb_true in Hl. rewrite Hlb in Hl. apply andb_true_iff in Hl. tauto.
    + intros h id Hin. rewrite Hi. eauto.
    + exact Hown.
    + intros h id Hlk. rewrite Hh in Hlk. eauto.
    + intros h Hin. apply elem_of_difference in Hin as [Hb Hne].
      rewrite elem_of_singleton in Hne.
      destruct (Hbusy h Hb) as (id & Hlk & Hl & Hf).
      exists id. rewrite Hh. split; [exact Hlk|]. split.
      * apply liveb_true. rewrite Hlb. apply andb_true_iff.
        split; [apply liveb_true; exact Hl|].
        apply negb_true_iff, Nat.eqb_neq. intros ->.
        apply Hne. eapply Hown; apply Htab; eassumption.
      * rewrite Hother by exact Hne. exact Hf.
    + intros h Hnin. destruct (decide (h = _host r)) as [->|Hne]; [exact Hself|].
      rewrite Hother by exact Hne. apply Hidle.
      intros Hb. apply Hnin. apply elem_of_difference. split; [exact Hb|].
      rewrite elem_of_singleton. exact Hne.
  - assert (Hsame : forall h, List.filter (liveb st') (cr h) = List.filter (liveb st) (cr h)).
    { intros h. apply filter_liveb_ext. intros id _. apply liveb_same. exact Ht. }
    split.
    + intros id Hl. rewrite Hi. apply Hlive. unfold live in *. rewrite Ht in Hl. exact Hl.
    + intros h id Hin. rewrite Hi. eauto.
    + exact Hown.
    + intros h id Hlk. rewrite Hh in Hlk. eauto.
    + intros h Hin. apply elem_of_difference in Hin as [Hb Hne].
      destruct (Hbusy h Hb) as (id & Hlk & Hl & Hf).
      exists id. rewrite Hh, Hsame. split; [exact Hlk|]. split; [|exact Hf].
      unfold live in *. rewrite Ht. exact Hl.
    + intros h Hnin. rewrite Hsame.
      destruct (decide (h ∈ busy)) as [Hb|Hb]; [|apply Hidle; exact Hb].
      destruct (decide (h = _host r)) as [->|Hne].
      * destruct (Hbusy _ Hb) as (id & Hlk & _). congruence.
      * exfalso. apply Hnin. apply elem_of_difference. split; [exact Hb|].
        rewrite elem_of_singleton. exact Hne.
Qed.

Lemma matched_other (opts : options) (ext : collaborators) (busy : gset string)
    (st : state) (cr : string -> list nat) (ev : event) :
  finished_result ev = None ->
  (forall h t, ev <> RunnerStart h t) ->
  matched busy st cr ->
  matched busy (fst (step opts ext st ev)) cr.
Proof.
  intros Hev Hns [Hlive Hcr Hown Htab Hbusy Hidle].
  assert (Hslots :
    _hosts (fst (step opts ext st ev)) = _hosts st
    /\ _progress_task_index (fst (step opts ext st ev)) = _progress_task_index st
    /\ _progress_tasks (fst (step opts ext st ev)) = _progress_tasks st).
  { pose proof (step_slots opts ext st ev) as H.
    destruct ev; simpl in Hev; try discriminate; try exact H.
    exfalso. eapply Hns. reflexivity. }
  destruct Hslots as (Hh & Hi & Ht).
  set (st' := fst (step opts ext st ev)) in *.
  assert (Hsame : forall h, List.filter (liveb st') (cr h) = List.filter (liveb st) (cr h)).
  { intros h. apply filter_liveb_ext. intros id _. apply liveb_same. exact Ht. }
  split.
  - intros id Hl. rewrite Hi. apply Hlive. unfold live in *. rewrite Ht in Hl. exact Hl.
  - intros h id Hin. rewrite Hi. eauto.
  - exact Hown.
  - intros h id Hlk. rewrite Hh in Hlk. eauto.
  - intros h Hb. destruct (Hbusy h Hb) as (id & Hlk & Hl & Hf).
    exists id. rewrite Hh, Hsame. split; [exact Hlk|]. split; [|exact Hf].
    unfold live in *. rewrite Ht. exact Hl.
  - intros h Hnin. rewrite Hsame. apply Hidle. exact Hnin.
Qed.

Lemma matched_ext (busy : gset string) (st : state) (cr cr' : string -> list nat) :
  (forall h, cr h = cr' h) -> matched busy st cr -> matched busy st cr'.
Proof.
  intros Heq [Hlive Hcr Hown Htab Hbusy Hidle].
  split; intros; rewrite <- ?Heq in *; eauto.
Qed.

Lemma created_step_other (host : string) (st : state) (ev : event) :
  (forall h t, ev <> RunnerStart h t) -> created_step host st ev = [].
Proof. destruct ev; try reflexivity. intros H. exfalso. eapply H. reflexivity. Qed.

(** One step of a well-matched stream keeps the invariant. *)
Lemma matched_step (opts : options) (ext : collaborators) (busy : gset string)
    (st : state) (cr : string -> list nat) (ev : event) :
  matched busy st cr ->
  well_matched busy [ev] = true ->
  matched (busy_step busy ev) (fst (step opts ext st ev))
          (fun h => cr h ++ created_step h st ev).
Proof.
  intros Hm Hw.
  destruct (finished_result ev) as [r|] eqn:Hfin.
  - assert (Hns : forall h t, ev <> RunnerStart h t)
      by (intros h t ->; discriminate).
    apply (matched_ext _ _ cr).
    { intros h. rewrite created_step_other by exact Hns. rewrite app_nil_r. reflexivity. }
    replace (busy_step busy ev) with (busy ∖ {[_host r]}).
    + eapply matched_finish; eassumption.
    + unfold busy_step. destruct ev; simpl in *; try discriminate;
        injection Hfin as <-; reflexivity.
  - destruct ev; simpl in Hfin; try discriminate.
    2: { simpl in Hw. apply andb_true_iff in Hw as [Hh _].
         apply bool_decide_eq_true in Hh.
         apply matched_start; assumption. }
    all: apply (matched_ext _ _ cr);
      [ intros h; simpl; rewrite app_nil_r; reflexivity
      | apply matched_other; [reflexivity | intros h t; discriminate | exact Hm] ].
Qed.

Lemma well_matched_cons (busy : gset string) (ev : event) (evs : list event) :
  well_matched busy (ev :: evs)
  = well_matched busy [ev] && well_matched (busy_step busy ev) evs.
Proof.
  unfold busy_step. destruct ev; simpl; rewrite ?andb_true_r; try reflexivity.
Qed.

Lemma well_matched_app (evs1 evs2 : list event) :
  forall busy,
    well_matched busy (evs1 ++ evs2)
    = well_matched busy evs1 && well_matched (busy_after busy evs1) evs2.
Proof.
  induction evs1 as [|ev evs1 IH]; intros busy.
  - reflexivity.
  - cbn [app]. rewrite (well_matched_cons busy ev (evs1 ++ evs2)), IH.
    rewrite (well_matched_cons busy ev evs1), andb_assoc.
    unfold busy_step. destruct ev; simpl; try reflexivity;
      destruct (finished_result _); reflexivity.
Qed.

(** The invariant along a well-matched stream. *)
Lemma matched_run (opts : options) (ext : collaborators) (evs : list event) :
  forall busy st cr,
    matched busy st cr ->
    well_matched busy evs = true ->
    matched (busy_after busy evs) (fst (run opts ext st evs))
            (fun h => cr h ++ created_for opts ext h st evs).
Proof.
  induction evs as [|ev evs IH]; intros busy st cr Hm Hw.
  - simpl. apply (matched_ext _ _ cr); [|exact Hm].
    intros h. rewrite app_nil_r. reflexivity.
  - rewrite well_matched_cons in Hw. apply andb_true_iff in Hw as [Hw1 Hw2].
    pose proof (matched_step opts ext busy st cr ev Hm Hw1) as Hm1.
    specialize (IH _ _ _ Hm1 Hw2).
    rewrite run_cons_state.
    replace (busy_after busy (ev :: evs)) with (busy_after (busy_step busy ev) evs).
    + eapply matched_ext; [|exact IH].
      intros h. cbn beta. rewrite <- app_assoc. reflexivity.
    + unfold busy_step. destruct ev; simpl; try reflexivity;
        destruct (finished_result _); reflexivity.
Qed.

(** A well-matched stream leaves at most one live slot per host. *)
Lemma well_matched_one_live_slot (opts : options) (ext : collaborators)
    (evs : list event) :
  well_matched ∅ evs = true -> one_live_slot_per_host opts ext evs.
Proof.
  intros Hw host. unfold live_slots_of.
  pose proof (matched_run opts ext evs ∅ (init true) (fun _ => [])
                (matched_init true) Hw) as [_ _ _ _ Hbusy Hidle].
  cbn beta in Hbusy, Hidle. cbn [app] in Hbusy, Hidle.
  destruct (decide (host ∈ busy_after ∅ evs)) as [Hb|Hb].
  - destruct (Hbusy host Hb) as (id & _ & _ & ->). simpl. lia.
  - rewrite (Hidle host Hb). simpl. lia.
Qed.

Lemma run_single (opts : options) (ext : collaborators) (st : state) (ev : event) :
  fst (run opts ext st [ev]) = fst (step opts ext st ev).
Proof. simpl. destruct (step opts ext st ev). reflexivity. Qed.

(** A start of a busy host leaves two live slots for it. *)
Lemma double_start_two_live_slots (opts : options) (ext : collaborators)
    (pre : list event) (h : string) (t : task) :
  well_matched ∅ pre = true ->
  h ∈ busy_after ∅ pre ->
  length (live_slots_of opts ext h (pre ++ [RunnerStart h t])) = 2%nat.
Proof.
  intros Hw Hb. unfold live_slots_of.
  pose proof (matched_run opts ext pre ∅ (init true) (fun _ => [])
                (matched_init true) Hw) as [_ Hcr _ _ Hbusy _].
  cbn beta in Hcr, Hbusy. cbn [app] in Hcr, Hbusy.
  destruct (Hbusy h Hb) as (id & Hlk & Hl & Hf).
  rewrite run_app, created_for_app. cbn [fst].
  set (st := fst (run opts ext (init true) pre)) in *.
  rewrite run_single.
  destruct (step_slots opts ext st (RunnerStart h t)) as (Hh & [s Ht] & Hi).
  set (st' := fst (step opts ext st (RunnerStart h t))) in *.
  rewrite List.filter_app.
  assert (Hold : List.filter (liveb st') (created_for opts ext h (init true) pre)
                 = List.filter (liveb st) (created_for opts ext h (init true) pre)).
  { apply filter_liveb_ext. intros x Hin.
    apply (liveb_insert_ne st st' (_progress_task_index st) s); [exact Ht|].
    apply Hcr in Hin. lia. }
  rewrite Hold, Hf. cbn [created_for]. rewrite String.eqb_refl. cbn [app List.filter].
  rewrite (liveb_insert_eq st st' (_progress_task_index st) s Ht). reflexivity.
Qed.

Lemma not_well_matched_split (evs : list event) :
  forall busy,
    well_matched busy evs = false ->
    exists pre h t post,
      evs = pre ++ RunnerStart h t :: post
      /\ well_matched busy pre = true
      /\ h ∈ busy_after busy pre.
Proof.
  induction evs as [|ev evs IH]; intros busy Hw; [discriminate|].
  rewrite well_matched_cons in Hw.
  destruct (well_matched busy [ev]) eqn:Hev.
  - destruct (IH _ Hw) as (pre & h & t & post & -> & Hpre & Hin).
    exists (ev :: pre), h, t, post. split; [reflexivity|].
    rewrite well_matched_cons, Hev, Hpre. split; [reflexivity|].
    replace (busy_after busy (ev :: pre)) with (busy_after (busy_step busy ev) pre);
      [exact Hin|].
    unfold busy_step. destruct ev; simpl; try reflexivity;
      destruct (finished_result _); reflexivity.
  - destruct ev; simpl in Hev; try discriminate.
    rewrite andb_true_r in Hev. apply bool_decide_eq_false in Hev.
    exists [], host, t, evs. split; [reflexivity|]. split; [reflexivity|].
    simpl. destruct (decide (host ∈ busy)); [assumption | contradiction].
Qed.

(** *** Any stream: the table stays injective, an orphan stays live *)

Record table_ok (st : state) : Prop := {
  table_lt : forall h id, _hosts st !! h = Some id -> (id < _progress_task_index st)%nat;
  table_live_lt : forall id, live st id -> (id < _progress_task_index st)%nat;
  table_inj : forall h h' id, _hosts st !! h = Some id -> _hosts st !! h' = Some id -> h = h';
}.

(** A live slot no entry of the table points at. *)
Definition orphan (st : state) (id : nat) : Prop :=
  live st id /\ (id < _progress_task_index st)%nat
  /\ forall h, _hosts st !! h <> Some id.

Lemma step_slots_cases (opts : options) (ext : collaborators) (st : state) (ev : event) :
  let st' := fst (step opts ext st ev) in
  (exists h s, _hosts st' = <[h := _progress_task_index st]> (_hosts st)
               /\ _progress_tasks st' = <[_progress_task_index st := s]> (_progress_tasks st)
               /\ _progress_task_index st' = S (_progress_task_index st))
  \/ (_hosts st' = _hosts st
      /\ _progress_task_index st' = _progress_task_index st
      /\ (_progress_tasks st' = _progress_tasks st
          \/ exists h id, _hosts st !! h = Some id
                          /\ _progress_tasks st' = delete id (_progress_tasks st))).
Proof.
  pose proof (step_slots opts ext st ev) as H. cbv zeta in *.
  destruct ev; try (right; destruct H as (Hh & Hi & Ht); split; [exact Hh|];
                    split; [exact Hi|]; simpl in Ht;
                    try (left; exact Ht);
                    match type of Ht with
                    | context [_hosts st !! ?k] =>
                        destruct (_hosts st !! k) as [id|] eqn:Hlk;
                        [right; exists k, id; auto | left; exact Ht]
                    end).
  left. destruct H as (Hh & [s Ht] & Hi). eauto 6.
Qed.

Lemma table_ok_init (b : bool) : table_ok (init b).
Proof.
  split; simpl.
  - intros h id H. rewrite lookup_empty in H. discriminate.
  - intros id [x Hx]. simpl in Hx. rewrite lookup_empty in Hx. discriminate.
  - intros h h' id H. rewrite lookup_empty in H. discriminate.
Qed.

Lemma table_ok_step (opts : options) (ext : collaborators) (st : state) (ev : event) :
  table_ok st -> table_ok (fst (step opts ext st ev)).
Proof.
  intros [Hlt Hlive Hinj].
  destruct (step_slots_cases opts ext st ev)
    as [(h0 & s & Hh & Ht & Hi) | (Hh & Hi & Ht)]; split; rewrite ?Hh, ?Hi.
  - intros h id Hlk. destruct (decide (h0 = h)) as [->|Hne].
    + rewrite lookup_insert_eq in Hlk. injection Hlk as <-. lia.
    + rewrite lookup_insert_ne in Hlk by exact Hne. apply Hlt in Hlk. lia.
  - intros id Hl. unfold live in Hl. rewrite Ht in Hl.
    destruct (decide (id = _progress_task_index st)) as [->|Hne]; [lia|].
    rewrite lookup_insert_ne in Hl by congruence. apply Hlive in Hl. lia.
  - intros h h' id Hlk Hlk'.
    destruct (decide (h0 = h)) as [<-|Hne], (decide (h0 = h')) as [<-|Hne'];
      try reflexivity.
    + rewrite lookup_insert_eq in Hlk. rewrite lookup_insert_ne in Hlk' by exact Hne'.
      injection Hlk as <-. apply Hlt in Hlk'. lia.
    + rewrite lookup_insert_eq in Hlk'. rewrite lookup_insert_ne in Hlk by exact Hne.
      injection Hlk' as <-. apply Hlt in Hlk. lia.
    + rewrite lookup_insert_ne in Hlk by exact Hne.
      rewrite lookup_insert_ne in Hlk' by exact Hne'. eauto.
  - exact Hlt.
  - intros id Hl. apply Hlive. unfold live in *.
    destruct Ht as [Ht | (h & id0 & _ & Ht)]; rewrite Ht in Hl; [exact Hl|].
    destruct (decide (id = id0)) as [->|Hne].
    + rewrite lookup_delete_eq in Hl. destruct Hl; discriminate.
    + rewrite lookup_delete_ne in Hl by congruence. exact Hl.
  - exact Hinj.
Qed.

Lemma table_ok_run (opts : options) (ext : collaborators) (evs : list event) :
  forall st, table_ok st -> table_ok (fst (run opts ext st evs)).
Proof.
  induction evs as [|ev evs IH]; intros st Hok; [exact Hok|].
  rewrite run_cons_state. apply IH, table_ok_step, Hok.
Qed.

Lemma orphan_step (opts : options) (ext : collaborators) (st : state) (ev : event)
    (id : nat) :
  orphan st id -> orphan (fst (step opts ext st ev)) id.
Proof.
  intros (Hl & Hlt & Hno). unfold orphan, live in *.
  destruct (step_slots_cases opts ext st ev)
    as [(h0 & s & Hh & Ht & Hi) | (Hh & Hi & Ht)]; rewrite Hh, Hi.
  - rewrite Ht. split; [|split; [lia|]].
    + rewrite lookup_insert_ne by lia. exact Hl.
    + intros h. destruct (decide (h0 = h)) as [->|Hne].
      * rewrite lookup_insert_eq. intros [=]. lia.
      * rewrite lookup_insert_ne by exact Hne. apply Hno.
  - split; [|split; [exact Hlt | exact Hno]].
    destruct Ht as [-> | (h & id0 & Hlk & ->)]; [exact Hl|].
    rewrite lookup_delete_ne; [exact Hl|]. intros ->. apply (Hno h). exact Hlk.
Qed.

Lemma orphan_run (opts : options) (ext : collaborators) (evs : list event) (id : nat) :
  forall st, orphan st id -> orphan (fst (run opts ext st evs)) id.
Proof.
  induction evs as [|ev evs IH]; intros st Ho; [exact Ho|].
  rewrite run_cons_state. apply IH, orphan_step, Ho.
Qed.

(** A start for a running host orphans its slot. *)
Lemma start_orphans (opts : options) (ext : collaborators) (st : state)
    (h : string) (t : task) (old : nat) :
  table_ok st ->
  _hosts st !! h = Some old -> live st old ->
  let st1 := fst (step opts ext st (RunnerStart h t)) in
  _hosts st1 !! h = Some (_progress_task_index st)
  /\ _progress_task_index st <> old
  /\ live st1 (_progress_task_index st)
  /\ orphan st1 old.
Proof.
  intros [Hlt Hlive Hinj] Hlk Hl st1.
  destruct (step_slots opts ext st (RunnerStart h t)) as (Hh & [s Ht] & Hi).
  fold st1 in Hh, Ht, Hi.
  pose proof (Hlt _ _ Hlk) as Hold.
  split; [rewrite Hh; apply lookup_insert_eq|].
  split; [lia|].
  split; [unfold live; rewrite Ht, lookup_insert_eq; eauto|].
  unfold orphan, live. rewrite Hh, Ht, Hi.
  split; [rewrite lookup_insert_ne by lia; exact Hl|].
  split; [lia|].
  intros h'. destruct (decide (h = h')) as [<-|Hne].
  - rewrite lookup_insert_eq. intros [=]. lia.
  - rewrite lookup_insert_ne by exact Hne. intros Hlk'.
    apply Hne. eapply Hinj; eassumption.
Qed.

(** Along a well-matched stream the busy hosts are the running ones. *)
Lemma busy_iff_running (opts : options) (ext : collaborators) (pre : list event)
    (h : string) :
  well_matched ∅ pre = true ->
  h ∈ busy_after ∅ pre <-> running (fst (run opts ext (init true) pre)) h.
Proof.
  intros Hw.
  pose proof (matched_run opts ext pre ∅ (init true) (fun _ => [])
                (matched_init true) Hw) as [_ _ _ Htab Hbusy Hidle].
  cbn beta in Htab, Hbusy, Hidle. cbn [app] in Htab, Hbusy, Hidle.
  split.
  - intros Hb. destruct (Hbusy h Hb) as (id & Hlk & Hl & _). exists id. auto.
  - intros (id & Hlk & Hl).
    destruct (decide (h ∈ busy_after ∅ pre)) as [Hb|Hb]; [exact Hb|].
    exfalso. pose proof (Hidle h Hb) as Hnone.
    assert (Hin : In id (List.filter (liveb (fst (run opts ext (init true) pre)))
                           (created_for opts ext h (init true) pre))).
    { apply List.filter_In. split; [apply Htab; exact Hlk | apply liveb_true; exact Hl]. }
    rewrite Hnone in Hin. destruct Hin.
Qed.

(** *** Finishing events without a slot *)

(** The two cases of a finishing event that finds no live slot: a host of the
    table whose slot is gone is logged with an elapsed time of zero; a host
    that is not in the table makes the handler raise. *)
Lemma finished_task_without_slot (opts : options) (ext : collaborators) (st : state)
    (result : task_result) (status : string) (slot_elapsed : float) :
  (_hosts st !! _host result = None ->
   _on_finished_task opts ext st result status slot_elapsed
   = Raised (KeyError (_host result)))
  /\ (forall id,
        _hosts st !! _host result = Some id ->
        _progress_tasks st !! id = None ->
        exists st' out,
          _on_finished_task opts ext st result status slot_elapsed = Returned (st', out)
          /\ (_should_log_task opts result status = true ->
              exists message,
                In (Print false [RTimestamp; RStr message; RStr "-";
                                 RElapsed (S754_zero false)]) out)).
Proof.
  split.
  - intros Hnone. pose proof (on_finished_task_slots opts ext st result status slot_elapsed) as H.
    rewrite Hnone in H. exact H.
  - intros id Hlk Hgone. unfold _on_finished_task.
    cbv beta iota zeta delta [_get_task_infos]. rewrite Hlk, Hgone.
    destruct (_should_log_task opts result status).
    + unfold _log_task.
      destruct (_should_print_role (_handle_role st _));
        eexists _, _; (split; [reflexivity|]); intros _; eexists;
        cbn [app _log _print In]; eauto.
    + eexists _, _. split; [reflexivity|]. discriminate.
Qed.

(** C5 fails on the code for a host that never started: on a fresh plugin a
    finishing event raises [KeyError] at the lookup [self._hosts[host_name]],
    before an elapsed time is chosen and before anything is printed, although
    the policy would log the line (status [failed]). *)
Theorem finished_before_any_start_raises :
  _should_log_task quiet_options (plain_result "command" false false) "failed" = true
  /\ handle quiet_options plain_collaborators (init true)
       (RunnerFailed (plain_result "command" false false) (S754_zero false))
     = Raised (KeyError "web1")
  /\ run quiet_options plain_collaborators (init true)
       [RunnerFailed (plain_result "command" false false) (S754_zero false)]
     = (init true, []).
Proof. repeat split; reflexivity. Qed.

(** C10: a start for a host that is already running stores a fresh slot id in
    the table and leaves the previous slot live; no later event removes that
    slot.  The invariant "at most one live slot per host" holds after every
    operation of a stream exactly when each start of a host is matched by a
    finishing event of that host before its next start; a start of a running
    host leaves two live slots for it. *)
Theorem start_while_running_orphans_slot (opts : options) (ext : collaborators) :
  (forall pre h t old,
      let st := fst (run opts ext (init true) pre) in
      _hosts st !! h = Some old -> live st old ->
      let st1 := fst (step opts ext st (RunnerStart h t)) in
      _hosts st1 !! h = Some (_progress_task_index st)
      /\ _progress_task_index st <> old
      /\ live st1 (_progress_task_index st)
      /\ live st1 old
      /\ forall post, live (fst (run opts ext st1 post)) old)
  /\ (forall evs,
        (forall pre post, evs = pre ++ post -> one_live_slot_per_host opts ext pre)
        <-> well_matched ∅ evs = true)
  /\ (forall pre h t,
        well_matched ∅ pre = true ->
        running (fst (run opts ext (init true) pre)) h ->
        length (live_slots_of opts ext h (pre ++ [RunnerStart h t])) = 2%nat).
Proof.
  split; [|split].
  - intros pre h t old st Hlk Hl st1.
    assert (Hok : table_ok st) by (apply table_ok_run, table_ok_init).
    destruct (start_orphans opts ext st h t old Hok Hlk Hl) as (H1 & H2 & H3 & H4).
    fold st1 in H1, H3, H4.
    split; [exact H1|]. split; [exact H2|]. split; [exact H3|].
    split; [apply H4|]. intros post. apply (orphan_run opts ext post old st1 H4).
  - intros evs. split.
    + intros Hinv. destruct (well_matched ∅ evs) eqn:Hw; [reflexivity|]. exfalso.
      destruct (not_well_matched_split evs ∅ Hw) as (pre & h & t & post & -> & Hpre & Hb).
      specialize (Hinv (pre ++ [RunnerStart h t]) post).
      rewrite <- app_assoc in Hinv. specialize (Hinv eq_refl h).
      rewrite (double_start_two_live_slots opts ext pre h t Hpre Hb) in Hinv. lia.
    + intros Hw pre post ->. apply well_matched_one_live_slot.
      rewrite well_matched_app in Hw. apply andb_true_iff in Hw. tauto.
  - intros pre h t Hw Hrun. apply double_start_two_live_slots; [exact Hw|].
    apply (busy_iff_running opts ext); assumption.
Qed.

Definition restarted : list event :=
  [RunnerStart "web1" (plain_task "command" false);
   RunnerStart "web1" (plain_task "copy" false);
   RunnerOk (plain_result "copy" false false) (S754_zero false);
   RunnerOk (plain_result "copy" false false) (S754_zero false)].

Lemma start_while_running_orphans_slot_witness :
  live (fst (run quiet_options plain_collaborators (init true) restarted)) 0%nat
  /\ well_matched ∅ restarted = false
  /\ length (live_slots_of quiet_options plain_collaborators "web1"
               [RunnerStart "web1" (plain_task "command" false);
                RunnerStart "web1" (plain_task "copy" false)]) = 2%nat.
Proof.
  pose proof (start_while_running_orphans_slot quiet_options plain_collaborators)
    as (Horphan & _ & Htwo).
  split; [|split].
  - destruct (Horphan [RunnerStart "web1" (plain_task "command" false)]
                "web1" (plain_task "copy" false) 0%nat) as (_ & _ & _ & _ & Hpost).
    + reflexivity.
    + eexists. reflexivity.
    + apply (Hpost [RunnerOk (plain_result "copy" false false) (S754_zero false);
                    RunnerOk (plain_result "copy" false false) (S754_zero false)]).
  - reflexivity.
  - apply (Htwo [RunnerStart "web1" (plain_task "command" false)]).
    + reflexivity.
    + exists 0%nat. split; [reflexivity | eexists; reflexivity].
Defined.

End Tracker.

(* ===================================================================== *)
(** ** The role banner *)
(* ===================================================================== *)

Module RoleBanner.

Import Visibility Shaping Dispatch Tracker.

(** The role name [_get_task_infos] gives for a task. *)
Definition task_role_name (t : task) : string :=
  match task_role t with Some r => r | None => "None" end.

(** The role of the task of a finishing event. *)
Definition finished_role (ev : event) : option string :=
  match finished_result ev with
  | Some r => Some (task_role_name (_task r))
  | None => None
  end.

(** The banner line of a role, as [_log_task] writes it. *)
Definition banner_line (role : string) : printed :=
  Print false (RTimestamp :: role_banner (Some role)).

Definition is_role_banner (p : printed) : bool :=
  match p with
  | Print false [RTimestamp; RStr s] => startswith s "[bold] --- Role - "
  | _ => false
  end.

Definition is_banner_for (role : string) (p : printed) : bool :=
  match p with
  | Print false [RTimestamp; RStr s] =>
      String.eqb s ("[bold] --- Role - " +:+ role +:+ " ---[/bold]")
  | _ => false
  end.

(** A line that [_log_task] writes for its message: the line of a finished
    task (with its elapsed time), of a retry or of "No hosts matched". *)
Definition is_task_line (p : printed) : bool :=
  match p with
  | Print false [RTimestamp; RStr _; RStr _; RElapsed _] => true
  | Print false [RTimestamp; RStr s] => startswith s "[rlo.task.log."
  | _ => false
  end.

Definition count_banners_for (role : string) (out : list printed) : nat :=
  length (List.filter (is_banner_for role) out).

(** Neither a banner nor a task line. *)
Definition quiet (out : list printed) : bool :=
  forallb (fun p => negb (is_role_banner p) && negb (is_task_line p)) out.

Definition no_banner (out : list printed) : bool :=
  forallb (fun p => negb (is_role_banner p)) out.

(** Every banner is immediately followed by a task line. *)
Fixpoint banners_followed (out : list printed) : bool :=
  match out with
  | [] => true
  | p :: rest =>
      (if is_role_banner p
       then match rest with q :: _ => is_task_line q | [] => false end
       else true)
      && banners_followed rest
  end.

(** The output of a stretch that starts with the banner of [role] pending:
    no task line before the banner, the banner of [role] immediately before
    the first task line, no banner after it. *)
Fixpoint pending_shape (role : string) (out : list printed) : bool :=
  match out with
  | [] => true
  | p :: rest =>
      if is_role_banner p then
        is_banner_for role p
        && match rest with
           | q :: rest' => is_task_line q && no_banner rest'
           | [] => false
           end
      else negb (is_task_line p) && pending_shape role rest
  end.

(** A stretch of the stream whose finished tasks all have the role [role]. *)
Definition same_role_stretch (role : string) (evs : list event) : Prop :=
  forall ev r, In ev evs -> finished_role ev = Some r -> r = role.

(** *** The role fields after [_handle_role] and [_log_task] *)

Definition armed (st : state) (role_name : string) : bool :=
  (_should_print_role st || negb (bool_decide (_current_role st = Some role_name)))
  && negb (String.eqb role_name "None")
  && negb (bool_decide (_last_printed_role st = Some role_name)).

Lemma handle_role_spec (st : state) (role_name : string) :
  _current_role (_handle_role st role_name) = Some role_name
  /\ _last_printed_role (_handle_role st role_name) = _last_printed_role st
  /\ _should_print_role (_handle_role st role_name) = armed st role_name.
Proof.
  unfold _handle_role, armed.
  destruct (bool_decide (_current_role st = Some role_name)) eqn:Hc;
    [apply bool_decide_eq_true in Hc|]; cbn [negb];
    destruct (String.eqb role_name "None"); cbn [set_roles _current_role
      _last_printed_role _should_print_role negb andb orb];
    rewrite ?Hc;
    destruct (bool_decide (_last_printed_role st = Some role_name));
    cbn; rewrite ?orb_true_r, ?andb_true_r, ?andb_false_r, ?orb_false_r; auto.
Qed.

(** *** Strings of the banner *)

Lemma append_length (a b : string) :
  String.length (a +:+ b) = (String.length a + String.length b)%nat.
Proof.
  induction a as [|c a IH]; [reflexivity|].
  rewrite Sanitizing.append_cons. cbn [String.length]. rewrite IH. reflexivity.
Qed.

Lemma append_inv_tail (s : string) :
  forall a b, a +:+ s = b +:+ s -> a = b.
Proof.
  induction a as [|c a IH]; intros [|d b] H.
  - reflexivity.
  - apply (f_equal String.length) in H. rewrite !append_length in H.
    cbn [String.length] in H. lia.
  - apply (f_equal String.length) in H. rewrite !append_length in H.
    cbn [String.length] in H. lia.
  - rewrite !Sanitizing.append_cons in H. injection H as -> H.
    f_equal. apply IH. exact H.
Qed.

Lemma banner_text_inj (a b : string) :
  "[bold] --- Role - " +:+ a +:+ " ---[/bold]"
  = "[bold] --- Role - " +:+ b +:+ " ---[/bold]" -> a = b.
Proof.
  intros H. apply String.app_inj in H. apply append_inv_tail in H. exact H.
Qed.

Lemma is_banner_for_line (role : string) (c : option string) :
  is_banner_for role (Print false (RTimestamp :: role_banner c))
  = String.eqb (role_text c) role.
Proof.
  unfold role_banner, is_banner_for.
  destruct (String.eqb_spec (role_text c) role) as [->|Hne].
  - apply String.eqb_refl.
  - apply String.eqb_neq. intros H. apply Hne. apply banner_text_inj. exact H.
Qed.

Lemma is_role_banner_line (c : option string) :
  is_role_banner (Print false (RTimestamp :: role_banner c)) = true
  /\ is_task_line (Print false (RTimestamp :: role_banner c)) = false.
Proof. split; reflexivity. Qed.

Lemma banner_for_is_banner (role : string) (p : printed) :
  is_banner_for role p = true -> is_role_banner p = true.
Proof.
  destruct p as [[|] [|[s| |n|n rows] [|[s'| |n'|n' rows'] [|x args]]]];
    simpl; try discriminate.
  intros H. apply String.eqb_eq in H. subst s'. reflexivity.
Qed.

Lemma not_banner_not_for (role : string) (p : printed) :
  is_role_banner p = false -> is_banner_for role p = false.
Proof.
  intros H. destruct (is_banner_for role p) eqn:Hb; [|reflexivity].
  apply banner_for_is_banner in Hb. congruence.
Qed.

(** *** The role side of a step *)

(** The role fields of a state. *)
Definition role_view : Type := option string * option string * bool.

Definition view (st : state) : role_view :=
  (_current_role st, _last_printed_role st, _should_print_role st).

Definition armed_view (v : role_view) (role_name : string) : bool :=
  let '(current, last_printed, should_print) := v in
  (should_print || negb (bool_decide (current = Some role_name)))
  && negb (String.eqb role_name "None")
  && negb (bool_decide (last_printed = Some role_name)).

(** The fields after [_handle_role arm] when a finishing event was handled. *)
Definition after_arm (v : role_view) (arm : option string) : role_view :=
  match arm with
  | Some role_name => (Some role_name, snd (fst v), armed_view v role_name)
  | None => v
  end.

(** The fields after [_log_task], when it was called. *)
Definition after_log (v : role_view) (logs : bool) : role_view :=
  let '(current, last_printed, should_print) := v in
  if logs && should_print then (current, current, false) else v.

(** What the step prints: the banner when it is pending, the task line [q],
    then output that holds neither. *)
Definition log_output (v : role_view) (logs : bool) (q : printed)
    (rest : list printed) : list printed :=
  if logs then
    if snd v then Print false (RTimestamp :: role_banner (fst (fst v))) :: q :: rest
    else q :: rest
  else rest.

Lemma log_task_spec (st : state) (message : string) (elapsed : option float) :
  let q := Print false (RTimestamp ::
                        match elapsed with
                        | None => [RStr message]
                        | Some n => [RStr message; RStr "-"; RElapsed n]
                        end) in
  view (fst (_log_task st message elapsed)) = after_log (view st) true
  /\ snd (_log_task st message elapsed) = log_output (view st) true q [].
Proof.
  unfold _log_task, view, after_log, log_output.
  destruct (_should_print_role st) eqn:Hsp, elapsed; simpl; rewrite ?Hsp; auto.
Qed.

Lemma handle_role_view (st : state) (role_name : string) :
  view (_handle_role st role_name) = after_arm (view st) (Some role_name).
Proof.
  destruct (handle_role_spec st role_name) as (Hc & Hl & Hs).
  unfold view, after_arm. rewrite Hc, Hl, Hs. reflexivity.
Qed.

Lemma quiet_app (a b : list printed) : quiet (a ++ b) = quiet a && quiet b.
Proof. apply forallb_app. Qed.

Lemma raw_quiet (out : list printed) :
  List.Forall (fun p => is_raw p = true) out -> quiet out = true.
Proof.
  intros H. apply forallb_forall. intros p Hin.
  rewrite List.Forall_forall in H. specialize (H p Hin).
  destruct p as [[|] args]; [reflexivity | discriminate].
Qed.

Lemma print_result_quiet (ext : collaborators) (result : dict) (t : task)
    (pre : dict -> task -> dict) :
  quiet (_print_result ext result t pre) = true.
Proof. unfold _print_result. destruct (truthy _); reflexivity. Qed.

Lemma payload_output_quiet (opts : options) (ext : collaborators)
    (result : task_result) (status : string) :
  quiet (payload_output opts ext result status) = true.
Proof.
  unfold payload_output. destruct (selected_form opts result status);
    [apply print_result_quiet | reflexivity].
Qed.

Lemma after_log_false (v : role_view) : after_log v false = v.
Proof. destruct v as [[c l] sp]. reflexivity. Qed.

Lemma log_output_app (v : role_view) (q : printed) (rest : list printed) :
  log_output v true q [] ++ rest = log_output v true q rest.
Proof. unfold log_output. destruct (snd v); reflexivity. Qed.

Definition some_task_line : printed := Print false [RTimestamp; RStr "[rlo.task.log."].

Lemma on_finished_task_roles (opts : options) (ext : collaborators) (st : state)
    (result : task_result) (status : string) (slot_elapsed : float) (id : nat) :
  _hosts st !! _host result = Some id ->
  exists st' out q rest,
    _on_finished_task opts ext st result status slot_elapsed = Returned (st', out)
    /\ is_task_line q = true /\ is_role_banner q = false /\ quiet rest = true
    /\ view st' = after_log (after_arm (view st) (Some (task_role_name (_task result))))
                            (_should_log_task opts result status)
    /\ out = log_output (after_arm (view st) (Some (task_role_name (_task result))))
                        (_should_log_task opts result status) q rest.
Proof.
  intros Hid.
  destruct (on_finished_task_output opts ext st result status slot_elapsed id Hid)
    as (st0 & out_log0 & out_diff & out_path & Heq0 & _ & Hdiff & _).
  unfold _on_finished_task in *. cbv beta iota zeta delta [_get_task_infos] in *.
  rewrite Hid in *. fold (task_role_name (_task result)) in *.
  set (R := task_role_name (_task result)) in *.
  assert (Hst1 : exists st1 elapsed,
             match _progress_tasks st !! id with
             | Some _ => (remove_task st id, slot_elapsed)
             | None => (st, S754_zero false)
             end = (st1, elapsed) /\ view st1 = view st).
  { destruct (_progress_tasks st !! id); eexists _, _; split; reflexivity. }
  destruct Hst1 as (st1 & elapsed & Hst1 & Hv1). rewrite Hst1 in *.
  pose proof (handle_role_view st1 R) as Hv2. rewrite Hv1 in Hv2.
  set (rest := (if is_changed result then _print_diff ext result else [])
               ++ (if _should_print_comprehensive_task_result opts result status
                   then _print_result ext (_result result) (_task result)
                          (_get_comprehensive_result_object opts ext)
                   else if _should_print_reduced_task_result opts result status
                        then _print_result ext (_result result) (_task result)
                               (_get_reduced_result_object opts)
                        else [])
               ++ (if String.eqb status "failed" && show_task_path_on_failure opts
                   then _print false [RStr ("[rlo.task.log.task_path][italic]task path: "
                                            +:+ task_path (_task result))]
                   else [])) in *.
  assert (Hrest : quiet rest = true).
  { unfold rest. rewrite !quiet_app. repeat (apply andb_true_iff; split).
    - destruct (is_changed result); [apply raw_quiet, print_diff_raw | reflexivity].
    - destruct (_should_print_comprehensive_task_result opts result status);
        [apply print_result_quiet|].
      destruct (_should_print_reduced_task_result opts result status);
        [apply print_result_quiet | reflexivity].
    - destruct (String.eqb status "failed" && show_task_path_on_failure opts);
        reflexivity. }
  clear Heq0.
  destruct (_should_log_task opts result status).
  - match goal with |- context [_log_task ?s ?m ?e] =>
      destruct (log_task_spec s m e) as (Hv3 & Hout);
      destruct (_log_task s m e) as [st3 out_log]
    end.
    cbn [fst snd] in Hv3, Hout. rewrite Hv2 in Hv3, Hout.
    eexists st3, _, _, rest. split; [reflexivity|].
    split; [|split; [|split; [exact Hrest|split; [exact Hv3|]]]].
    3: { rewrite Hout. apply log_output_app. }
    all: reflexivity.
  - eexists _, _, some_task_line, rest. split; [reflexivity|].
    split; [reflexivity|]. split; [reflexivity|]. split; [exact Hrest|].
    rewrite after_log_false. split; [exact Hv2 | reflexivity].
Qed.

(** The role fields and the output of one step: the fields are re-armed when
    a finishing event is handled, then [_log_task] may print. *)
Lemma step_roles (opts : options) (ext : collaborators) (st : state) (ev : event) :
  exists (arm : option string) (logs : bool) (q : printed) (rest : list printed),
    (arm = None \/ arm = finished_role ev)
    /\ (forall r, finished_result ev = Some r -> is_Some (_hosts st !! _host r) ->
                  arm = Some (task_role_name (_task r)))
    /\ is_task_line q = true /\ is_role_banner q = false /\ quiet rest = true
    /\ view (fst (step opts ext st ev)) = after_log (after_arm (view st) arm) logs
    /\ snd (step opts ext st ev) = log_output (after_arm (view st) arm) logs q rest.
Proof.
  assert (Hfin : forall r s e,
    exists (arm : option string) (logs : bool) (q : printed) (rest : list printed),
      (arm = None \/ arm = Some (task_role_name (_task r)))
      /\ (is_Some (_hosts st !! _host r) -> arm = Some (task_role_name (_task r)))
      /\ is_task_line q = true /\ is_role_banner q = false /\ quiet rest = true
      /\ view (fst (match _on_finished_task opts ext st r s e with
                    | Returned x => x
                    | Raised _ => (st, [])
                    end)) = after_log (after_arm (view st) arm) logs
      /\ snd (match _on_finished_task opts ext st r s e with
              | Returned x => x
              | Raised _ => (st, [])
              end) = log_output (after_arm (view st) arm) logs q rest).
  { intros r s e. destruct (_hosts st !! _host r) as [id|] eqn:Hid.
    - destruct (on_finished_task_roles opts ext st r s e id Hid)
        as (st' & out & q & rest & -> & Hq & Hb & Hrest & Hv & Hout).
      exists (Some (task_role_name (_task r))), (_should_log_task opts r s), q, rest.
      cbn [fst snd]. auto 10.
    - pose proof (on_finished_task_slots opts ext st r s e) as H. rewrite Hid in H.
      rewrite H. exists None, false, some_task_line, [].
      cbn [fst snd after_arm]. rewrite after_log_false.
      repeat split; auto. intros [x Hx]. discriminate. }
  assert (Hquiet : forall st' out,
    view st' = view st -> quiet out = true ->
    exists (arm : option string) (logs : bool) (q : printed) (rest : list printed),
      (arm = None \/ arm = finished_role ev)
      /\ (forall r, finished_result ev = Some r -> is_Some (_hosts st !! _host r) ->
                    arm = Some (task_role_name (_task r)))
      /\ is_task_line q = true /\ is_role_banner q = false /\ quiet rest = true
      /\ view st' = after_log (after_arm (view st) arm) logs
      /\ out = log_output (after_arm (view st) arm) logs q rest
    \/ finished_result ev <> None).
  { intros st' out Hv Hq. destruct (finished_result ev) eqn:Hf.
    - eexists None, false, some_task_line, out. right. discriminate.
    - exists None, false, some_task_line, out. left.
      cbn [after_arm]. rewrite after_log_false.
      repeat split; auto. intros r [=]. }
  assert (Hlog : forall m,
    startswith m "[rlo.task.log." = true ->
    startswith m "[bold] --- Role - " = false ->
    finished_result ev = None ->
    exists (arm : option string) (logs : bool) (q : printed) (rest : list printed),
      (arm = None \/ arm = finished_role ev)
      /\ (forall r, finished_result ev = Some r -> is_Some (_hosts st !! _host r) ->
                    arm = Some (task_role_name (_task r)))
      /\ is_task_line q = true /\ is_role_banner q = false /\ quiet rest = true
      /\ view (fst (_log_task st m None)) = after_log (after_arm (view st) arm) logs
      /\ snd (_log_task st m None) = log_output (after_arm (view st) arm) logs q rest).
  { intros m Hm1 Hm2 Hf. destruct (log_task_spec st m None) as (Hv & Hout).
    exists None, true, (Print false [RTimestamp; RStr m]), [].
    cbn [after_arm]. repeat split; auto.
    intros r Hr. congruence. }
  destruct ev; unfold step, handle.
  - destruct (Hquiet st (snd (v2_playbook_on_play_start st play_name play_check_mode)))
      as (arm & logs & q & rest & [H | H]); [reflexivity | | | contradiction H; reflexivity].
    + unfold v2_playbook_on_play_start. destruct play_check_mode; reflexivity.
    + exists arm, logs, q, rest. exact H.
  - destruct (Hquiet (v2_runner_on_start opts st host t) [])
      as (arm & logs & q & rest & [H | H]); [ | reflexivity | | contradiction H; reflexivity].
    + unfold v2_runner_on_start. cbv beta iota zeta delta [_get_task_infos]. reflexivity.
    + exists arm, logs, q, rest. exact H.
  - destruct (Hfin result "ok" slot_elapsed) as (arm & logs & q & rest & H1 & H2 & H).
    exists arm, logs, q, rest. split; [exact H1|]. split; [|exact H].
    intros r [= <-]. exact H2.
  - destruct (Hfin result "skipped" slot_elapsed) as (arm & logs & q & rest & H1 & H2 & H).
    exists arm, logs, q, rest. split; [exact H1|]. split; [|exact H].
    intros r [= <-]. exact H2.
  - destruct (Hfin result "failed" slot_elapsed) as (arm & logs & q & rest & H1 & H2 & H).
    exists arm, logs, q, rest. split; [exact H1|]. split; [|exact H].
    intros r [= <-]. exact H2.
  - destruct (Hfin result "unreachable" slot_elapsed) as (arm & logs & q & rest & H1 & H2 & H).
    exists arm, logs, q, rest. split; [exact H1|]. split; [|exact H].
    intros r [= <-]. exact H2.
  - unfold v2_runner_retry. cbv beta iota zeta delta [_get_task_infos].
    destruct (retries_left (_result result)) as [n|e].
    + apply Hlog; reflexivity.
    + destruct (Hquiet st []) as (arm & logs & q & rest & [H | H]);
        [reflexivity | reflexivity | | contradiction H; reflexivity].
      exists arm, logs, q, rest. exact H.
  - destruct (Hquiet st (snd (v2_playbook_on_notify opts st handler host)))
      as (arm & logs & q & rest & [H | H]); [reflexivity | | | contradiction H; reflexivity].
    + unfold v2_playbook_on_notify. cbv beta iota zeta delta [_get_task_infos]. reflexivity.
    + exists arm, logs, q, rest.
      unfold v2_playbook_on_notify in *. cbv beta iota zeta delta [_get_task_infos] in *.
      exact H.
  - unfold v2_playbook_on_no_hosts_matched. apply Hlog; reflexivity.
  - destruct (Hquiet (live_stop st) (snd (v2_playbook_on_stats st processed seconds)))
      as (arm & logs & q & rest & [H | H]);
      [reflexivity | reflexivity | | contradiction H; reflexivity].
    exists arm, logs, q, rest. exact H.
Qed.

(** *** Reasoning on the role fields *)

(** The banner is pending exactly for a current role that is not ["None"] and
    not the last one printed. *)
Definition role_inv (v : role_view) : Prop :=
  snd v = true <->
  exists r, fst (fst v) = Some r /\ r <> "None" /\ snd (fst v) <> Some r.

(** Nothing is pending for the current role [role]. *)
Definition settled (role : string) (v : role_view) : Prop :=
  fst (fst v) = Some role /\ snd v = false.

Definition pending (role : string) (v : role_view) : Prop :=
  fst (fst v) = Some role /\ snd v = true.

Lemma role_inv_init (b : bool) : role_inv (view (init b)).
Proof.
  unfold role_inv; simpl. split; [discriminate|].
  intros (r & H & _). discriminate.
Qed.

Lemma armed_view_true (v : role_view) (role_name : string) :
  role_inv v ->
  armed_view v role_name = true <->
  role_name <> "None" /\ snd (fst v) <> Some role_name.
Proof.
  destruct v as [[c l] sp]. unfold role_inv, armed_view. cbn [fst snd]. intros Hinv.
  rewrite !andb_true_iff, !negb_true_iff, String.eqb_neq, bool_decide_eq_false.
  split; [tauto|]. intros [Hn Hl]. repeat split; try assumption.
  apply orb_true_iff.
  destruct (bool_decide (c = Some role_name)) eqn:Hc; [|right; reflexivity].
  apply bool_decide_eq_true in Hc. left. apply Hinv. eauto.
Qed.

Lemma role_inv_after_arm (v : role_view) (arm : option string) :
  role_inv v -> role_inv (after_arm v arm).
Proof.
  intros Hinv. destruct arm as [R|]; [|exact Hinv].
  unfold after_arm, role_inv. cbn [fst snd].
  rewrite (armed_view_true v R Hinv). split.
  - intros [Hn Hl]. eauto.
  - intros (r & [= <-] & Hn & Hl). auto.
Qed.

Lemma role_inv_after_log (v : role_view) (logs : bool) :
  role_inv v -> role_inv (after_log v logs).
Proof.
  destruct v as [[c l] sp]. unfold after_log.
  destruct (logs && sp); [|tauto].
  intros _. unfold role_inv. cbn [fst snd]. split; [discriminate|].
  intros (r & -> & _ & H). congruence.
Qed.

Lemma role_inv_step (opts : options) (ext : collaborators) (st : state) (ev : event) :
  role_inv (view st) -> role_inv (view (fst (step opts ext st ev))).
Proof.
  intros Hinv.
  destruct (step_roles opts ext st ev) as (arm & logs & q & rest & _ & _ & _ & _ & _ & -> & _).
  apply role_inv_after_log, role_inv_after_arm, Hinv.
Qed.

Lemma role_inv_run (opts : options) (ext : collaborators) (evs : list event) :
  forall st, role_inv (view st) -> role_inv (view (fst (run opts ext st evs))).
Proof.
  induction evs as [|ev evs IH]; intros st Hinv; [exact Hinv|].
  rewrite run_cons_state. apply IH, role_inv_step, Hinv.
Qed.

Lemma run_cons_output (opts : options) (ext : collaborators) (st : state)
    (ev : event) (evs : list event) :
  snd (run opts ext st (ev :: evs))
  = snd (step opts ext st ev) ++ snd (run opts ext (fst (step opts ext st ev)) evs).
Proof.
  simpl. destruct (step opts ext st ev) as [st1 out1]. simpl.
  destruct (run opts ext st1 evs). reflexivity.
Qed.

(** *** Counting and shapes *)

Lemma count_app (role : string) (a b : list printed) :
  count_banners_for role (a ++ b)
  = (count_banners_for role a + count_banners_for role b)%nat.
Proof. unfold count_banners_for. rewrite List.filter_app, length_app. reflexivity. Qed.

Lemma task_text_not_banner_text (s : string) :
  startswith s "[rlo.task.log." = true -> startswith s "[bold] --- Role - " = false.
Proof.
  destruct s as [|c1 [|c2 s]]; cbn [startswith]; intros H.
  - discriminate.
  - rewrite andb_false_r in H. discriminate.
  - apply andb_true_iff in H as [_ H]. apply andb_true_iff in H as [H _].
    apply Ascii.eqb_eq in H. subst c2.
    change (Ascii.eqb "b" "r") with false. cbn [andb]. apply andb_false_r.
Qed.

Lemma task_line_not_banner (p : printed) :
  is_task_line p = true -> is_role_banner p = false.
Proof.
  destruct p as [[|] [|[s| |n|n rows] [|[s'| |n'|n' rows'] [|x args]]]];
    cbn [is_task_line is_role_banner]; try reflexivity; try discriminate.
  apply task_text_not_banner_text.
Qed.

Lemma quiet_no_banner (out : list printed) : quiet out = true -> no_banner out = true.
Proof.
  unfold quiet, no_banner. rewrite !forallb_forall. intros H p Hin.
  specialize (H p Hin). apply andb_true_iff in H. tauto.
Qed.

Lemma no_banner_app (a b : list printed) : no_banner (a ++ b) = no_banner a && no_banner b.
Proof. apply forallb_app. Qed.

Lemma no_banner_count (role : string) (out : list printed) :
  no_banner out = true -> count_banners_for role out = 0%nat.
Proof.
  unfold no_banner, count_banners_for. induction out as [|p out IH]; [reflexivity|].
  cbn [forallb List.filter]. intros H. apply andb_true_iff in H as [Hp Hout].
  apply negb_true_iff in Hp. rewrite (not_banner_not_for role p Hp). auto.
Qed.

Lemma no_banner_followed (out : list printed) :
  no_banner out = true -> banners_followed out = true.
Proof.
  induction out as [|p out IH]; [reflexivity|].
  cbn [no_banner forallb banners_followed]. intros H.
  apply andb_true_iff in H as [Hp Hout]. apply negb_true_iff in Hp.
  rewrite Hp. apply IH. exact Hout.
Qed.

Lemma banners_followed_app (a b : list printed) :
  banners_followed a = true -> banners_followed b = true ->
  banners_followed (a ++ b) = true.
Proof.
  induction a as [|p a IH]; [auto|].
  cbn [app banners_followed]. intros Ha Hb.
  apply andb_true_iff in Ha as [Hp Ha]. rewrite (IH Ha Hb), andb_true_r.
  destruct (is_role_banner p); [|reflexivity].
  destruct a as [|q a]; [discriminate | exact Hp].
Qed.

Lemma log_output_followed (v : role_view) (logs : bool) (q : printed)
    (rest : list printed) :
  is_task_line q = true -> quiet rest = true ->
  banners_followed (log_output v logs q rest) = true.
Proof.
  intros Hq Hrest. pose proof (task_line_not_banner q Hq) as Hnb.
  pose proof (no_banner_followed rest (quiet_no_banner rest Hrest)) as Hr.
  unfold log_output. destruct logs; [|exact Hr].
  destruct (snd v); cbn [banners_followed]; rewrite ?Hnb, ?Hq, ?Hr; reflexivity.
Qed.

Lemma log_output_count (role : string) (v : role_view) (logs : bool) (q : printed)
    (rest : list printed) :
  is_task_line q = true -> quiet rest = true ->
  count_banners_for role (log_output v logs q rest)
  = if logs && snd v && String.eqb (role_text (fst (fst v))) role then 1%nat else 0%nat.
Proof.
  intros Hq Hrest. pose proof (task_line_not_banner q Hq) as Hnb.
  pose proof (no_banner_count role rest (quiet_no_banner rest Hrest)) as Hr.
  unfold log_output. destruct logs; [|exact Hr]. cbn [andb].
  destruct (snd v); cbn [andb].
  - change (Print false (RTimestamp :: role_banner v.1.1) :: q :: rest)
      with ([Print false (RTimestamp :: role_banner v.1.1)] ++ [q] ++ rest).
    rewrite !count_app, Hr.
    unfold count_banners_for at 1 2. cbn [List.filter].
    rewrite is_banner_for_line, (not_banner_not_for role q Hnb).
    destruct (String.eqb (role_text v.1.1) role); reflexivity.
  - change (q :: rest) with ([q] ++ rest). rewrite count_app, Hr.
    unfold count_banners_for. cbn [List.filter].
    rewrite (not_banner_not_for role q Hnb). reflexivity.
Qed.

Lemma settled_after (role : string) (v : role_view) (arm : option string) (logs : bool) :
  settled role v -> (arm = None \/ arm = Some role) ->
  after_arm v arm = v /\ after_log v logs = v.
Proof.
  destruct v as [[c l] sp]. unfold settled. cbn [fst snd]. intros [-> ->] Harm.
  split.
  - destruct Harm as [-> | ->]; [reflexivity|].
    unfold after_arm, armed_view. cbn [fst snd].
    rewrite bool_decide_eq_true_2 by reflexivity. reflexivity.
  - unfold after_log. rewrite andb_false_r. reflexivity.
Qed.

Lemma stretch_arm (opts : options) (role : string) (ev : event) (evs : list event)
    (arm : option string) :
  same_role_stretch role (ev :: evs) ->
  (arm = None \/ arm = finished_role ev) ->
  arm = None \/ arm = Some role.
Proof.
  intros Hs [-> | ->]; [auto|].
  destruct (finished_role ev) as [r|] eqn:Hr; [|auto].
  right. f_equal. apply (Hs ev r); [left; reflexivity | exact Hr].
Qed.

Lemma stretch_tail (role : string) (ev : event) (evs : list event) :
  same_role_stretch role (ev :: evs) -> same_role_stretch role evs.
Proof. intros Hs e r Hin. apply Hs. right. exact Hin. Qed.

(** Once nothing is pending for the role of the stretch, no banner is
    printed in it. *)
Lemma settled_run (opts : options) (ext : collaborators) (role : string)
    (evs : list event) :
  forall st,
    settled role (view st) -> same_role_stretch role evs ->
    no_banner (snd (run opts ext st evs)) = true.
Proof.
  induction evs as [|ev evs IH]; intros st Hset Hs; [reflexivity|].
  rewrite run_cons_output, no_banner_app.
  destruct (step_roles opts ext st ev)
    as (arm & logs & q & rest & Harm & _ & Hq & Hnb & Hrest & Hv & Hout).
  apply (stretch_arm opts role ev evs) in Harm; [|exact Hs].
  destruct (settled_after role (view st) arm logs Hset Harm) as [Ha Hl].
  rewrite Ha in Hv, Hout. rewrite Hl in Hv.
  apply andb_true_iff. split.
  - rewrite Hout. unfold log_output. destruct Hset as [_ ->].
    destruct logs; [|apply quiet_no_banner; exact Hrest].
    cbn [no_banner forallb]. rewrite Hnb. apply quiet_no_banner. exact Hrest.
  - apply IH; [|eapply stretch_tail; exact Hs]. rewrite Hv. exact Hset.
Qed.

(** At most one banner of the role of a stretch. *)
Lemma stretch_at_most_once (opts : options) (ext : collaborators) (role : string)
    (evs : list event) :
  forall st,
    role_inv (view st) -> same_role_stretch role evs ->
    (count_banners_for role (snd (run opts ext st evs)) <= 1)%nat.
Proof.
  induction evs as [|ev evs IH]; intros st Hinv Hs;
    [unfold count_banners_for; simpl; lia|].
  rewrite run_cons_output, count_app.
  destruct (step_roles opts ext st ev)
    as (arm & logs & q & rest & Harm & _ & Hq & Hnb & Hrest & Hv & Hout).
  pose proof (role_inv_after_arm (view st) arm Hinv) as Hinv1.
  set (v1 := after_arm (view st) arm) in *.
  rewrite Hout, (log_output_count role v1 logs q rest Hq Hrest).
  destruct (logs && snd v1 && String.eqb (role_text (fst (fst v1))) role) eqn:Hc.
  - apply andb_true_iff in Hc as [Hc Heq]. apply andb_true_iff in Hc as [-> Hsp].
    apply String.eqb_eq in Heq.
    assert (Hset : settled role (view (fst (step opts ext st ev)))).
    { rewrite Hv. destruct v1 as [[c l] sp]. cbn [fst snd] in *. subst sp.
      unfold after_log, settled. cbn [andb fst snd].
      destruct (proj1 Hinv1 eq_refl) as (r & Hr & _). cbn [fst snd] in Hr.
      subst c. cbn [role_text] in Heq. subst r. auto. }
    rewrite (no_banner_count role _
               (settled_run opts ext role evs _ Hset (stretch_tail role ev evs Hs))).
    lia.
  - specialize (IH (fst (step opts ext st ev))).
    cbn [Nat.add]. apply IH; [|eapply stretch_tail; exact Hs].
    rewrite Hv. apply role_inv_after_log. exact Hinv1.
Qed.

(** No banner of the role ["None"]. *)
Lemma never_banner_for_None (opts : options) (ext : collaborators) (evs : list event) :
  forall st,
    role_inv (view st) ->
    count_banners_for "None" (snd (run opts ext st evs)) = 0%nat.
Proof.
  induction evs as [|ev evs IH]; intros st Hinv; [reflexivity|].
  rewrite run_cons_output, count_app.
  rewrite (IH _ (role_inv_step opts ext st ev Hinv)).
  destruct (step_roles opts ext st ev)
    as (arm & logs & q & rest & Harm & _ & Hq & Hnb & Hrest & Hv & Hout).
  pose proof (role_inv_after_arm (view st) arm Hinv) as Hinv1.
  rewrite Hout, (log_output_count "None" _ logs q rest Hq Hrest).
  destruct logs; [|reflexivity]. cbn [andb].
  destruct (snd (after_arm (view st) arm)) eqn:Hsp; [|reflexivity]. cbn [andb].
  destruct (proj1 Hinv1 Hsp) as (r & -> & Hr & _). cbn [role_text].
  rewrite (proj2 (String.eqb_neq r "None") Hr). reflexivity.
Qed.

Lemma banners_followed_run (opts : options) (ext : collaborators) (evs : list event) :
  forall st, banners_followed (snd (run opts ext st evs)) = true.
Proof.
  induction evs as [|ev evs IH]; intros st; [reflexivity|].
  rewrite run_cons_output. apply banners_followed_app; [|apply IH].
  destruct (step_roles opts ext st ev)
    as (arm & logs & q & rest & _ & _ & Hq & _ & Hrest & _ & ->).
  apply log_output_followed; assumption.
Qed.

Lemma pending_shape_quiet_app (role : string) (a b : list printed) :
  quiet a = true -> pending_shape role (a ++ b) = pending_shape role b.
Proof.
  induction a as [|p a IH]; [reflexivity|].
  cbn [quiet forallb app pending_shape]. intros H.
  apply andb_true_iff in H as [Hp Ha]. apply andb_true_iff in Hp as [Hb Ht].
  apply negb_true_iff in Hb. rewrite Hb, Ht. cbn [andb]. apply IH. exact Ha.
Qed.

Lemma pending_step_shape (role : string) (v : role_view) (logs : bool) (q : printed)
    (rest out2 : list printed) :
  pending role v ->
  is_task_line q = true -> quiet rest = true ->
  (logs = true -> no_banner out2 = true) ->
  (logs = false -> pending_shape role out2 = true) ->
  pending_shape role (log_output v logs q rest ++ out2) = true.
Proof.
  intros [Hc Hsp] Hq Hrest Hyes Hno. unfold log_output. rewrite Hsp, Hc.
  destruct logs.
  - cbn [app pending_shape].
    rewrite (proj1 (is_role_banner_line (Some role))), is_banner_for_line.
    cbn [role_text]. rewrite String.eqb_refl, Hq, no_banner_app.
    rewrite (quiet_no_banner rest Hrest), (Hyes eq_refl). reflexivity.
  - rewrite pending_shape_quiet_app by exact Hrest. apply Hno. reflexivity.
Qed.

Lemma pending_after_log (role : string) (v : role_view) :
  pending role v ->
  settled role (after_log v true) /\ pending role (after_log v false).
Proof.
  destruct v as [[c l] sp]. unfold pending, settled, after_log. cbn [fst snd].
  intros [-> ->]. cbn [andb fst snd]. auto.
Qed.

Lemma pending_after_arm (role : string) (v : role_view) (arm : option string) :
  role_inv v -> pending role v -> (arm = None \/ arm = Some role) ->
  pending role (after_arm v arm).
Proof.
  intros Hinv [Hc Hsp] [-> | ->]; [split; assumption|].
  unfold pending, after_arm. cbn [fst snd]. split; [reflexivity|].
  apply (armed_view_true v role Hinv).
  destruct (proj1 Hinv Hsp) as (r & Hr & Hn & Hl). rewrite Hc in Hr.
  injection Hr as <-. auto.
Qed.

(** A stretch that starts with the banner of its role pending. *)
Lemma pending_run (opts : options) (ext : collaborators) (role : string)
    (evs : list event) :
  forall st,
    role_inv (view st) -> pending role (view st) -> same_role_stretch role evs ->
    pending_shape role (snd (run opts ext st evs)) = true.
Proof.
  induction evs as [|ev evs IH]; intros st Hinv Hp Hs; [reflexivity|].
  rewrite run_cons_output.
  destruct (step_roles opts ext st ev)
    as (arm & logs & q & rest & Harm & _ & Hq & Hnb & Hrest & Hv & Hout).
  apply (stretch_arm opts role ev evs) in Harm; [|exact Hs].
  pose proof (pending_after_arm role (view st) arm Hinv Hp Harm) as Hp1.
  pose proof (role_inv_after_arm (view st) arm Hinv) as Hinv1.
  destruct (pending_after_log role _ Hp1) as [Hyes Hno].
  rewrite Hout. apply pending_step_shape; try assumption.
  - intros ->. apply (settled_run opts ext role); [|eapply stretch_tail; exact Hs].
    rewrite Hv. exact Hyes.
  - intros ->. apply IH; [| |eapply stretch_tail; exact Hs]; rewrite Hv.
    + apply role_inv_after_log. exact Hinv1.
    + exact Hno.
Qed.

Lemma pending_shape_count (role : string) (out : list printed) :
  pending_shape role out = true ->
  count_banners_for role out = if existsb is_task_line out then 1%nat else 0%nat.
Proof.
  induction out as [|p out IH]; [reflexivity|].
  cbn [pending_shape existsb]. destruct (is_role_banner p) eqn:Hb.
  - intros H. apply andb_true_iff in H as [Hfor H].
    destruct out as [|q out]; [discriminate|].
    apply andb_true_iff in H as [Hq Hnb].
    change (p :: q :: out) with ([p] ++ [q] ++ out). rewrite !count_app.
    rewrite (no_banner_count role out Hnb).
    unfold count_banners_for. cbn [List.filter].
    rewrite Hfor, (not_banner_not_for role q (task_line_not_banner q Hq)).
    cbn [existsb]. rewrite Hq, orb_true_r. reflexivity.
  - intros H. apply andb_true_iff in H as [Ht H]. apply negb_true_iff in Ht.
    rewrite Ht. cbn [orb]. rewrite <- (IH H).
    change (p :: out) with ([p] ++ out). rewrite count_app.
    unfold count_banners_for at 1. cbn [List.filter].
    rewrite (not_banner_not_for role p Hb). reflexivity.
Qed.

(** The first finished task of a stretch, handled in a state [st]. *)
Lemma first_of_stretch (opts : options) (ext : collaborators) (st : state)
    (ev : event) (r : task_result) (rest : list event) :
  role_inv (view st) ->
  finished_result ev = Some r ->
  is_Some (_hosts st !! _host r) ->
  same_role_stretch (task_role_name (_task r)) rest ->
  let role := task_role_name (_task r) in
  let out := snd (run opts ext st (ev :: rest)) in
  (role <> "None" -> _last_printed_role st <> Some role ->
   pending_shape role out = true)
  /\ (role = "None" \/ _last_printed_role st = Some role -> no_banner out = true).
Proof.
  intros Hinv Hev Hknown Hs role out. unfold out. rewrite run_cons_output.
  destruct (step_roles opts ext st ev)
    as (arm & logs & q & rest1 & _ & Harm & Hq & Hnb & Hrest & Hv & Hout).
  specialize (Harm r Hev Hknown). fold role in Harm. subst arm.
  pose proof (role_inv_after_arm (view st) (Some role) Hinv) as Hinv1.
  pose proof (armed_view_true (view st) role Hinv) as Harmed.
  set (v1 := after_arm (view st) (Some role)) in *.
  assert (Hc1 : fst (fst v1) = Some role) by reflexivity.
  assert (Hs1 : snd v1 = armed_view (view st) role) by reflexivity.
  split.
  - intros Hn Hl.
    assert (Hp1 : pending role v1).
    { split; [exact Hc1|]. rewrite Hs1. apply Harmed. auto. }
    destruct (pending_after_log role _ Hp1) as [Hyes Hno].
    rewrite Hout. apply pending_step_shape; try assumption.
    + intros ->. apply (settled_run opts ext role); [|exact Hs]. rewrite Hv. exact Hyes.
    + intros ->. apply (pending_run opts ext role); [| |exact Hs]; rewrite Hv.
      * apply role_inv_after_log. exact Hinv1.
      * exact Hno.
  - intros Hor.
    assert (Hset : settled role v1).
    { split; [exact Hc1|]. rewrite Hs1. apply not_true_iff_false.
      rewrite Harmed. unfold view. cbn [fst snd]. tauto. }
    rewrite no_banner_app. apply andb_true_iff. split.
    + rewrite Hout. unfold log_output. destruct Hset as [_ ->].
      destruct logs; [|apply quiet_no_banner; exact Hrest].
      cbn [no_banner forallb]. rewrite Hnb. apply quiet_no_banner. exact Hrest.
    + apply (settled_run opts ext role); [|exact Hs]. rewrite Hv.
      destruct v1 as [[c l] sp]. destruct Hset as [Hc Hsp]. cbn [fst snd] in Hc, Hsp.
      subst c sp. unfold after_log. rewrite andb_false_r. split; reflexivity.
Qed.

(** *** Concrete streams *)

Definition role_task (action : string) (role : option string) : task :=
  {| task_name := "step"; task_action := action; task_no_log := false;
     task_check_mode := false; task_delegate_to := None; task_role := role;
     task_vars := []; task_loop := false; task_is_handler := false;
     task_path := "roles/web/tasks/main.yml:1" |}.

Definition role_result (role : option string) : task_result :=
  {| _host := "web1"; _task := role_task "command" role; _result := [];
     is_changed := false |}.

Definition started (role : option string) : event :=
  RunnerStart "web1" (role_task "command" role).

Definition finished_ok (role : option string) : event :=
  RunnerOk (role_result role) (S754_zero false).

Definition finished_failed (role : option string) : event :=
  RunnerFailed (role_result role) (S754_zero false).

(** C6, as stated, fails: at verbosity 0 a stretch of one task of role [web]
    that ends [ok] without a change prints no line, hence no banner; and
    after the banner of [web] was printed, a second stretch of [web] that
    follows a task without role prints its lines without a banner. *)
Lemma role_banner_exactly_once_counterexample :
  finished_role (finished_ok (Some "web")) = Some "web"
  /\ snd (run quiet_options plain_collaborators (init true)
            [started (Some "web"); finished_ok (Some "web")]) = []
  /\ count_banners_for "web"
       (snd (run quiet_options plain_collaborators (init true)
               [started (Some "web"); finished_ok (Some "web")])) = 0%nat
  /\ count_banners_for "web"
       (snd (run quiet_options plain_collaborators (init true)
               [started (Some "web"); finished_failed (Some "web");
                started None; finished_failed None])) = 1%nat
  /\ existsb is_task_line
       (snd (run quiet_options plain_collaborators
               (fst (run quiet_options plain_collaborators (init true)
                       [started (Some "web"); finished_failed (Some "web");
                        started None; finished_failed None]))
               [started (Some "web"); finished_failed (Some "web")])) = true
  /\ count_banners_for "web"
       (snd (run quiet_options plain_collaborators
               (fst (run quiet_options plain_collaborators (init true)
                       [started (Some "web"); finished_failed (Some "web");
                        started None; finished_failed None]))
               [started (Some "web"); finished_failed (Some "web")])) = 0%nat.
Proof. repeat split; vm_compute; reflexivity. Qed.

(** A task whose name holds a closing tag that closes nothing: the console
    refuses its line. *)
Definition hosts_file_task : task :=
  {| task_name := "copy [/etc/hosts]"; task_action := "copy"; task_no_log := false;
     task_check_mode := false; task_delegate_to := None; task_role := Some "web";
     task_vars := []; task_loop := false; task_is_handler := false;
     task_path := "roles/web/tasks/main.yml:7" |}.

Definition hosts_file_failed : event :=
  RunnerFailed {| _host := "web1"; _task := hosts_file_task; _result := [];
                  is_changed := false |} (S754_zero false).

(** The banner of such a task is accepted and its line is not: the condition
    of the protocol on the console does not hold of this stream. *)
Lemma unmatched_closing_tag_refused :
  all_accepted matched_tags
    (snd (run quiet_options plain_collaborators (init true)
            [RunnerStart "web1" hosts_file_task; hosts_file_failed])) = false
  /\ firstn 1 (snd (run quiet_options plain_collaborators (init true)
                      [RunnerStart "web1" hosts_file_task; hosts_file_failed]))
     = [banner_line "web"]
  /\ accepted matched_tags (banner_line "web") = true.
Proof. repeat split; vm_compute; reflexivity. Qed.

(** C6 (amended).  Over a stretch of the stream whose finished tasks all have
    the role [role]:
    - the banner of [role] is printed at most once;
    - when the stretch starts with a finished task that is handled, [role] is
      not ["None"] and is not the role of the last banner printed, and the
      console accepts the lines of the stream up to the end of the stretch,
      the banner is printed exactly once if a task line is written in the
      stretch, immediately before the first of them, and not at all
      otherwise;
    - when [role] is ["None"] or is the role of the last banner printed, no
      banner is printed in such a stretch.
    In every stream whose lines the console accepts a banner is immediately
    followed by a task line, and no banner of ["None"] is ever printed. *)
Theorem role_banner_protocol (accepts : string -> bool) (opts : options)
    (ext : collaborators) :
  (forall pre seg role,
      same_role_stretch role seg ->
      (count_banners_for role
         (snd (run opts ext (fst (run opts ext (init true) pre)) seg)) <= 1)%nat)
  /\ (forall pre ev r rest,
        let st := fst (run opts ext (init true) pre) in
        let role := task_role_name (_task r) in
        let out := snd (run opts ext st (ev :: rest)) in
        finished_result ev = Some r ->
        is_Some (_hosts st !! _host r) ->
        same_role_stretch role rest ->
        all_accepted accepts (snd (run opts ext (init true) pre)) = true ->
        all_accepted accepts out = true ->
        (role <> "None" -> _last_printed_role st <> Some role ->
         pending_shape role out = true
         /\ count_banners_for role out
            = if existsb is_task_line out then 1%nat else 0%nat)
        /\ (role = "None" \/ _last_printed_role st = Some role ->
            no_banner out = true /\ count_banners_for role out = 0%nat))
  /\ (forall st evs,
        all_accepted accepts (snd (run opts ext st evs)) = true ->
        banners_followed (snd (run opts ext st evs)) = true)
  /\ (forall evs,
        count_banners_for "None" (snd (run opts ext (init true) evs)) = 0%nat).
Proof.
  assert (Hreach : forall pre, role_inv (view (fst (run opts ext (init true) pre))))
    by (intros pre; apply role_inv_run, role_inv_init).
  split; [|split; [|split]].
  - intros pre seg role Hs. apply stretch_at_most_once; [apply Hreach | exact Hs].
  - intros pre ev r rest st role out Hev Hknown Hs _ _.
    destruct (first_of_stretch opts ext st ev r rest (Hreach pre) Hev Hknown Hs)
      as [Hpend Hnone].
    fold role in Hpend, Hnone. fold out in Hpend, Hnone. split.
    + intros Hn Hl. specialize (Hpend Hn Hl). split; [exact Hpend|].
      apply pending_shape_count. exact Hpend.
    + intros Hor. specialize (Hnone Hor). split; [exact Hnone|].
      apply no_banner_count. exact Hnone.
  - intros st evs _. apply banners_followed_run.
  - intros evs. apply never_banner_for_None, role_inv_init.
Qed.

Lemma role_banner_protocol_witness :
  all_accepted matched_tags
    (snd (run quiet_options plain_collaborators (init true)
            [started (Some "web"); finished_ok (Some "web"); started (Some "web");
             finished_failed (Some "web")])) = true
  /\ pending_shape "web"
       (snd (run quiet_options plain_collaborators
               (fst (run quiet_options plain_collaborators (init true)
                       [started (Some "web")]))
               [finished_ok (Some "web"); started (Some "web");
                finished_failed (Some "web")])) = true
  /\ count_banners_for "web"
       (snd (run quiet_options plain_collaborators
               (fst (run quiet_options plain_collaborators (init true)
                       [started (Some "web")]))
               [finished_ok (Some "web"); started (Some "web");
                finished_failed (Some "web")])) = 1%nat
  /\ banners_followed
       (snd (run quiet_options plain_collaborators (init true)
               [started (Some "web"); finished_ok (Some "web"); started (Some "web");
                finished_failed (Some "web")])) = true.
Proof.
  destruct (role_banner_protocol matched_tags quiet_options plain_collaborators)
    as (_ & Hexact & Hfollowed & _).
  split; [reflexivity|].
  destruct (Hexact [started (Some "web")] (finished_ok (Some "web"))
              (role_result (Some "web"))
              [started (Some "web"); finished_failed (Some "web")]) as [Hpend _].
  - reflexivity.
  - eexists. reflexivity.
  - intros ev r [<-|[<-|[]]]; vm_compute; intros [=]; congruence.
  - reflexivity.
  - reflexivity.
  - destruct Hpend as [Hshape Hcount]; [discriminate | discriminate |].
    split; [exact Hshape|]. split.
    + etransitivity; [exact Hcount|]. vm_compute. reflexivity.
    + apply Hfollowed. reflexivity.
Defined.

End RoleBanner.

(* ===================================================================== *)
(** ** The rendering of elapsed seconds *)
(* ===================================================================== *)

Module ElapsedFormat.

(** A round bit as a number. *)
Definition b2z (b : bool) : Z := if b then 1 else 0.

(** After [k] shifts of a positive number [P]: the mantissa and the round bit
    are below [P]. *)
Definition shifted (T k : Z) (mrs : shr_record) : Prop :=
  0 <= shr_m mrs
  /\ shr_m mrs * 2 ^ (k + 1) + b2z (shr_r mrs) * 2 ^ k <= T
  /\ T < (shr_m mrs + 1) * 2 ^ (k + 1).

(** The exponent of the unit in the last place for binary64. *)
Definition fexp64 (e : Z) : Z := Z.max (e - 53) (-1074).

(** A non-negative number below the integer [k]: a zero, or a finite number
    [m * 2^e] with [m * 2^e < k], stated over the integers with the unit
    [2^e0]. *)
Definition below (k : Z) (x : float) : Prop :=
  x = S754_zero false
  \/ exists m e e0,
       x = S754_finite false m e
       /\ -1074 <= e0 <= e /\ e0 <= 0 /\ e <= 970
       /\ Zpos m * 2 ^ (e - e0) < k * 2 ^ (- e0)
       /\ Zpos m < 2 ^ 53.

(** Zeros and positive finite numbers. *)
Definition nonneg (x : float) : Prop :=
  match x with
  | S754_zero _ | S754_finite false _ _ => True
  | _ => False
  end.

(** Decimal notation, as the format description words it. *)
Definition digit (d : Z) : ascii := ascii_of_N (48 + Z.to_N d).

(** [z] written with exactly [width] decimal digits. *)
Fixpoint zero_padded (width : nat) (z : Z) : string :=
  match width with
  | O => EmptyString
  | S w => zero_padded w (z / 10) +:+ String (digit (z mod 10)) EmptyString
  end.

(** [z] below 10000 written without leading zeros. *)
Definition unpadded (z : Z) : string :=
  if z <? 10 then zero_padded 1 z
  else if z <? 100 then zero_padded 2 z
  else if z <? 1000 then zero_padded 3 z
  else zero_padded 4 z.

(** A check of every number below [k]. *)
Definition all_below (k : nat) (P : Z -> bool) : bool :=
  forallb (fun i => P (Z.of_nat i)) (seq 0 k).

(** An elapsed time: a binary64 number that is finite and not negative. *)
Definition elapsed_value (n : float) : Prop :=
  valid_binary prec emax n = true /\ nonneg n.

(** The two renderings: [.mmm] and [H:MM:SS.mmm]. *)
Definition sub_second_form (ms : Z) : string := "." +:+ zero_padded 3 ms.

Definition long_form (h m s ms : Z) : string :=
  unpadded h +:+ ":" +:+ zero_padded 2 m +:+ ":" +:+ zero_padded 2 s
  +:+ "." +:+ zero_padded 3 ms.

Lemma digits2_pos_bounds (p : positive) :
  2 ^ (Zpos (digits2_pos p) - 1) <= Zpos p < 2 ^ Zpos (digits2_pos p).
Proof.
  induction p as [p IH|p IH|]; cbn [digits2_pos].
  - rewrite Pos2Z.inj_succ. replace (Z.succ (Zpos (digits2_pos p)) - 1) with (Zpos (digits2_pos p)) by lia.
    rewrite Z.pow_succ_r by lia.
    assert (H : 2 ^ Zpos (digits2_pos p) = 2 * 2 ^ (Zpos (digits2_pos p) - 1)).
    { rewrite <- Z.pow_succ_r by lia. f_equal. lia. }
    lia.
  - rewrite Pos2Z.inj_succ. replace (Z.succ (Zpos (digits2_pos p)) - 1) with (Zpos (digits2_pos p)) by lia.
    rewrite Z.pow_succ_r by lia.
    assert (H : 2 ^ Zpos (digits2_pos p) = 2 * 2 ^ (Zpos (digits2_pos p) - 1)).
    { rewrite <- Z.pow_succ_r by lia. f_equal. lia. }
    lia.
  - simpl. lia.
Qed.

Lemma Zdigits2_bounds (m : Z) :
  0 < m -> 2 ^ (Zdigits2 m - 1) <= m < 2 ^ Zdigits2 m.
Proof. destruct m as [|p|p]; try lia. intros _. apply digits2_pos_bounds. Qed.

Lemma Zdigits2_nonneg (m : Z) : 0 <= Zdigits2 m.
Proof. destruct m; simpl; lia. Qed.

Lemma Zdigits2_le (m k : Z) : 0 <= k -> 0 <= m < 2 ^ k -> Zdigits2 m <= k.
Proof.
  intros Hk [H0 Hm]. destruct (Z.eq_dec m 0) as [->|Hne]; [simpl; lia|].
  destruct (Zdigits2_bounds m ltac:(lia)) as [Hlo _].
  destruct (Z_le_gt_dec (Zdigits2 m) k) as [|Hgt]; [assumption|exfalso].
  assert (2 ^ k <= 2 ^ (Zdigits2 m - 1)) by (apply Z.pow_le_mono_r; lia).
  lia.
Qed.

Lemma shr_1_spec (m : Z) (r s : bool) :
  0 <= m ->
  shr_m (shr_1 (Build_shr_record m r s)) = m / 2
  /\ b2z (shr_r (shr_1 (Build_shr_record m r s))) = m mod 2.
Proof.
  intros Hm. destruct m as [|[p|p|]|p]; try lia; cbn [shr_1 shr_m shr_r b2z].
  - split; reflexivity.
  - rewrite Pos2Z.inj_xI. split.
    + apply (Z.div_unique _ 2 _ 1); lia.
    + apply (Z.mod_unique _ 2 (Zpos p) 1); lia.
  - rewrite Pos2Z.inj_xO. split.
    + apply (Z.div_unique _ 2 _ 0); lia.
    + apply (Z.mod_unique _ 2 (Zpos p) 0); lia.
  - split; reflexivity.
Qed.

Lemma shifted_shr_1 (T k : Z) (mrs : shr_record) :
  0 <= k -> shifted T k mrs -> shifted T (k + 1) (shr_1 mrs).
Proof.
  intros Hk (Hm & Hlo & Hhi). destruct mrs as [m r s]. cbn [shr_m shr_r] in *.
  unfold shifted. destruct (shr_1_spec m r s Hm) as [-> ->].
  pose proof (Z.div_mod m 2 ltac:(lia)) as Hdm.
  pose proof (Z.mod_pos_bound m 2 ltac:(lia)) as Hmod.
  assert (Hp : 2 ^ (k + 1 + 1) = 2 * 2 ^ (k + 1)) by (rewrite <- Z.pow_succ_r by lia; f_equal; lia).
  assert (Hp1 : 2 ^ (k + 1) = 2 * 2 ^ k) by (rewrite <- Z.pow_succ_r by lia; f_equal; lia).
  assert (Hpk : 0 < 2 ^ k) by (apply Z.pow_pos_nonneg; lia).
  assert (Hr : 0 <= b2z r <= 1) by (destruct r; simpl; lia).
  split; [apply Z.div_pos; lia|]. rewrite Hp. split; nia.
Qed.

Lemma shifted_iter (T : Z) (p : positive) :
  forall k mrs, 0 <= k -> shifted T k mrs -> shifted T (k + Zpos p) (SpecFloat.iter_pos shr_1 p mrs).
Proof.
  induction p as [p IH|p IH|]; intros k mrs Hk H; cbn [SpecFloat.iter_pos].
  - replace (k + Zpos p~1) with (k + 1 + Zpos p + Zpos p) by lia.
    apply IH; [lia|]. apply IH; [lia|]. apply shifted_shr_1; assumption.
  - replace (k + Zpos p~0) with (k + Zpos p + Zpos p) by lia.
    apply IH; [lia|]. apply IH; assumption.
  - apply shifted_shr_1; assumption.
Qed.

Lemma round_nearest_even_le (mrs : shr_record) :
  shr_m mrs <= round_nearest_even (shr_m mrs) (loc_of_shr_record mrs)
            <= shr_m mrs + b2z (shr_r mrs).
Proof.
  destruct mrs as [m [|] [|]]; cbn [shr_m shr_r loc_of_shr_record round_nearest_even b2z];
    try destruct (Z.even m); lia.
Qed.

Lemma shr_shifted (T : Z) (mrs : shr_record) (e n : Z) :
  shifted T 0 mrs ->
  snd (shr mrs e n) = e + Z.max n 0
  /\ shifted T (Z.max n 0) (fst (shr mrs e n)).
Proof.
  intros H. destruct n as [|p|p]; cbn [shr fst snd].
  - split; [lia | exact H].
  - split; [lia|]. replace (Z.max (Zpos p) 0) with (0 + Zpos p) by lia.
    apply shifted_iter; [lia | exact H].
  - split; [lia | exact H].
Qed.

Lemma shr_record_of_loc_shifted (m : Z) (l : location) :
  0 <= m ->
  shifted (2 * m + b2z (shr_r (shr_record_of_loc m l))) 0 (shr_record_of_loc m l)
  /\ shr_m (shr_record_of_loc m l) = m.
Proof.
  intros Hm. destruct l as [|[| |]]; cbn [shr_record_of_loc shr_m shr_r b2z];
    (split; [|reflexivity]); unfold shifted; cbn [shr_m shr_r b2z];
    change (2 ^ (0 + 1)) with 2; change (2 ^ 0) with 1; lia.
Qed.

Lemma pow2_pos (k : Z) : 0 <= k -> 0 < 2 ^ k.
Proof. intros. apply Z.pow_pos_nonneg; lia. Qed.

Lemma pow2_add (a b : Z) : 0 <= a -> 0 <= b -> 2 ^ (a + b) = 2 ^ a * 2 ^ b.
Proof. intros. apply Z.pow_add_r; assumption. Qed.

Lemma fexp_eq (e : Z) : fexp 53 1024 e = fexp64 e.
Proof. reflexivity. Qed.

(** The result of a rounding is a zero or a finite number; it exceeds the
    exact value by at most half a unit of the rounding exponent. *)
Lemma binary_round_aux_spec (sx : bool) (m e : Z) (l : location) :
  0 <= m -> e <= 970 -> Zdigits2 m + e <= 1022 ->
  binary_round_aux 53 1024 sx m e l = S754_zero sx
  \/ exists m2 e2,
       binary_round_aux 53 1024 sx m e l = S754_finite sx m2 e2
       /\ e <= e2 <= 970
       /\ Zpos m2 * 2 ^ (e2 - e + 1)
          <= 2 * m + b2z (shr_r (shr_record_of_loc m l))
             + 2 ^ (Z.max e (fexp64 (Zdigits2 m + e)) - e).
Proof.
  intros Hm He Hd. unfold binary_round_aux, shr_fexp. rewrite !fexp_eq.
  destruct (shr_record_of_loc_shifted m l Hm) as [H0 Hm0].
  set (T := 2 * m + b2z (shr_r (shr_record_of_loc m l))) in *.
  set (n1 := fexp64 (Zdigits2 m + e) - e).
  destruct (shr_shifted T (shr_record_of_loc m l) e n1 H0) as [He1 H1].
  destruct (shr (shr_record_of_loc m l) e n1) as [mrs1 e1]. cbn [fst snd] in He1, H1.
  pose proof (round_nearest_even_le mrs1) as Hrne.
  set (m1 := round_nearest_even (shr_m mrs1) (loc_of_shr_record mrs1)) in *.
  destruct H1 as (Hm1 & Hlo1 & Hhi1).
  assert (Hm1' : 0 <= m1) by lia.
  destruct (shr_record_of_loc_shifted m1 loc_Exact Hm1') as [H2 _].
  cbn [shr_record_of_loc shr_r b2z] in H2.
  rewrite ?fexp_eq.
  set (n2 := fexp64 (Zdigits2 m1 + e1) - e1).
  destruct (shr_shifted _ (shr_record_of_loc m1 loc_Exact) e1 n2 H2) as [He2 H3].
  cbn [shr_record_of_loc] in *.
  destruct (shr {| shr_m := m1; shr_r := false; shr_s := false |} e1 n2) as [mrs2 e2].
  cbn [fst snd] in He2, H3. destruct H3 as (Hm2 & Hlo2 & Hhi2).
  set (k1 := Z.max n1 0) in *. set (k2 := Z.max n2 0) in *.
  assert (Hk1 : 0 <= k1) by lia. assert (Hk2 : 0 <= k2) by lia.
  pose proof (pow2_pos k1 Hk1) as Hp1. pose proof (pow2_pos k2 Hk2) as Hp2.
  assert (Hr1 : 0 <= b2z (shr_r mrs1) <= 1) by (destruct (shr_r mrs1); simpl; lia).
  assert (Hr2 : 0 <= b2z (shr_r mrs2) <= 1) by (destruct (shr_r mrs2); simpl; lia).
  assert (Hr0 : 0 <= b2z (shr_r (shr_record_of_loc m l)) <= 1)
    by (destruct (shr_r (shr_record_of_loc m l)); simpl; lia).
  rewrite (pow2_add k1 1) in Hlo1, Hhi1 by lia.
  rewrite (pow2_add k2 1) in Hlo2, Hhi2 by lia.
  change (2 ^ 1) with 2 in *.
  (* digits of the rounded mantissa *)
  assert (Hdig1 : Zdigits2 m1 + e1 <= 1023).
  { pose proof (Zdigits2_nonneg m) as Hdn.
    assert (Hmlt : m < 2 ^ Zdigits2 m).
    { destruct (Z.eq_dec m 0) as [->|]; [simpl; lia|].
      apply Zdigits2_bounds. lia. }
    assert (Hle : Zdigits2 m1 <= Z.max (Zdigits2 m - k1) 0 + 1).
    { apply Zdigits2_le; [lia|]. split; [lia|].
      rewrite pow2_add by lia. change (2 ^ 1) with 2.
      assert (shr_m mrs1 * 2 ^ k1 <= m) by nia.
      destruct (Z_le_gt_dec k1 (Zdigits2 m)) as [Hle|Hgt].
      - replace (Z.max (Zdigits2 m - k1) 0) with (Zdigits2 m - k1) by lia.
        assert (2 ^ Zdigits2 m = 2 ^ (Zdigits2 m - k1) * 2 ^ k1)
          by (rewrite <- pow2_add by lia; f_equal; lia).
        pose proof (pow2_pos (Zdigits2 m - k1) ltac:(lia)).
        assert (shr_m mrs1 < 2 ^ (Zdigits2 m - k1)) by nia.
        lia.
      - replace (Z.max (Zdigits2 m - k1) 0) with 0 by lia. change (2 ^ 0) with 1.
        assert (2 ^ k1 = 2 ^ Zdigits2 m * 2 ^ (k1 - Zdigits2 m))
          by (rewrite <- pow2_add by lia; f_equal; lia).
        pose proof (pow2_pos (k1 - Zdigits2 m) ltac:(lia)).
        pose proof (pow2_pos (Zdigits2 m) ltac:(lia)).
        assert (shr_m mrs1 < 1) by nia.
        lia. }
    unfold k1, n1, fexp64 in *. lia. }
  assert (He2' : e <= e2 <= 970) by (unfold k1, k2, n1, n2, fexp64 in *; lia).
  destruct (shr_m mrs2) as [|p2|p2] eqn:Hm2e; [left; reflexivity | | lia].
  right. exists p2, e2.
  replace (e2 <=? 1024 - 53) with true by (symmetry; apply Z.leb_le; lia).
  split; [reflexivity|]. split; [exact He2'|].
  replace (e2 - e + 1) with (k2 + (k1 + 1)) by lia.
  replace (Z.max e (fexp64 (Zdigits2 m + e)) - e) with k1 by (unfold k1, n1; lia).
  rewrite pow2_add, (pow2_add k1 1) by lia. change (2 ^ 1) with 2.
  assert (Zpos p2 * 2 ^ k2 <= m1) by nia.
  assert (m1 * (2 ^ k1 * 2) <= T + 2 ^ k1) by nia.
  nia.
Qed.

(** binary64 numbers *)
Lemma valid_finite (s : bool) (m : positive) (e : Z) :
  valid_binary 53 1024 (S754_finite s m e) = true ->
  Zpos m < 2 ^ 53 /\ -1074 <= e <= 971 /\ Zdigits2 (Zpos m) + e <= 1024.
Proof.
  cbn [valid_binary]. unfold bounded, canonical_mantissa. rewrite fexp_eq.
  intros H. apply andb_true_iff in H as [Hc He].
  apply Z.eqb_eq in Hc. apply Z.leb_le in He.
  change (Zpos (digits2_pos m)) with (Zdigits2 (Zpos m)) in Hc.
  pose proof (Zdigits2_bounds (Zpos m) ltac:(lia)) as [_ Hhi].
  unfold fexp64 in Hc.
  assert (Hd : Zdigits2 (Zpos m) <= 53) by lia.
  split; [|lia].
  apply Z.lt_le_trans with (1 := Hhi). apply Z.pow_le_mono_r; lia.
Qed.

Lemma iter_xO (p : positive) (d : positive) :
  Zpos (Pos.iter xO p d) = Zpos p * 2 ^ Zpos d.
Proof.
  revert p. induction d as [|d IH] using Pos.peano_ind; intros p.
  - simpl. lia.
  - rewrite Pos.iter_succ, Pos2Z.inj_xO, IH, Pos2Z.inj_succ, Z.pow_succ_r by lia. lia.
Qed.

Lemma shl_align_spec (m : positive) (e e' : Z) :
  snd (shl_align m e e') = Z.min e e'
  /\ Zpos (fst (shl_align m e e')) = Zpos m * 2 ^ (e - Z.min e e').
Proof.
  unfold shl_align. destruct (e' - e) as [|d|d] eqn:Hd; cbn [fst snd].
  - replace (Z.min e e') with e by lia. rewrite Z.sub_diag. simpl. lia.
  - replace (Z.min e e') with e by lia. rewrite Z.sub_diag. simpl. lia.
  - replace (Z.min e e') with e' by lia. rewrite iter_xO.
    replace (e - e') with (Zpos d) by lia. split; reflexivity.
Qed.

Lemma binary_normalize_below (k R e : Z) :
  0 < R -> R < 2 ^ 53 -> -1074 <= e <= 0 -> R < k * 2 ^ (- e) ->
  below k (binary_normalize 53 1024 R e false).
Proof.
  intros HR H53 He Hk. destruct R as [|R|R]; try lia.
  cbn [binary_normalize]. unfold binary_round. rewrite fexp_eq.
  change (Zpos (digits2_pos R)) with (Zdigits2 (Zpos R)).
  destruct (shl_align_spec R e (fexp64 (Zdigits2 (Zpos R) + e))) as [Hez Hmz].
  destruct (shl_align R e (fexp64 (Zdigits2 (Zpos R) + e))) as [mz ez].
  cbn [fst snd] in Hez, Hmz. rewrite <- Hez in Hmz.
  assert (HdR : Zdigits2 (Zpos R) <= 53) by (apply Zdigits2_le; lia).
  pose proof (Zdigits2_nonneg (Zpos R)) as HdR0.
  assert (Hez' : ez = fexp64 (Zdigits2 (Zpos R) + e)) by (unfold fexp64 in *; lia).
  assert (Hk0 : 0 <= e - ez) by lia.
  pose proof (pow2_pos (e - ez) Hk0) as Hpk.
  assert (Hdz : Zdigits2 (Zpos mz) <= Zdigits2 (Zpos R) + (e - ez)).
  { apply Zdigits2_le; [lia|]. split; [lia|]. rewrite Hmz, pow2_add by lia.
    destruct (Zdigits2_bounds (Zpos R) ltac:(lia)) as [_ Hhi]. nia. }
  destruct (binary_round_aux_spec false (Zpos mz) ez loc_Exact) as [Hz | (m2 & e2 & Heq & He2 & Hb)];
    try lia.
  - left. exact Hz.
  - right. exists m2, e2, ez. split; [exact Heq|].
    cbn [shr_record_of_loc shr_r b2z] in Hb.
    replace (Z.max ez (fexp64 (Zdigits2 (Zpos mz) + ez)) - ez) with 0 in Hb
      by (unfold fexp64 in *; lia).
    change (2 ^ 0) with 1 in Hb.
    assert (Hp2 : 0 < 2 ^ (e2 - ez)) by (apply pow2_pos; lia).
    rewrite (pow2_add (e2 - ez) 1) in Hb by lia. change (2 ^ 1) with 2 in Hb.
    assert (Hle : Zpos m2 * 2 ^ (e2 - ez) <= Zpos mz) by lia.
    assert (Hpe : 2 ^ (- ez) = 2 ^ (- e) * 2 ^ (e - ez))
      by (rewrite <- pow2_add by lia; f_equal; lia).
    pose proof (pow2_pos (- e) ltac:(lia)) as Hpne.
    split; [unfold fexp64 in *; lia|]. split; [lia|]. split; [lia|].
    split; [rewrite Hpe; nia|].
    assert (Zpos mz < 2 ^ 53).
    { rewrite Hez' in Hdz.
      destruct (Zdigits2_bounds (Zpos mz) ltac:(lia)) as [_ Hhi].
      apply Z.lt_le_trans with (1 := Hhi). apply Z.pow_le_mono_r; [lia|].
      unfold fexp64 in *. lia. }
    nia.
Qed.

Lemma fmod_below (k : Z) (mx my : positive) (ex ey : Z) :
  valid_binary 53 1024 (S754_finite false mx ex) = true ->
  0 < k -> -1074 <= ey <= 0 -> Zpos my = k * 2 ^ (- ey) -> Zpos my < 2 ^ 53 ->
  below k (fmod (S754_finite false mx ex) (S754_finite false my ey)).
Proof.
  intros Hv Hk Hey Hmy Hmy53.
  cbn [fmod]. destruct (valid_finite false mx ex Hv) as (Hmx & Hex & _).
  set (e := Z.min ex ey).
  set (X := Zpos mx * 2 ^ (ex - e)). set (Y := Zpos my * 2 ^ (ey - e)).
  assert (HY : Y = k * 2 ^ (- e)).
  { unfold Y. rewrite Hmy, <- Z.mul_assoc, <- pow2_add by lia. do 2 f_equal. lia. }
  assert (HYpos : 0 < Y) by (unfold Y; pose proof (pow2_pos (ey - e) ltac:(lia)); nia).
  assert (HXpos : 0 <= X) by (unfold X; pose proof (pow2_pos (ex - e) ltac:(lia)); nia).
  pose proof (Z.mod_pos_bound X Y HYpos) as HR.
  pose proof (Z.mod_le X Y HXpos HYpos) as HRX.
  cbn [cond_Zopp].
  destruct (Z.eq_dec (X mod Y) 0) as [Hz|Hnz].
  - rewrite Hz. left. reflexivity.
  - apply binary_normalize_below; try lia.
    destruct (Z_le_gt_dec ex ey).
    + assert (X = Zpos mx) by (unfold X; replace (ex - e) with 0 by lia; simpl; lia). lia.
    + assert (Y = Zpos my) by (unfold Y; replace (ey - e) with 0 by lia; simpl; lia). lia.
Qed.

Lemma float_rem_below (n : float) (k : Z) (my : positive) (ey : Z) :
  valid_binary 53 1024 n = true -> nonneg n ->
  0 < k -> -1074 <= ey <= 0 -> Zpos my = k * 2 ^ (- ey) -> Zpos my < 2 ^ 53 ->
  below k (float_rem n (S754_finite false my ey)).
Proof.
  intros Hv Hn Hk Hey Hmy Hmy53.
  destruct n as [s|s| |[|] mx ex]; try contradiction.
  - left. reflexivity.
  - pose proof (fmod_below k mx my ex ey Hv Hk Hey Hmy Hmy53) as Hb.
    unfold float_rem.
    destruct Hb as [-> | (m & e & e0 & -> & H)].
    + left. reflexivity.
    + right. exists m, e, e0. split; [reflexivity | exact H].
Qed.

Lemma int_of_below (k : Z) (x : float) :
  0 < k -> below k x -> exists z, int_of_float x = Some z /\ 0 <= z < k.
Proof.
  intros Hk [-> | (m & e & e0 & -> & He0 & He0' & He & Hlt & _)].
  - exists 0. split; [reflexivity | lia].
  - cbn [int_of_float cond_Zopp].
    pose proof (pow2_pos (- e0) ltac:(lia)) as Hp0.
    destruct (Z.leb_spec 0 e) as [Hpos|Hneg].
    + exists (Zpos m * 2 ^ e). split; [reflexivity|].
      pose proof (pow2_pos e Hpos) as Hpe.
      split; [nia|].
      assert (2 ^ (e - e0) = 2 ^ e * 2 ^ (- e0)) by (rewrite <- pow2_add by lia; f_equal; lia).
      nia.
    + exists (Zpos m / 2 ^ (- e)). split; [reflexivity|].
      pose proof (pow2_pos (- e) ltac:(lia)) as Hpe.
      split; [apply Z.div_pos; lia|].
      apply Z.div_lt_upper_bound; [lia|].
      assert (2 ^ (- e0) = 2 ^ (- e) * 2 ^ (e - e0)) by (rewrite <- pow2_add by lia; f_equal; lia).
      pose proof (pow2_pos (e - e0) ltac:(lia)) as Hpd.
      nia.
Qed.

Lemma float_of_int_literals :
  float_of_int 1 = S754_finite false 4503599627370496 (-52)
  /\ float_of_int 60 = S754_finite false 8444249301319680 (-47)
  /\ float_of_int 1000 = S754_finite false 8796093022208000 (-43)
  /\ float_of_int 3600 = S754_finite false 7916483719987200 (-41).
Proof. repeat split; reflexivity. Qed.

(** The milliseconds: the product of a fraction below 1 and 1000, truncated. *)
Lemma milliseconds_range (x : float) :
  below 1 x ->
  exists ms, int_of_float (float_mul x (float_of_int 1000)) = Some ms /\ 0 <= ms <= 999.
Proof.
  destruct float_of_int_literals as (_ & _ & -> & _).
  intros [-> | (m & e & e0 & -> & He0 & He0' & He & Hlt & H53)].
  - exists 0. split; [reflexivity | lia].
  - unfold float_mul, prec, emax. cbn [SFmul xorb].
    set (M := 8796093022208000%positive).
    assert (HM : Zpos M = 1000 * 2 ^ 43) by reflexivity.
    (* the fraction is below 1: e < 0 and m < 2^(-e) *)
    pose proof (pow2_pos (e - e0) ltac:(lia)) as Hpd.
    pose proof (pow2_pos (- e0) ltac:(lia)) as Hp0.
    assert (Hneg : e < 0).
    { destruct (Z_lt_ge_dec e 0); [assumption|exfalso].
      assert (2 ^ (- e0) <= 2 ^ (e - e0)) by (apply Z.pow_le_mono_r; lia). nia. }
    assert (Hm : Zpos m < 2 ^ (- e)).
    { assert (2 ^ (- e0) = 2 ^ (- e) * 2 ^ (e - e0))
        by (rewrite <- pow2_add by lia; f_equal; lia).
      pose proof (pow2_pos (- e) ltac:(lia)). nia. }
    assert (Hdig : Zdigits2 (Zpos (m * M)) <= 106).
    { apply Zdigits2_le; [lia|]. rewrite Pos2Z.inj_mul, HM.
      change (2 ^ 106) with (2 ^ 53 * 2 ^ 53). change (2 ^ 43) with 8796093022208.
      change (2 ^ 53) with 9007199254740992 in *. nia. }
    pose proof (Zdigits2_nonneg (Zpos (m * M))) as Hdig0.
    destruct (binary_round_aux_spec false (Zpos (m * M)) (e + -43) loc_Exact)
      as [Hz | (m2 & e2 & Heq & He2 & Hb)]; try lia.
    + rewrite Hz. exists 0. split; [reflexivity | lia].
    + rewrite Heq. cbn [shr_record_of_loc shr_r b2z] in Hb.
      set (E := e + -43) in *.
      assert (Hshift : Z.max E (fexp64 (Zdigits2 (Zpos (m * M)) + E)) - E <= 53)
        by (unfold fexp64, E; lia).
      assert (Hshift0 : 0 <= Z.max E (fexp64 (Zdigits2 (Zpos (m * M)) + E)) - E) by lia.
      assert (Hpow : 2 ^ (Z.max E (fexp64 (Zdigits2 (Zpos (m * M)) + E)) - E) <= 2 ^ 53)
        by (apply Z.pow_le_mono_r; lia).
      set (half := 2 ^ (Z.max E (fexp64 (Zdigits2 (Zpos (m * M)) + E)) - E)) in *.
      clearbody half.
      rewrite Pos2Z.inj_mul, HM in Hb.
      (* the value is below 1000 *)
      assert (Hval : Zpos m2 * 2 ^ (e2 - E + 1) < 1000 * 2 ^ (44 - e)).
      { assert (Hp44 : 2 ^ (44 - e) = 2 ^ 44 * 2 ^ (- e))
          by (rewrite <- pow2_add by lia; f_equal; lia).
        change (2 ^ 53) with 9007199254740992 in *.
        change (2 ^ 43) with 8796093022208 in *.
        rewrite Hp44.
        change (2 ^ 44) with 17592186044416 in *.
        pose proof (pow2_pos (- e) ltac:(lia)). lia. }
      cbn [int_of_float cond_Zopp].
      assert (Hpe : 0 < 2 ^ (44 - e)) by (apply pow2_pos; lia).
      destruct (Z.leb_spec 0 e2) as [Hpos|Hneg2].
      * exists (Zpos m2 * 2 ^ e2). split; [reflexivity|].
        pose proof (pow2_pos e2 Hpos) as Hpe2.
        assert (2 ^ (e2 - E + 1) = 2 ^ e2 * 2 ^ (44 - e))
          by (rewrite <- pow2_add by lia; f_equal; unfold E; lia).
        nia.
      * exists (Zpos m2 / 2 ^ (- e2)). split; [reflexivity|].
        pose proof (pow2_pos (- e2) ltac:(lia)) as Hpe2.
        split; [apply Z.div_pos; lia|].
        assert (Zpos m2 / 2 ^ (- e2) < 1000); [|lia].
        apply Z.div_lt_upper_bound; [lia|].
        assert (2 ^ (44 - e) = 2 ^ (- e2) * 2 ^ (e2 - E + 1))
          by (rewrite <- pow2_add by (unfold E; lia); f_equal; unfold E; lia).
        pose proof (pow2_pos (e2 - E + 1) ltac:(unfold E; lia)).
        nia.
Qed.

(** A quotient by a number of at least 32 does not overflow. *)
Lemma float_div_finite (n : float) (my : positive) (ey : Z) :
  valid_binary 53 1024 n = true -> nonneg n ->
  Zdigits2 (Zpos my) = 53 -> -47 <= ey <= 0 ->
  exists z, int_of_float (float_div n (S754_finite false my ey)) = Some z.
Proof.
  intros Hv Hn Hd2 Hey.
  destruct n as [s|s| |[|] mx ex]; try contradiction.
  - exists 0. reflexivity.
  - destruct (valid_finite false mx ex Hv) as (Hmx & Hex & Hde).
    unfold float_div, prec, emax. cbn [SFdiv xorb]. unfold SFdiv_core_binary.
    rewrite Hd2, fexp_eq.
    set (d1 := Zdigits2 (Zpos mx)) in *.
    set (e' := Z.min (fexp64 (d1 + ex - (53 + ey))) (ex - ey)).
    set (s := ex - ey - e').
    assert (Hd1 : 0 <= d1) by apply Zdigits2_nonneg.
    assert (Hs : 0 <= s) by (unfold s, e'; lia).
    assert (He' : e' <= 965) by (unfold e', fexp64; lia).
    set (m' := match s with Z0 => Zpos mx | Zpos _ => Z.shiftl (Zpos mx) s | Zneg _ => 0 end).
    assert (Hm' : m' = Zpos mx * 2 ^ s).
    { unfold m'. destruct s as [|p|p] eqn:Hsp; [simpl; lia | | lia].
      apply Z.shiftl_mul_pow2. lia. }
    pose proof (Z_div_mod m' (Zpos my) ltac:(lia)) as Hdm.
    destruct (Z.div_eucl m' (Zpos my)) as [q r]. destruct Hdm as [Hq Hr].
    destruct (Zdigits2_bounds (Zpos my) ltac:(lia)) as [Hmy _].
    rewrite Hd2 in Hmy. change (2 ^ (53 - 1)) with 4503599627370496 in Hmy.
    destruct (Zdigits2_bounds (Zpos mx) ltac:(lia)) as [_ Hmxd]. fold d1 in Hmxd.
    pose proof (pow2_pos s Hs) as Hps.
    assert (Hq0 : 0 <= q) by nia.
    assert (Hqd : Zdigits2 q + e' <= 1022).
    { destruct (Z_lt_ge_dec (d1 + s) 52) as [Hsmall|Hbig].
      - assert (Hlt : 2 ^ (d1 + s) < 2 ^ 52) by (apply Z.pow_lt_mono_r; lia).
        rewrite pow2_add in Hlt by lia. change (2 ^ 52) with 4503599627370496 in Hlt.
        assert (q = 0) by nia. subst q. simpl. lia.
      - assert (Zdigits2 q <= d1 + s - 52); [|unfold s in *; lia].
        apply Zdigits2_le; [lia|]. split; [lia|].
        assert (Hsplit : 2 ^ (d1 + s) = 2 ^ (d1 + s - 52) * 4503599627370496).
        { change 4503599627370496 with (2 ^ 52). rewrite <- pow2_add by lia. f_equal. lia. }
        rewrite pow2_add in Hsplit by lia.
        pose proof (pow2_pos (d1 + s - 52) ltac:(lia)). nia. }
    destruct (binary_round_aux_spec false q e' (new_location (Zpos my) r))
      as [Hz | (m2 & e2 & Heq & _)]; try lia.
    + rewrite Hz. exists 0. reflexivity.
    + rewrite Heq. eexists. reflexivity.
Qed.

Lemma at_least_60_not_below_1 (n : float) :
  SFleb (float_of_int 60) n = true -> SFltb n (float_of_int 1) = false.
Proof.
  destruct float_of_int_literals as (-> & -> & _).
  destruct n as [s|[|]| |[|] m e]; try discriminate; try reflexivity.
  unfold SFleb, SFltb. cbn [SFcompare].
  destruct (Z.compare_spec (-47) e); destruct (Z.compare_spec e (-52)); try lia;
    try reflexivity; discriminate.
Qed.

Lemma all_below_spec (k : nat) (P : Z -> bool) :
  all_below k P = true -> forall z, 0 <= z < Z.of_nat k -> P z = true.
Proof.
  unfold all_below. rewrite forallb_forall. intros H z Hz.
  rewrite <- (Z2Nat.id z) by lia. apply H. apply in_seq. lia.
Qed.

Lemma format_0_right_3 (z : Z) :
  0 <= z <= 999 -> format_0_right 3 z = zero_padded 3 z.
Proof.
  intros Hz. apply String.eqb_eq.
  apply (all_below_spec 1000 (fun z => String.eqb (format_0_right 3 z) (zero_padded 3 z)));
    [vm_compute; reflexivity | lia].
Qed.

Lemma format_0_right_2 (z : Z) :
  0 <= z < 60 -> format_0_right 2 z = zero_padded 2 z.
Proof.
  intros Hz. apply String.eqb_eq.
  apply (all_below_spec 60 (fun z => String.eqb (format_0_right 2 z) (zero_padded 2 z)));
    [vm_compute; reflexivity | lia].
Qed.

Lemma str_of_int_unpadded (z : Z) :
  0 <= z < 3600 -> str_of_int z = unpadded z.
Proof.
  intros Hz. apply String.eqb_eq.
  apply (all_below_spec 3600 (fun z => String.eqb (str_of_int z) (unpadded z)));
    [vm_compute; reflexivity | lia].
Qed.

Lemma milliseconds_of_elapsed (n : float) :
  elapsed_value n ->
  exists ms,
    int_of_float (float_mul (float_rem n (float_of_int 1)) (float_of_int 1000)) = Some ms
    /\ 0 <= ms <= 999.
Proof.
  intros [Hv Hn]. apply milliseconds_range.
  destruct float_of_int_literals as (-> & _).
  apply float_rem_below; try assumption; try lia; reflexivity.
Qed.

Lemma format_below_one_second (n : float) :
  elapsed_value n -> SFltb n (float_of_int 1) = true ->
  exists ms, 0 <= ms <= 999 /\ _format_float_seconds n = Some (sub_second_form ms).
Proof.
  intros Hn Hlt. destruct (milliseconds_of_elapsed n Hn) as (ms & Hms & Hr).
  exists ms. split; [exact Hr|].
  unfold _format_float_seconds. rewrite Hms, Hlt, format_0_right_3 by exact Hr.
  reflexivity.
Qed.

Lemma format_from_one_second (n : float) :
  elapsed_value n -> SFltb n (float_of_int 1) = false ->
  exists h m s ms,
    0 <= h < 3600 /\ 0 <= m < 60 /\ 0 <= s < 60 /\ 0 <= ms <= 999
    /\ _format_float_seconds n = Some (long_form h m s ms).
Proof.
  intros Hn Hge. destruct (milliseconds_of_elapsed n Hn) as (ms & Hms & Hr).
  destruct Hn as [Hv Hn].
  assert (Hs : exists s, int_of_float (float_rem n (float_of_int 60)) = Some s /\ 0 <= s < 60).
  { apply int_of_below; [lia|].
    destruct float_of_int_literals as (_ & -> & _).
    apply float_rem_below; try assumption; try lia; reflexivity. }
  destruct Hs as (s & Hs & Hsr).
  assert (Hm : exists z, int_of_float (float_div n (float_of_int 60)) = Some z).
  { destruct float_of_int_literals as (_ & -> & _).
    apply float_div_finite; try assumption; [reflexivity | lia]. }
  destruct Hm as (mt & Hm).
  assert (Hh : exists z, int_of_float (float_div n (float_of_int 3600)) = Some z).
  { destruct float_of_int_literals as (_ & _ & _ & ->).
    apply float_div_finite; try assumption; [reflexivity | lia]. }
  destruct Hh as (ht & Hh).
  exists (ht mod 3600), (mt mod 60), s, ms.
  pose proof (Z.mod_pos_bound ht 3600 ltac:(lia)) as Hhr.
  pose proof (Z.mod_pos_bound mt 60 ltac:(lia)) as Hmr.
  repeat (split; [lia|]).
  unfold _format_float_seconds. rewrite Hms, Hge, Hs, Hm, Hh.
  cbv zeta.
  rewrite format_0_right_3, !format_0_right_2, str_of_int_unpadded by lia.
  reflexivity.
Qed.

(** *** The seconds *)

(** [int(x)] of the number [R * 2^e]. *)
Definition floor_scaled (R e : Z) : Z :=
  if 0 <=? e then R * 2 ^ e else R / 2 ^ (- e).

Lemma shr_nonpos (mrs : shr_record) (e n : Z) : n <= 0 -> shr mrs e n = (mrs, e).
Proof. destruct n as [|p|p]; [reflexivity | lia | reflexivity]. Qed.

(** A mantissa at its own exponent is not rounded. *)
Lemma binary_round_aux_exact (sx : bool) (m : positive) (e : Z) :
  fexp64 (Zdigits2 (Zpos m) + e) <= e -> e <= 971 ->
  binary_round_aux 53 1024 sx (Zpos m) e loc_Exact = S754_finite sx m e.
Proof.
  intros Hf He. unfold binary_round_aux, shr_fexp. rewrite !fexp_eq.
  rewrite shr_nonpos by lia.
  cbn [shr_record_of_loc shr_m loc_of_shr_record round_nearest_even].
  rewrite fexp_eq, shr_nonpos by lia. cbn [shr_m].
  replace (e <=? 1024 - 53) with true by (symmetry; apply Z.leb_le; lia).
  reflexivity.
Qed.

Lemma fexp64_mono (a b : Z) : a <= b -> fexp64 a <= fexp64 b.
Proof. unfold fexp64. lia. Qed.

(** A number of at most 53 bits is kept as it is. *)
Lemma binary_normalize_exact (R : positive) (e : Z) :
  Zpos R < 2 ^ 53 -> -1074 <= e <= 0 ->
  exists mz ez,
    binary_normalize 53 1024 (Zpos R) e false = S754_finite false mz ez
    /\ ez <= e /\ Zpos mz = Zpos R * 2 ^ (e - ez).
Proof.
  intros H53 He. cbn [binary_normalize]. unfold binary_round. rewrite fexp_eq.
  change (Zpos (digits2_pos R)) with (Zdigits2 (Zpos R)).
  destruct (shl_align_spec R e (fexp64 (Zdigits2 (Zpos R) + e))) as [Hez Hmz].
  destruct (shl_align R e (fexp64 (Zdigits2 (Zpos R) + e))) as [mz ez].
  cbn [fst snd] in Hez, Hmz. rewrite <- Hez in Hmz.
  assert (HdR : Zdigits2 (Zpos R) <= 53) by (apply Zdigits2_le; lia).
  pose proof (Zdigits2_nonneg (Zpos R)) as HdR0.
  assert (Hez' : ez = fexp64 (Zdigits2 (Zpos R) + e)) by (unfold fexp64 in *; lia).
  assert (Hk0 : 0 <= e - ez) by lia.
  pose proof (pow2_pos (e - ez) Hk0) as Hpk.
  assert (Hdz : Zdigits2 (Zpos mz) <= Zdigits2 (Zpos R) + (e - ez)).
  { apply Zdigits2_le; [lia|]. split; [lia|]. rewrite Hmz, pow2_add by lia.
    destruct (Zdigits2_bounds (Zpos R) ltac:(lia)) as [_ Hhi]. nia. }
  exists mz, ez. split; [|split; [lia | exact Hmz]].
  apply binary_round_aux_exact; [|lia].
  rewrite Hez' at 2. apply fexp64_mono. lia.
Qed.

Lemma int_of_scaled (mz : positive) (ez e R : Z) :
  ez <= e -> 0 <= R -> Zpos mz = R * 2 ^ (e - ez) ->
  int_of_float (S754_finite false mz ez) = Some (floor_scaled R e).
Proof.
  intros Hez HR Hmz. cbn [int_of_float cond_Zopp]. unfold floor_scaled. f_equal.
  pose proof (pow2_pos (e - ez) ltac:(lia)) as Hp.
  destruct (Z.leb_spec 0 ez) as [H0|H0].
  - destruct (Z.leb_spec 0 e); [|lia].
    rewrite Hmz, <- Z.mul_assoc, <- pow2_add by lia. do 2 f_equal. lia.
  - pose proof (pow2_pos (- ez) ltac:(lia)) as Hpz.
    destruct (Z.leb_spec 0 e) as [He|He].
    + rewrite Hmz. replace (e - ez) with (e + - ez) by lia.
      rewrite pow2_add, Z.mul_assoc by lia. apply Z.div_mul. lia.
    + rewrite Hmz. replace (- ez) with ((e - ez) + - e) by lia.
      rewrite pow2_add by lia.
      pose proof (pow2_pos (- e) ltac:(lia)).
      rewrite (Z.mul_comm R), Z.div_mul_cancel_l by lia. reflexivity.
Qed.

(** [int(n % 60)] is [int(n) % 60]. *)
Lemma seconds_of_elapsed (n : float) :
  elapsed_value n ->
  exists z,
    int_of_float n = Some z /\ 0 <= z
    /\ int_of_float (float_rem n (float_of_int 60)) = Some (z mod 60).
Proof.
  intros [Hv Hn]. destruct float_of_int_literals as (_ & -> & _).
  destruct n as [s|s| |[|] mx ex]; try contradiction.
  - exists 0. repeat split; try reflexivity; lia.
  - destruct (valid_finite false mx ex Hv) as (Hmx & Hex & _).
    exists (floor_scaled (Zpos mx) ex). split; [reflexivity|].
    assert (Hz0 : 0 <= floor_scaled (Zpos mx) ex).
    { unfold floor_scaled. destruct (Z.leb_spec 0 ex).
      - pose proof (pow2_pos ex ltac:(lia)). nia.
      - apply Z.div_pos; [lia | apply pow2_pos; lia]. }
    split; [exact Hz0|].
    unfold float_rem. cbn [fmod].
    set (e := Z.min ex (-47)).
    set (X := Zpos mx * 2 ^ (ex - e)).
    set (Y := 8444249301319680 * 2 ^ (-47 - e)).
    set (P := 2 ^ (- e)).
    assert (HP : 0 < P) by (apply pow2_pos; unfold e; lia).
    assert (HY : Y = P * 60).
    { unfold Y, P. change 8444249301319680 with (60 * 2 ^ 47).
      replace (- e) with (47 + (-47 - e)) by lia.
      rewrite pow2_add by (unfold e; lia). ring. }
    assert (HX0 : 0 <= X).
    { unfold X. pose proof (pow2_pos (ex - e) ltac:(unfold e; lia)). nia. }
    assert (HXP : X / P = floor_scaled (Zpos mx) ex).
    { unfold X, P, floor_scaled. destruct (Z.leb_spec 0 ex) as [H0|H0].
      - replace (ex - e) with (ex + - e) by lia.
        rewrite pow2_add, Z.mul_assoc by (unfold e; lia). apply Z.div_mul. lia.
      - replace (- e) with ((ex - e) + - ex) by lia.
        rewrite pow2_add by (unfold e; lia).
        pose proof (pow2_pos (ex - e) ltac:(unfold e; lia)).
        pose proof (pow2_pos (- ex) ltac:(lia)).
        rewrite (Z.mul_comm (Zpos mx)). apply Z.div_mul_cancel_l; lia. }
    assert (HR : (X mod Y) / P = floor_scaled (Zpos mx) ex mod 60).
    { rewrite HY, Z.rem_mul_r by lia. rewrite <- HXP.
      rewrite Z.mul_comm, Z.div_add by lia.
      rewrite Z.div_small by (apply Z.mod_pos_bound; lia). reflexivity. }
    assert (HYpos : 0 < Y) by lia.
    pose proof (Z.mod_pos_bound X Y HYpos) as HRb.
    cbn [cond_Zopp].
    destruct (Z.eq_dec (X mod Y) 0) as [Hzero|Hnz].
    + rewrite Hzero in *. cbn. rewrite <- HR. rewrite Z.div_0_l by lia. reflexivity.
    + destruct (X mod Y) as [|R|R] eqn:HRe; try lia.
      assert (HR53 : Zpos R < 2 ^ 53).
      { destruct (Z_le_gt_dec ex (-47)).
        - assert (X = Zpos mx)
            by (unfold X; replace (ex - e) with 0 by (unfold e; lia); simpl; lia).
          pose proof (Z.mod_le X Y HX0 HYpos). lia.
        - assert (Y = 8444249301319680)
            by (unfold Y; replace (-47 - e) with 0 by (unfold e; lia); simpl; lia).
          change (2 ^ 53) with 9007199254740992. lia. }
      destruct (binary_normalize_exact R e HR53 ltac:(unfold e; lia))
        as (mz & ez & Heq & Hez & Hmz).
      unfold prec, emax. rewrite Heq. unfold SFltb.
      cbn [float_nonzero SFcompare xorb].
      rewrite (int_of_scaled mz ez e (Zpos R) Hez ltac:(lia) Hmz).
      unfold floor_scaled. destruct (Z.leb_spec 0 e); [unfold e in *; lia|].
      fold P. rewrite HR. reflexivity.
Qed.

(** A number with an exponent above the smallest one has a mantissa of 53
    bits. *)
Lemma valid_normal (s : bool) (m : positive) (e : Z) :
  valid_binary 53 1024 (S754_finite s m e) = true -> -1074 < e -> 2 ^ 52 <= Zpos m.
Proof.
  cbn [valid_binary]. unfold bounded, canonical_mantissa. rewrite fexp_eq.
  intros H He. apply andb_true_iff in H as [Hc _]. apply Z.eqb_eq in Hc.
  change (Zpos (digits2_pos m)) with (Zdigits2 (Zpos m)) in Hc.
  destruct (Zdigits2_bounds (Zpos m) ltac:(lia)) as [Hlo _].
  unfold fexp64 in Hc.
  assert (Hd : Zdigits2 (Zpos m) = 53) by lia.
  rewrite Hd in Hlo. exact Hlo.
Qed.

(** Below one second there are no whole seconds. *)
Lemma whole_seconds_below_one (n : float) :
  elapsed_value n -> SFltb n (float_of_int 1) = true -> int_of_float n = Some 0.
Proof.
  intros [Hv Hn]. destruct float_of_int_literals as (-> & _).
  destruct n as [s|s| |[|] m e]; try contradiction; [reflexivity|].
  destruct (valid_finite false m e Hv) as (Hm & He & _).
  unfold SFltb. cbn [SFcompare]. intros Hlt.
  cbn [int_of_float cond_Zopp]. f_equal.
  destruct (Z.compare_spec e (-52)) as [->|Hlow|Hhigh]; try discriminate.
  - pose proof (Pos.compare_spec m 4503599627370496) as Hs.
    unfold Pos.compare in Hs. revert Hlt.
    destruct Hs as [|Hlt'|]; try discriminate. intros _.
    change (Zpos m / 2 ^ 52 = 0). apply Z.div_small.
    change (2 ^ 52) with 4503599627370496.
    apply Pos2Z.pos_lt_pos in Hlt'. clear - Hlt'. lia.
  - destruct (Z.leb_spec 0 e); [lia|]. apply Z.div_small. split; [lia|].
    apply Z.lt_le_trans with (1 := Hm). apply Z.pow_le_mono_r; lia.
Qed.

(** From one minute on there are at least 60 whole seconds. *)
Lemma whole_seconds_from_60 (n : float) (z : Z) :
  elapsed_value n -> SFleb (float_of_int 60) n = true -> int_of_float n = Some z ->
  60 <= z.
Proof.
  intros [Hv Hn]. destruct float_of_int_literals as (_ & -> & _).
  destruct n as [s|s| |[|] m e]; try contradiction; [discriminate|].
  destruct (valid_finite false m e Hv) as (Hm & He & _).
  unfold SFleb. cbn [SFcompare]. intros Hle Hz.
  cbn [int_of_float cond_Zopp] in Hz. injection Hz as <-.
  destruct (Z.compare_spec (-47) e) as [<-|Hhigh|Hlow]; try discriminate.
  - pose proof (Pos.compare_spec 8444249301319680 m) as Hs.
    unfold Pos.compare in Hs. revert Hle.
    destruct Hs as [Heq|Hlt|]; try discriminate; intros _.
    + subst m. vm_compute. discriminate.
    + change (60 <= Zpos m / 2 ^ 47). apply Z.div_le_lower_bound; [reflexivity|].
      change (2 ^ 47) with 140737488355328.
      apply Pos2Z.pos_lt_pos in Hlt. clear - Hlt. lia.
  - pose proof (valid_normal false m e Hv ltac:(lia)) as Hm52.
    change (2 ^ 52) with 4503599627370496 in Hm52.
    destruct (Z.leb_spec 0 e) as [Hpos|Hneg].
    + pose proof (pow2_pos e Hpos) as Hp. clear - Hp Hm52. nia.
    + apply Z.div_le_lower_bound; [apply pow2_pos; lia|].
      assert (Hp : 2 ^ (- e) <= 2 ^ 46) by (apply Z.pow_le_mono_r; lia).
      change (2 ^ 46) with 70368744177664 in Hp. clear - Hp Hm52. lia.
Qed.

(** The literals of the examples: [f_0_003] is within half a unit in the last
    place of [3/1000], [f_65_5] is [131/2] and [f_3725_125] is [29801/8]. *)
Lemma example_literals :
  (Z.abs (1000 * 6917529027641082 - 3 * 2 ^ 61) <= 500
   /\ 2 * 4609152743636992 = 131 * 2 ^ 46
   /\ 8 * 8191636504838144 = 29801 * 2 ^ 41)
  /\ elapsed_value f_0_003 /\ elapsed_value f_65_5 /\ elapsed_value f_3725_125.
Proof.
  split; [vm_compute; repeat split; discriminate|].
  repeat split; reflexivity.
Qed.

(** Below zero the three digits are not kept: the remainder of the smallest
    negative number rounds to [1.0]. *)
Lemma negative_remainder_rounds_up :
  _format_float_seconds (S754_finite true 1 (-1074)) = Some ".1000".
Proof. vm_compute. reflexivity. Qed.

(** C9: [_format_float_seconds] renders an elapsed time [n] (a finite binary64
    number that is not negative) from four numbers, none of whose conversions
    raises: the whole seconds [z = int(n)], the milliseconds
    [ms = int((n % 1) * 1000)], which lie between 0 and 999, and the quotients
    [int(n / 60)] and [int(n / 3600)], with [%], [*] and [/] of binary64.
    When [n < 1] there are no whole seconds and the text is [.mmm], a dot and
    the three decimal digits of [ms]; when [60 <= n] the text is
    [H:MM:SS.mmm]: the hours [int(n / 3600) mod 3600] without padding, two
    digits of the minutes [int(n / 60) mod 60], two digits of the seconds
    [z mod 60] and the three digits of [ms].  [0.003] renders as [.003],
    [65.5] as [0:01:05.500] and [3725.125] as [1:02:05.125]. *)
Theorem format_float_seconds_rendering (n : float) :
  elapsed_value n ->
  exists z ms mt ht,
    int_of_float n = Some z /\ 0 <= z
    /\ int_of_float (float_mul (float_rem n (float_of_int 1)) (float_of_int 1000))
       = Some ms
    /\ 0 <= ms <= 999
    /\ int_of_float (float_div n (float_of_int 60)) = Some mt
    /\ int_of_float (float_div n (float_of_int 3600)) = Some ht
    /\ (SFltb n (float_of_int 1) = true ->
        z = 0 /\ _format_float_seconds n = Some (sub_second_form ms))
    /\ (SFleb (float_of_int 60) n = true ->
        60 <= z
        /\ _format_float_seconds n
           = Some (long_form (ht mod 3600) (mt mod 60) (z mod 60) ms))
    /\ _format_float_seconds f_0_003 = Some ".003"
    /\ _format_float_seconds f_65_5 = Some "0:01:05.500"
    /\ _format_float_seconds f_3725_125 = Some "1:02:05.125".
Proof.
  intros Hn.
  destruct (seconds_of_elapsed n Hn) as (z & Hz & Hz0 & Hs).
  destruct (milliseconds_of_elapsed n Hn) as (ms & Hms & Hr).
  assert (Hm : exists q, int_of_float (float_div n (float_of_int 60)) = Some q).
  { destruct Hn as [Hv Hn]. destruct float_of_int_literals as (_ & -> & _).
    apply float_div_finite; try assumption; [reflexivity | lia]. }
  destruct Hm as (mt & Hm).
  assert (Hh : exists q, int_of_float (float_div n (float_of_int 3600)) = Some q).
  { destruct Hn as [Hv Hn]. destruct float_of_int_literals as (_ & _ & _ & ->).
    apply float_div_finite; try assumption; [reflexivity | lia]. }
  destruct Hh as (ht & Hh).
  exists z, ms, mt, ht.
  split; [exact Hz|]. split; [exact Hz0|]. split; [exact Hms|]. split; [exact Hr|].
  split; [exact Hm|]. split; [exact Hh|]. split; [|split].
  - intros Hlt. split.
    + pose proof (whole_seconds_below_one n Hn Hlt) as H0. congruence.
    + unfold _format_float_seconds. rewrite Hms, Hlt, format_0_right_3 by exact Hr.
      reflexivity.
  - intros H60. split; [exact (whole_seconds_from_60 n z Hn H60 Hz)|].
    pose proof (at_least_60_not_below_1 n H60) as Hge.
    pose proof (Z.mod_pos_bound ht 3600 ltac:(lia)) as Hhr.
    pose proof (Z.mod_pos_bound mt 60 ltac:(lia)) as Hmr.
    pose proof (Z.mod_pos_bound z 60 ltac:(lia)) as Hsr.
    unfold _format_float_seconds. rewrite Hms, Hge, Hs, Hm, Hh.
    cbv zeta.
    rewrite format_0_right_3, !format_0_right_2, str_of_int_unpadded by lia.
    reflexivity.
  - repeat split; vm_compute; reflexivity.
Qed.

Lemma format_float_seconds_rendering_witness :
  elapsed_value f_3725_125
  /\ SFleb (float_of_int 60) f_3725_125 = true
  /\ int_of_float f_3725_125 = Some 3725
  /\ int_of_float (float_mul (float_rem f_3725_125 (float_of_int 1)) (float_of_int 1000))
     = Some 125
  /\ exists z ms mt ht,
       int_of_float f_3725_125 = Some z
       /\ int_of_float
            (float_mul (float_rem f_3725_125 (float_of_int 1)) (float_of_int 1000))
          = Some ms
       /\ int_of_float (float_div f_3725_125 (float_of_int 60)) = Some mt
       /\ int_of_float (float_div f_3725_125 (float_of_int 3600)) = Some ht
       /\ _format_float_seconds f_3725_125
          = Some (long_form (ht mod 3600) (mt mod 60) (z mod 60) ms).
Proof.
  split; [split; reflexivity|]. split; [reflexivity|].
  split; [reflexivity|]. split; [vm_compute; reflexivity|].
  destruct (format_float_seconds_rendering f_3725_125 (conj eq_refl I))
    as (z & ms & mt & ht & Hz & _ & Hms & _ & Hmt & Hht & _ & H60 & _).
  exists z, ms, mt, ht.
  split; [exact Hz|]. split; [exact Hms|]. split; [exact Hmt|]. split; [exact Hht|].
  exact (proj2 (H60 eq_refl)).
Defined.

End ElapsedFormat.

(* ===================================================================== *)
(** ** Verbosity levels *)
(* ===================================================================== *)

Module VerbosityLevels.

Import Visibility Shaping Dispatch.

(** The same options under another verbosity of the display ([-v], [-vv],
    ...). *)
Definition with_verbosity (opts : options) (v : Z) : options :=
  {| verbosity := v;
     display_skipped_hosts := display_skipped_hosts opts;
     display_ok_hosts := display_ok_hosts opts;
     check_mode_markers := check_mode_markers opts;
     show_task_path_on_failure := show_task_path_on_failure opts |}.

(** The forms of a payload, ordered by what they show. *)
Definition form_rank (f : option result_form) : nat :=
  match f with
  | None => 0
  | Some Reduced => 1
  | Some Comprehensive => 2
  end.

Lemma run_is_verbose_mono (opts : options) (v v' level : Z) (d : dict) :
  v <= v' ->
  _run_is_verbose (with_verbosity opts v) d level = true ->
  _run_is_verbose (with_verbosity opts v') d level = true.
Proof.
  unfold _run_is_verbose. cbn [verbosity with_verbosity].
  rewrite !Z.gtb_gt. lia.
Qed.

Lemma selected_form_rank (opts : options) (result : task_result) (status : string) :
  form_rank (selected_form opts result status)
  = if _should_print_comprehensive_task_result opts result status then 2%nat
    else if _should_print_reduced_task_result opts result status then 1%nat
    else 0%nat.
Proof.
  unfold selected_form.
  destruct (_should_print_comprehensive_task_result opts result status); [reflexivity|].
  destruct (_should_print_reduced_task_result opts result status); reflexivity.
Qed.

(** X1: a more verbose run never hides what a less verbose run shows.  With
    the other options fixed and [v <= v']: a result that is logged at
    verbosity [v] is logged at [v']; the payload chosen at [v'] is the one
    chosen at [v] or a fuller one (none, reduced, comprehensive, in this
    order); and a task whose result is censored at [v'] is censored at [v]. *)
Theorem more_verbose_never_hides
    (opts : options) (v v' : Z) (result : task_result) (status : string) :
  v <= v' ->
  (_should_log_task (with_verbosity opts v) result status = true ->
   _should_log_task (with_verbosity opts v') result status = true)
  /\ (form_rank (selected_form (with_verbosity opts v) result status)
      <= form_rank (selected_form (with_verbosity opts v') result status))%nat
  /\ (censored (with_verbosity opts v') (_task result) = true ->
      censored (with_verbosity opts v) (_task result) = true).
Proof.
  intros Hv. split; [|split].
  - rewrite !should_log_task_iff. cbn [verbosity with_verbosity
      display_skipped_hosts display_ok_hosts]. intuition lia.
  - rewrite !selected_form_rank.
    pose proof (comprehensive_predicate_iff (with_verbosity opts v) result status) as Hc.
    pose proof (comprehensive_predicate_iff (with_verbosity opts v') result status) as Hc'.
    pose proof (reduced_predicate_iff (with_verbosity opts v) result status) as Hr.
    pose proof (reduced_predicate_iff (with_verbosity opts v') result status) as Hr'.
    cbn [verbosity with_verbosity] in Hc, Hc', Hr, Hr'.
    destruct (_should_print_comprehensive_task_result (with_verbosity opts v) result status),
      (_should_print_comprehensive_task_result (with_verbosity opts v') result status),
      (_should_print_reduced_task_result (with_verbosity opts v) result status),
      (_should_print_reduced_task_result (with_verbosity opts v') result status);
      try lia; exfalso.
    all: try (assert (false = true) by (apply Hc'; destruct Hc as [Hc _];
              destruct (Hc eq_refl) as [?|[?|?]]; [left; lia | auto | auto]);
              discriminate).
    all: try (assert (false = true) by (apply Hr'; destruct Hr as [Hr _];
              destruct (Hr eq_refl) as [?|?]; [left; lia | auto]);
              discriminate).
  - unfold censored. cbn [verbosity with_verbosity].
    rewrite !andb_true_iff, !negb_true_iff, !Z.gtb_ltb, !Z.ltb_ge. intuition lia.
Qed.

Lemma more_verbose_never_hides_witness :
  0 <= 2
  /\ (_should_log_task (with_verbosity quiet_options 0)
        (plain_result "command" false true) "ok" = true ->
      _should_log_task (with_verbosity quiet_options 2)
        (plain_result "command" false true) "ok" = true)
  /\ (form_rank (selected_form (with_verbosity quiet_options 0)
                   (plain_result "command" false true) "ok")
      <= form_rank (selected_form (with_verbosity quiet_options 2)
                      (plain_result "command" false true) "ok"))%nat
  /\ (censored (with_verbosity quiet_options 2)
        (_task (plain_result "command" false true)) = true ->
      censored (with_verbosity quiet_options 0)
        (_task (plain_result "command" false true)) = true).
Proof.
  split; [lia|].
  apply (more_verbose_never_hides quiet_options 0 2 (plain_result "command" false true) "ok").
  lia.
Defined.

End VerbosityLevels.

(* ===================================================================== *)
(** ** The lines of a finished task *)
(* ===================================================================== *)

Module FinishedOutput.

Import Visibility Shaping Dispatch Tracker RoleBanner.

(** The description [_get_task_infos] gives for a task. *)
Definition task_description (opts : options) (host : string) (t : task) : string :=
  snd (fst (_get_task_infos opts host t)).

(** The elapsed time [_on_finished_task] hands to [_log_task]: that of the
    slot of the host while rich still holds it, [0] otherwise. *)
Definition elapsed_of (st : state) (id : nat) (slot_elapsed : float) : float :=
  match _progress_tasks st !! id with
  | Some _ => slot_elapsed
  | None => S754_zero false
  end.

(** The line of a finished task. *)
Definition task_line (opts : options) (result : task_result) (status : string)
    (elapsed : float) : printed :=
  Print false
    [RTimestamp;
     RStr (finished_message result status
             (_get_host_label (_host result) (_task result))
             (task_description opts (_host result) (_task result)));
     RStr "-"; RElapsed elapsed].

(** The lines [_log_task] writes for a finished task: the banner of the role
    when [_handle_role] armed it, then the line of the task. *)
Definition log_lines (opts : options) (st : state) (result : task_result)
    (status : string) (elapsed : float) : list printed :=
  if _should_log_task opts result status then
    (if armed st (task_role_name (_task result))
     then [banner_line (task_role_name (_task result))] else [])
    ++ [task_line opts result status elapsed]
  else [].

Definition diff_output (ext : collaborators) (result : task_result) : list printed :=
  if is_changed result then _print_diff ext result else [].

Definition path_line (result : task_result) : printed :=
  Print false [RStr ("[rlo.task.log.task_path][italic]task path: "
                     +:+ task_path (_task result))].

Definition path_output (opts : options) (result : task_result) (status : string)
    : list printed :=
  if String.eqb status "failed" && show_task_path_on_failure opts
  then [path_line result] else [].


(** A diff as [_print_single_diff] prints it: one text, not empty, written
    raw. *)
Definition is_diff_text (p : printed) : bool :=
  match p with
  | Print true [RStr s] => negb (String.eqb s "")
  | _ => false
  end.

Lemma armed_same_roles (st st' : state) (role_name : string) :
  _current_role st' = _current_role st ->
  _last_printed_role st' = _last_printed_role st ->
  _should_print_role st' = _should_print_role st ->
  armed st' role_name = armed st role_name.
Proof. unfold armed. intros -> -> ->. reflexivity. Qed.

(** The output of [_on_finished_task] for a host of the table, part by
    part. *)
Lemma on_finished_task_parts (opts : options) (ext : collaborators) (st : state)
    (result : task_result) (status : string) (slot_elapsed : float) (id : nat) :
  _hosts st !! _host result = Some id ->
  exists st',
    _on_finished_task opts ext st result status slot_elapsed
    = Returned (st', log_lines opts st result status (elapsed_of st id slot_elapsed)
                     ++ diff_output ext result
                     ++ payload_output opts ext result status
                     ++ path_output opts result status).
Proof.
  intros Hid. unfold _on_finished_task.
  cbv beta iota zeta delta [_get_task_infos]. rewrite Hid.
  unfold payload_output, selected_form, preprocessor, log_lines, elapsed_of, task_line,
    task_description, diff_output, path_output, path_line.
  cbv beta iota zeta delta [_get_task_infos fst snd].
  fold (task_role_name (_task result)).
  set (role := task_role_name (_task result)).
  set (msg := finished_message result status _ _).
  assert (Hpay :
    (if _should_print_comprehensive_task_result opts result status
     then _print_result ext (_result result) (_task result)
            (_get_comprehensive_result_object opts ext)
     else if _should_print_reduced_task_result opts result status
          then _print_result ext (_result result) (_task result)
                 (_get_reduced_result_object opts)
          else [])
    = match (if _should_print_comprehensive_task_result opts result status
             then Some Comprehensive
             else if _should_print_reduced_task_result opts result status
                  then Some Reduced else None) with
      | Some form =>
          _print_result ext (_result result) (_task result)
            match form with
            | Comprehensive => _get_comprehensive_result_object opts ext
            | Reduced => _get_reduced_result_object opts
            end
      | None => []
      end).
  { destruct (_should_print_comprehensive_task_result opts result status); [reflexivity|].
    destruct (_should_print_reduced_task_result opts result status); reflexivity. }
  rewrite Hpay. clear Hpay.
  set (st1 := match _progress_tasks st !! id with
              | Some _ => remove_task st id | None => st end).
  assert (Hst1 : match _progress_tasks st !! id with
                 | Some _ => (remove_task st id, slot_elapsed)
                 | None => (st, S754_zero false)
                 end
                 = (st1, match _progress_tasks st !! id with
                         | Some _ => slot_elapsed | None => S754_zero false end)).
  { unfold st1. destruct (_progress_tasks st !! id); reflexivity. }
  rewrite Hst1. clear Hst1.
  assert (Harm : armed st1 role = armed st role).
  { unfold st1. destruct (_progress_tasks st !! id); [|reflexivity].
    apply armed_same_roles; reflexivity. }
  destruct (handle_role_spec st1 role) as (Hcur & _ & Hshould).
  destruct (_should_log_task opts result status).
  - unfold _log_task. rewrite Hshould, Harm, Hcur.
    destruct (armed st role); eexists; reflexivity.
  - eexists. reflexivity.
Qed.

Lemma log_lines_timestamped (opts : options) (st : state) (result : task_result)
    (status : string) (elapsed : float) :
  List.Forall (fun p => is_log_line p = true) (log_lines opts st result status elapsed).
Proof.
  unfold log_lines.
  destruct (_should_log_task opts result status); [|constructor].
  destruct (armed st (task_role_name (_task result))); repeat constructor.
Qed.



Lemma path_output_plain (opts : options) (result : task_result) (status : string) :
  List.Forall (fun p => is_log_line p = false /\ is_raw p = false
                        /\ is_result_payload p = false)
              (path_output opts result status).
Proof.
  unfold path_output.
  destruct (String.eqb status "failed" && show_task_path_on_failure opts);
    repeat constructor.
Qed.

Lemma payload_output_payloads (opts : options) (ext : collaborators)
    (result : task_result) (status : string) :
  List.Forall (fun p => is_result_payload p = true) (payload_output opts ext result status).
Proof.
  destruct (payload_output_shape opts ext result status) as [Heq _].
  rewrite <- Heq. unfold result_payloads.
  apply List.Forall_forall. intros p Hp. apply List.filter_In in Hp. tauto.
Qed.



(** A fresh plugin after the start of a task on [web1]. *)
Definition one_host : state :=
  fst (step quiet_options plain_collaborators (init true)
         (RunnerStart "web1" (plain_task "command" false))).


Lemma existsb_app_false {A : Type} (f : A -> bool) (l1 l2 : list A) :
  existsb f l1 = false -> existsb f (l1 ++ l2) = existsb f l2.
Proof. intros H. rewrite List.existsb_app, H. reflexivity. Qed.


Lemma filter_none {A : Type} (f : A -> bool) (P : A -> Prop) (l : list A) :
  (forall p, P p -> f p = false) -> List.Forall P l -> List.filter f l = [].
Proof.
  intros HP Hl. induction Hl as [|p l Hp Hl IH]; [reflexivity|].
  simpl. rewrite (HP p Hp). exact IH.
Qed.




Lemma log_line_not_raw (p : printed) : is_log_line p = true -> is_raw p = false.
Proof. destruct p as [[|] args]; simpl; [discriminate | reflexivity]. Qed.

Lemma payload_not_raw (p : printed) : is_result_payload p = true -> is_raw p = false.
Proof. destruct p as [[|] args]; simpl; [discriminate | reflexivity]. Qed.




Lemma print_single_diff_text (ext : collaborators) (d : dict) :
  List.Forall (fun p => is_diff_text p = true) (_print_single_diff ext d)
  /\ (length (_print_single_diff ext d) <= 1)%nat.
Proof.
  unfold _print_single_diff.
  destruct (dict_get "diff" d); [|split; [constructor | simpl; lia]].
  match goal with |- context [if ?c then _ else _] => destruct c eqn:Hc end;
    (split; [|simpl; lia]); repeat constructor.
  simpl. exact Hc.
Qed.

Lemma print_diff_text (ext : collaborators) (result : task_result) :
  List.Forall (fun p => is_diff_text p = true) (_print_diff ext result).
Proof.
  unfold _print_diff.
  match goal with |- context [match ?x with Some _ => _ | None => _ end] => destruct x as [results|] end.
  - match goal with |- context [flat_map _ ?items] =>
      induction items as [|res rest IH]
    end; simpl.
    + constructor.
    + apply list.Forall_app_2; [|exact IH].
      destruct res; try constructor.
      destruct (has_changed_diff items); [apply print_single_diff_text | constructor].
  - destruct (has_changed_diff (_result result)); [apply print_single_diff_text | constructor].
Qed.

(** X4: diffs.  Whatever a finished task prints raw is a diff: one text, not
    empty, and the result reports a change.  For a task without a loop at
    most one diff is printed, and none unless the result holds a [diff] that
    is true as a condition together with a [changed] that is. *)
Theorem diff_only_for_changed_result
    (opts : options) (ext : collaborators) (st : state) (result : task_result)
    (status : string) (slot_elapsed : float) :
  let out := printed_by (_on_finished_task opts ext st result status slot_elapsed) in
  (forall p, In p out -> is_raw p = true ->
             is_diff_text p = true /\ is_changed result = true)
  /\ (task_loop (_task result) = false ->
      (length (List.filter is_raw out) <= 1)%nat
      /\ (has_changed_diff (_result result) = false -> List.filter is_raw out = [])).
Proof.
  intros out.
  destruct (_hosts st !! _host result) as [id|] eqn:Hid.
  2:{ pose proof (on_finished_task_slots opts ext st result status slot_elapsed) as H.
      rewrite Hid in H. unfold out. rewrite H. simpl.
      split; [intros p []|]. intros _. split; [lia | reflexivity]. }
  destruct (on_finished_task_parts opts ext st result status slot_elapsed id Hid)
    as (st' & Heq).
  assert (Hout : out = log_lines opts st result status (elapsed_of st id slot_elapsed)
                       ++ diff_output ext result
                       ++ payload_output opts ext result status
                       ++ path_output opts result status).
  { unfold out. rewrite Heq. reflexivity. }
  clearbody out. subst out.
  assert (Hpath : List.Forall (fun p => is_raw p = false) (path_output opts result status)).
  { eapply List.Forall_impl; [|apply path_output_plain]. intros p (_ & H & _). exact H. }
  split.
  - intros p Hin Hraw.
    apply List.in_app_or in Hin as [Hin|Hin].
    { pose proof (log_lines_timestamped opts st result status
                    (elapsed_of st id slot_elapsed)) as Hl.
      rewrite List.Forall_forall in Hl.
      rewrite (log_line_not_raw p (Hl p Hin)) in Hraw. discriminate. }
    apply List.in_app_or in Hin as [Hin|Hin].
    { unfold diff_output in Hin. destruct (is_changed result); [|destruct Hin].
      split; [|reflexivity].
      pose proof (print_diff_text ext result) as Hd.
      rewrite List.Forall_forall in Hd. apply Hd. exact Hin. }
    apply List.in_app_or in Hin as [Hin|Hin].
    { pose proof (payload_output_payloads opts ext result status) as Hl.
      rewrite List.Forall_forall in Hl.
      rewrite (payload_not_raw p (Hl p Hin)) in Hraw. discriminate. }
    rewrite List.Forall_forall in Hpath. rewrite (Hpath p Hin) in Hraw. discriminate.
  - intros Hloop.
    assert (Hfilter :
      List.filter is_raw
        (log_lines opts st result status (elapsed_of st id slot_elapsed)
         ++ diff_output ext result ++ payload_output opts ext result status
         ++ path_output opts result status)
      = List.filter is_raw (diff_output ext result)).
    { rewrite !List.filter_app.
      rewrite (filter_none _ _ _ log_line_not_raw (log_lines_timestamped _ _ _ _ _)).
      rewrite (filter_none _ _ _ payload_not_raw (payload_output_payloads _ _ _ _)).
      rewrite (filter_none is_raw (fun p => is_raw p = false) _ (fun p H => H) Hpath).
      rewrite List.app_nil_r. reflexivity. }
    rewrite Hfilter. unfold diff_output, _print_diff. rewrite Hloop.
    destruct (is_changed result); [|split; [simpl; lia | reflexivity]].
    destruct (has_changed_diff (_result result)).
    + split; [|discriminate].
      etransitivity; [apply List.filter_length_le|].
      apply print_single_diff_text.
    + split; [simpl; lia | reflexivity].
Qed.

(** X5: a result that is not logged.  For a host of the table, when the
    policy does not log the result, the event prints no payload and no task
    path: all it can print is the diff, and it prints one only for a changed
    result whose status is none of [ok], [failed] and [unreachable], a diff
    that then stands without the line of its task. *)
Theorem unlogged_task_prints_only_a_diff
    (opts : options) (ext : collaborators) (st : state) (result : task_result)
    (status : string) (slot_elapsed : float) (id : nat) :
  _hosts st !! _host result = Some id ->
  _should_log_task opts result status = false ->
  printed_by (_on_finished_task opts ext st result status slot_elapsed)
  = diff_output ext result
  /\ selected_form opts result status = None
  /\ (is_changed result = true ->
      status <> "ok" /\ status <> "failed" /\ status <> "unreachable").
Proof.
  intros Hid Hlog.
  destruct (on_finished_task_parts opts ext st result status slot_elapsed id Hid)
    as (st' & Heq).
  assert (Hnot : ~ (verbosity opts > 1
    \/ unsuppressed_debug result
    \/ status = "failed" \/ status = "unreachable"
    \/ (status = "skipped"
        /\ (display_skipped_hosts opts = true \/ verbosity opts > 2))
    \/ (status = "ok"
        /\ (is_changed result = true \/ display_ok_hosts opts = true
            \/ verbosity opts > 2)))).
  { rewrite <- should_log_task_iff. rewrite Hlog. discriminate. }
  assert (Hform : selected_form opts result status = None).
  { destruct (selected_form opts result status) as [[|]|] eqn:Hf; [| |reflexivity]; exfalso.
    - apply selected_comprehensive_iff, comprehensive_predicate_iff in Hf.
      apply Hnot. destruct Hf as [?|[?|?]]; [left; lia | auto | auto].
    - apply selected_reduced_iff in Hf as [_ Hf].
      apply reduced_predicate_iff in Hf.
      apply Hnot. destruct Hf as [?|[? ?]]; [left; lia | do 5 right; auto]. }
  split; [|split].
  - rewrite Heq. cbn [printed_by]. unfold log_lines, payload_output, path_output.
    rewrite Hlog, Hform.
    destruct (String.eqb_spec status "failed") as [->|_].
    + exfalso. apply Hnot. auto.
    + cbn [andb app]. rewrite List.app_nil_r. reflexivity.
  - exact Hform.
  - intros Hch. repeat split; intros ->; apply Hnot; auto 10.
Qed.

(** A changed result of a skipped task. *)
Definition skipped_changed : task_result :=
  {| _host := "web1"; _task := plain_task "command" false;
     _result := [("changed", PBool true); ("diff", PDict [("after", PStr "x")])];
     is_changed := true |}.

Lemma unlogged_task_prints_only_a_diff_witness :
  printed_by (_on_finished_task quiet_options plain_collaborators one_host
                skipped_changed "skipped" (S754_zero false))
  = diff_output plain_collaborators skipped_changed
  /\ selected_form quiet_options skipped_changed "skipped" = None
  /\ (is_changed skipped_changed = true ->
      "skipped" <> "ok" /\ "skipped" <> "failed" /\ "skipped" <> "unreachable").
Proof.
  apply (unlogged_task_prints_only_a_diff quiet_options plain_collaborators one_host
           skipped_changed "skipped" (S754_zero false) 0); reflexivity.
Defined.

End FinishedOutput.

(* ===================================================================== *)
(** ** The comprehensive result object *)
(* ===================================================================== *)

Module ComprehensiveObject.

Import Visibility Shaping.

Local Arguments String.eqb : simpl never.

(** The keys [_get_comprehensive_result_object] deletes or assigns. *)
Definition handled_keys : list string :=
  ["invocation"; "diff"; "skipped"; "stdout_lines"; "stderr_lines"; "task_vars"].

(** A result of a module, as the engine hands it over. *)
Definition module_result : dict :=
  [("changed", PBool true); ("_ansible_no_log", PBool false);
   ("invocation", PDict [("module_args", PDict [])]);
   ("diff", PDict [("before", PStr "a"); ("after", PStr "b")]);
   ("skipped", PBool false);
   ("stdout", PStr "one"); ("stdout_lines", PList [PStr "one"]);
   ("rc", PInt 0)].

Definition task_with_vars : task :=
  {| task_name := "show"; task_action := "command"; task_no_log := false;
     task_check_mode := false; task_delegate_to := None; task_role := None;
     task_vars := [("retries", PInt 3)]; task_loop := false; task_is_handler := false;
     task_path := "site.yml:3" |}.

Lemma gtb_false (v k : Z) : v <= k -> (v >? k) = false.
Proof. intros H. rewrite Z.gtb_ltb. apply Z.ltb_ge. exact H. Qed.

Lemma gtb_true (v k : Z) : v > k -> (v >? k) = true.
Proof. intros H. apply Z.gtb_gt. exact H. Qed.

Lemma dict_get_del_ne (k k' : string) (d : dict) :
  k <> k' -> dict_get k (dict_del k' d) = dict_get k d.
Proof.
  intros Hne. induction d as [|[k0 w] d IH]; simpl; [reflexivity|].
  destruct (String.eqb_spec k0 k') as [->|Hne'].
  - destruct (String.eqb_spec k' k) as [->|]; [congruence | reflexivity].
  - simpl. rewrite IH. reflexivity.
Qed.

Lemma dict_get_not_in (k : string) (d : dict) :
  ~ In k (dict_keys d) -> dict_get k d = None.
Proof.
  unfold dict_keys. induction d as [|[k0 w] d IH]; simpl; [reflexivity|].
  intros Hnin. destruct (String.eqb_spec k0 k) as [->|]; [tauto|].
  apply IH. tauto.
Qed.

Lemma dict_get_del_eq (k : string) (d : dict) :
  List.NoDup (dict_keys d) -> dict_get k (dict_del k d) = None.
Proof.
  unfold dict_keys. induction d as [|[k0 w] d IH]; simpl; intros Hnd; [reflexivity|].
  inversion Hnd as [|? ? Hnin Hnd']; subst.
  destruct (String.eqb_spec k0 k) as [->|Hne].
  - apply dict_get_not_in. exact Hnin.
  - simpl. destruct (String.eqb_spec k0 k); [congruence|]. apply IH. exact Hnd'.
Qed.

Lemma dict_keys_del_in (k x : string) (d : dict) :
  In x (dict_keys (dict_del k d)) -> In x (dict_keys d).
Proof.
  unfold dict_keys. induction d as [|[k0 w] d IH]; simpl; [tauto|].
  destruct (String.eqb k0 k); simpl; [tauto|]. intros [->|H]; auto.
Qed.

Lemma dict_del_NoDup (k : string) (d : dict) :
  List.NoDup (dict_keys d) -> List.NoDup (dict_keys (dict_del k d)).
Proof.
  unfold dict_keys. induction d as [|[k0 w] d IH]; simpl; intros Hnd; [constructor|].
  inversion Hnd as [|? ? Hnin Hnd']; subst.
  destruct (String.eqb k0 k); [exact Hnd'|]. simpl.
  constructor; [|auto]. intros Hin. apply Hnin. eapply dict_keys_del_in. exact Hin.
Qed.

Lemma dict_in_get (k : string) (d : dict) :
  dict_in k d = match dict_get k d with Some _ => true | None => false end.
Proof. reflexivity. Qed.

Lemma dict_in_set_ne (k k' : string) (v : pyval) (d : dict) :
  k <> k' -> dict_in k (dict_set k' v d) = dict_in k d.
Proof.
  intros Hne. unfold dict_in. rewrite dict_get_set.
  destruct (String.eqb_spec k' k); [congruence | reflexivity].
Qed.

(** The steps of [_get_comprehensive_result_object] after the copy. *)
Definition without_invocation (opts : options) (result copy : dict) : dict :=
  if negb (_run_is_verbose opts result 3) && dict_in "invocation" result
  then dict_del "invocation" copy else copy.

Definition without_diff (opts : options) (result c1 : dict) : dict :=
  if negb (_run_is_verbose opts result 2) then
    let d := if dict_in "diff" result then dict_del "diff" c1 else c1 in
    if dict_in "skipped" d then dict_del "skipped" d else d
  else c1.

Definition omit_lines (text lines_key : string) (c : dict) : dict :=
  if dict_in text c && dict_in lines_key c
  then dict_set lines_key (PStr "<omitted>") c else c.

Definition with_task_vars (t : task) (c : dict) : dict :=
  if truthy (PDict (task_vars t)) then dict_set "task_vars" (PDict (task_vars t)) c else c.

Lemma comprehensive_object_steps (opts : options) (ext : collaborators)
    (result : dict) (t : task) :
  censored opts t = false ->
  _get_comprehensive_result_object opts ext result t
  = with_task_vars t
      (omit_lines "stderr" "stderr_lines"
         (omit_lines "stdout" "stdout_lines"
            (without_diff opts result
               (without_invocation opts result (strip_internal_keys ext result))))).
Proof.
  unfold censored, _get_comprehensive_result_object, _run_is_verbose. intros ->.
  reflexivity.
Qed.

Lemma without_invocation_get (opts : options) (result copy : dict) (k : string) :
  k <> "invocation" ->
  dict_get k (without_invocation opts result copy) = dict_get k copy.
Proof.
  intros Hne. unfold without_invocation.
  destruct (negb (_run_is_verbose opts result 3) && dict_in "invocation" result);
    [apply dict_get_del_ne; exact Hne | reflexivity].
Qed.

Lemma without_diff_get (opts : options) (result c : dict) (k : string) :
  k <> "diff" -> k <> "skipped" ->
  dict_get k (without_diff opts result c) = dict_get k c.
Proof.
  intros Hd Hs. unfold without_diff.
  destruct (negb (_run_is_verbose opts result 2)); [|reflexivity].
  cbv zeta.
  destruct (dict_in "diff" result);
    match goal with |- context [if ?c then _ else _] => destruct c end;
    rewrite ?dict_get_del_ne by assumption; reflexivity.
Qed.

Lemma omit_lines_get (text lines_key : string) (c : dict) (k : string) :
  k <> lines_key -> dict_get k (omit_lines text lines_key c) = dict_get k c.
Proof.
  intros Hne. unfold omit_lines.
  destruct (dict_in text c && dict_in lines_key c); [|reflexivity].
  rewrite dict_get_set. destruct (String.eqb_spec lines_key k); [congruence | reflexivity].
Qed.

Lemma omit_lines_both (text lines_key : string) (c : dict) :
  text <> lines_key ->
  dict_in text (omit_lines text lines_key c) = true ->
  dict_in lines_key (omit_lines text lines_key c) = true ->
  dict_get lines_key (omit_lines text lines_key c) = Some (PStr "<omitted>").
Proof.
  intros Hne. unfold omit_lines.
  destruct (dict_in text c && dict_in lines_key c) eqn:Hboth.
  - intros _ _. rewrite dict_get_set, String.eqb_refl. reflexivity.
  - intros H1 H2. rewrite H1, H2 in Hboth. discriminate.
Qed.

Lemma with_task_vars_get (t : task) (c : dict) (k : string) :
  k <> "task_vars" -> dict_get k (with_task_vars t c) = dict_get k c.
Proof.
  intros Hne. unfold with_task_vars.
  destruct (truthy (PDict (task_vars t))); [|reflexivity].
  rewrite dict_get_set. destruct (String.eqb_spec "task_vars" k); [congruence | reflexivity].
Qed.

Lemma dict_in_false (k : string) (d : dict) :
  dict_get k d = None -> dict_in k d = false.
Proof. unfold dict_in. intros ->. reflexivity. Qed.

Lemma dict_in_ext (k : string) (d d' : dict) :
  dict_get k d = dict_get k d' -> dict_in k d = dict_in k d'.
Proof. unfold dict_in. intros ->. reflexivity. Qed.

(** X6: what the comprehensive object keeps.  For a task that is not
    censored, every entry of the stripped copy of the result under a key other
    than [invocation], [diff], [skipped], [stdout_lines], [stderr_lines] and
    [task_vars] is in the object unchanged, and the object has no other such
    key.  The list of lines is never shown beside its text: when the object
    holds [stdout] and [stdout_lines], the latter is ["<omitted>"], and
    likewise for [stderr].  The variables of the task, when it has some, are
    stored under [task_vars], in place of an entry of the result with that
    key. *)
Theorem comprehensive_object_entries
    (opts : options) (ext : collaborators) (result : dict) (t : task) :
  censored opts t = false ->
  (forall key, ~ In key handled_keys ->
     dict_get key (_get_comprehensive_result_object opts ext result t)
     = dict_get key (strip_internal_keys ext result))
  /\ (dict_in "stdout" (_get_comprehensive_result_object opts ext result t) = true ->
      dict_in "stdout_lines" (_get_comprehensive_result_object opts ext result t) = true ->
      dict_get "stdout_lines" (_get_comprehensive_result_object opts ext result t)
      = Some (PStr "<omitted>"))
  /\ (dict_in "stderr" (_get_comprehensive_result_object opts ext result t) = true ->
      dict_in "stderr_lines" (_get_comprehensive_result_object opts ext result t) = true ->
      dict_get "stderr_lines" (_get_comprehensive_result_object opts ext result t)
      = Some (PStr "<omitted>"))
  /\ (task_vars t <> [] ->
      dict_get "task_vars" (_get_comprehensive_result_object opts ext result t)
      = Some (PDict (task_vars t)))
  /\ (task_vars t = [] ->
      dict_get "task_vars" (_get_comprehensive_result_object opts ext result t)
      = dict_get "task_vars" (strip_internal_keys ext result)).
Proof.
  intros Hc. rewrite (comprehensive_object_steps opts ext result t Hc).
  set (c1 := without_invocation opts result (strip_internal_keys ext result)).
  set (c2 := without_diff opts result c1).
  set (c3 := omit_lines "stdout" "stdout_lines" c2).
  set (c4 := omit_lines "stderr" "stderr_lines" c3).
  split; [|split; [|split; [|split]]].
  - intros key Hkey. unfold handled_keys in Hkey. simpl in Hkey.
    rewrite with_task_vars_get by (intros ->; tauto).
    unfold c4. rewrite omit_lines_get by (intros ->; tauto).
    unfold c3. rewrite omit_lines_get by (intros ->; tauto).
    unfold c2. rewrite without_diff_get by (intros ->; tauto).
    unfold c1. apply without_invocation_get. intros ->. tauto.
  - intros Hso Hsl.
    rewrite with_task_vars_get by discriminate.
    unfold c4. rewrite omit_lines_get by discriminate.
    apply omit_lines_both; [discriminate | |].
    + transitivity (dict_in "stdout" (with_task_vars t c4)); [|exact Hso].
      apply dict_in_ext.
      rewrite with_task_vars_get by discriminate.
      unfold c4, c3. rewrite !omit_lines_get by discriminate. reflexivity.
    + transitivity (dict_in "stdout_lines" (with_task_vars t c4)); [|exact Hsl].
      apply dict_in_ext.
      rewrite with_task_vars_get by discriminate.
      unfold c4. rewrite (omit_lines_get "stderr") by discriminate. reflexivity.
  - intros Hse Hsl.
    rewrite with_task_vars_get by discriminate.
    apply omit_lines_both; [discriminate | |].
    + transitivity (dict_in "stderr" (with_task_vars t c4)); [|exact Hse].
      apply dict_in_ext.
      rewrite with_task_vars_get by discriminate. reflexivity.
    + transitivity (dict_in "stderr_lines" (with_task_vars t c4)); [|exact Hsl].
      apply dict_in_ext.
      rewrite with_task_vars_get by discriminate. reflexivity.
  - intros Hvars. unfold with_task_vars.
    destruct (task_vars t) as [|kv vars]; [congruence|].
    cbn [truthy]. rewrite dict_get_set, String.eqb_refl. reflexivity.
  - intros Hvars. unfold with_task_vars. rewrite Hvars. cbn [truthy].
    unfold c4. rewrite omit_lines_get by discriminate.
    unfold c3. rewrite omit_lines_get by discriminate.
    unfold c2. rewrite without_diff_get by discriminate.
    unfold c1. apply without_invocation_get. discriminate.
Qed.

Lemma comprehensive_object_entries_witness :
  censored quiet_options task_with_vars = false
  /\ dict_get "rc" (_get_comprehensive_result_object quiet_options plain_collaborators
                      module_result task_with_vars) = Some (PInt 0)
  /\ dict_get "stdout_lines"
       (_get_comprehensive_result_object quiet_options plain_collaborators
          module_result task_with_vars) = Some (PStr "<omitted>")
  /\ dict_get "task_vars"
       (_get_comprehensive_result_object quiet_options plain_collaborators
          module_result task_with_vars) = Some (PDict [("retries", PInt 3)]).
Proof.
  split; [reflexivity|].
  destruct (comprehensive_object_entries quiet_options plain_collaborators
              module_result task_with_vars eq_refl) as (Hkeep & Hout & _ & Hvars & _).
  split; [|split].
  - rewrite Hkeep; [reflexivity|]. unfold handled_keys. simpl.
    intros [H|[H|[H|[H|[H|[H|[]]]]]]]; discriminate.
  - apply Hout; reflexivity.
  - apply Hvars. discriminate.
Defined.

(** X7: what the comprehensive object drops.  When the copy of the result has
    no key twice and the task is not censored: up to verbosity 3 an
    [invocation] of the result is not in the object; up to verbosity 2 a
    [diff] of the result is not in it, and no [skipped] is; above these
    levels the entries of the copy are kept. *)
Theorem comprehensive_object_drops
    (opts : options) (ext : collaborators) (result : dict) (t : task) :
  List.NoDup (dict_keys (strip_internal_keys ext result)) ->
  censored opts t = false ->
  (verbosity opts <= 3 -> dict_in "invocation" result = true ->
   dict_in "invocation" (_get_comprehensive_result_object opts ext result t) = false)
  /\ (verbosity opts <= 2 -> dict_in "diff" result = true ->
      dict_in "diff" (_get_comprehensive_result_object opts ext result t) = false)
  /\ (verbosity opts <= 2 ->
      dict_in "skipped" (_get_comprehensive_result_object opts ext result t) = false)
  /\ (verbosity opts > 3 ->
      dict_get "invocation" (_get_comprehensive_result_object opts ext result t)
      = dict_get "invocation" (strip_internal_keys ext result))
  /\ (verbosity opts > 2 ->
      dict_get "diff" (_get_comprehensive_result_object opts ext result t)
      = dict_get "diff" (strip_internal_keys ext result)
      /\ dict_get "skipped" (_get_comprehensive_result_object opts ext result t)
         = dict_get "skipped" (strip_internal_keys ext result)).
Proof.
  intros Hnd Hc. rewrite (comprehensive_object_steps opts ext result t Hc).
  set (copy := strip_internal_keys ext result) in *.
  assert (Hget : forall k c, k <> "stdout_lines" -> k <> "stderr_lines" -> k <> "task_vars" ->
            dict_get k (with_task_vars t
                          (omit_lines "stderr" "stderr_lines"
                             (omit_lines "stdout" "stdout_lines" c)))
            = dict_get k c).
  { intros k c H1 H2 H3.
    rewrite with_task_vars_get, !omit_lines_get by assumption. reflexivity. }
  assert (Hnd1 : List.NoDup (dict_keys (without_invocation opts result copy))).
  { unfold without_invocation.
    destruct (negb (_run_is_verbose opts result 3) && dict_in "invocation" result);
      [apply dict_del_NoDup|]; exact Hnd. }
  split; [|split; [|split; [|split]]].
  - intros Hv Hin. apply dict_in_false. rewrite Hget by discriminate.
    rewrite without_diff_get by discriminate.
    unfold without_invocation, _run_is_verbose.
    replace (verbosity opts >? 3) with false by (symmetry; apply gtb_false; lia).
    rewrite Hin. cbn [negb andb]. apply dict_get_del_eq. exact Hnd.
  - intros Hv Hin. apply dict_in_false. rewrite Hget by discriminate.
    unfold without_diff, _run_is_verbose.
    replace (verbosity opts >? 2) with false by (symmetry; apply gtb_false; lia).
    cbn [negb]. rewrite Hin. cbv zeta.
    destruct (dict_in "skipped" (dict_del "diff" (without_invocation opts result copy))).
    + rewrite dict_get_del_ne by discriminate. apply dict_get_del_eq. exact Hnd1.
    + apply dict_get_del_eq. exact Hnd1.
  - intros Hv. apply dict_in_false. rewrite Hget by discriminate.
    unfold without_diff, _run_is_verbose.
    replace (verbosity opts >? 2) with false by (symmetry; apply gtb_false; lia).
    cbn [negb]. cbv zeta.
    set (d := if dict_in "diff" result then _ else _).
    assert (Hndd : List.NoDup (dict_keys d)).
    { unfold d. destruct (dict_in "diff" result); [apply dict_del_NoDup|]; exact Hnd1. }
    destruct (dict_in "skipped" d) eqn:Hs.
    + apply dict_get_del_eq. exact Hndd.
    + unfold dict_in in Hs. destruct (dict_get "skipped" d); [discriminate | reflexivity].
  - intros Hv. rewrite Hget by discriminate.
    rewrite without_diff_get by discriminate.
    unfold without_invocation, _run_is_verbose.
    replace (verbosity opts >? 3) with true by (symmetry; apply gtb_true; lia).
    reflexivity.
  - intros Hv. rewrite !Hget by discriminate.
    unfold without_diff, _run_is_verbose.
    replace (verbosity opts >? 2) with true by (symmetry; apply gtb_true; lia).
    cbn [negb]. rewrite !without_invocation_get by discriminate. split; reflexivity.
Qed.

Lemma comprehensive_object_drops_witness :
  List.NoDup (dict_keys (strip_internal_keys plain_collaborators module_result))
  /\ censored quiet_options task_with_vars = false
  /\ dict_in "invocation"
       (_get_comprehensive_result_object quiet_options plain_collaborators
          module_result task_with_vars) = false
  /\ dict_in "diff"
       (_get_comprehensive_result_object quiet_options plain_collaborators
          module_result task_with_vars) = false
  /\ dict_in "skipped"
       (_get_comprehensive_result_object quiet_options plain_collaborators
          module_result task_with_vars) = false.
Proof.
  assert (Hnd : List.NoDup (dict_keys (strip_internal_keys plain_collaborators module_result))).
  { cbv. repeat constructor; simpl; intuition discriminate. }
  split; [exact Hnd|]. split; [reflexivity|].
  destruct (comprehensive_object_drops quiet_options plain_collaborators
              module_result task_with_vars Hnd eq_refl) as (Hi & Hd & Hs & _).
  split; [|split].
  - apply Hi; [simpl; lia | reflexivity].
  - apply Hd; [simpl; lia | reflexivity].
  - apply Hs. simpl. lia.
Defined.

(** X8: the comprehensive object holds what the reduced one holds.  When the
    copy keeps the entries [stdout], [stderr] and [msg] of the result (they
    are no internal keys) and the task is not censored, every entry of the
    reduced object is an entry of the comprehensive object, with the same
    value: a run that prints the fuller form loses nothing of the other. *)
Theorem comprehensive_holds_reduced
    (opts : options) (ext : collaborators) (result : dict) (t : task) :
  censored opts t = false ->
  (forall k, In k ["stdout"; "stderr"; "msg"] ->
             dict_get k (strip_internal_keys ext result) = dict_get k result) ->
  forall key v,
    dict_get key (_get_reduced_result_object opts result t) = Some v ->
    dict_get key (_get_comprehensive_result_object opts ext result t) = Some v.
Proof.
  intros Hc Hkeep key v Hred.
  rewrite (reduced_object_lookup opts result t key Hc) in Hred.
  rewrite (comprehensive_object_steps opts ext result t Hc).
  assert (Hpass : forall k, In k ["stdout"; "stderr"; "msg"] ->
            dict_get k (with_task_vars t
                          (omit_lines "stderr" "stderr_lines"
                             (omit_lines "stdout" "stdout_lines"
                                (without_diff opts result
                                   (without_invocation opts result
                                      (strip_internal_keys ext result))))))
            = dict_get k result).
  { intros k Hk. rewrite <- (Hkeep k Hk).
    assert (Hne : k <> "task_vars" /\ k <> "stderr_lines" /\ k <> "stdout_lines"
                  /\ k <> "diff" /\ k <> "skipped" /\ k <> "invocation").
    { simpl in Hk. destruct Hk as [<-|[<-|[<-|[]]]]; repeat split; discriminate. }
    destruct Hne as (H1 & H2 & H3 & H4 & H5 & H6).
    rewrite with_task_vars_get, !omit_lines_get, without_diff_get, without_invocation_get
      by assumption.
    reflexivity. }
  unfold reduced_entry in Hred.
  destruct (String.eqb_spec key "stdout") as [->|_].
  { rewrite Hpass by (simpl; auto). exact Hred. }
  destruct (String.eqb_spec key "stderr") as [->|_].
  { rewrite Hpass by (simpl; auto). exact Hred. }
  destruct (String.eqb_spec key "msg") as [->|_].
  { rewrite Hpass by (simpl; auto).
    destruct (dict_get "msg" result) as [m|]; [|discriminate].
    destruct (is_str m "All items completed"); [discriminate | exact Hred]. }
  destruct (String.eqb_spec key "task_vars") as [->|_]; [|discriminate].
  unfold with_task_vars. destruct (task_vars t) as [|kv vars]; [discriminate|].
  cbn [truthy]. rewrite dict_get_set, String.eqb_refl. exact Hred.
Qed.

Lemma comprehensive_holds_reduced_witness :
  censored quiet_options task_with_vars = false
  /\ dict_get "stdout" (_get_reduced_result_object quiet_options module_result task_with_vars)
     = Some (PStr "one")
  /\ dict_get "stdout" (_get_comprehensive_result_object quiet_options plain_collaborators
                          module_result task_with_vars)
     = Some (PStr "one").
Proof.
  split; [reflexivity|]. split; [reflexivity|].
  apply (comprehensive_holds_reduced quiet_options plain_collaborators
           module_result task_with_vars eq_refl).
  - intros k [<-|[<-|[<-|[]]]]; reflexivity.
  - reflexivity.
Defined.

End ComprehensiveObject.

(* ===================================================================== *)
(** ** Sanitized output *)
(* ===================================================================== *)

Module SanitizedOutput.

Import Traversal Sanitizing.

(** A character of [BLACKLISTED_BYTES]. *)
Definition blacklisted (c : ascii) : bool :=
  existsb (fun bw => Ascii.eqb (fst bw) c) BLACKLISTED_BYTES.

(** A string that holds no blacklisted character. *)
Fixpoint clean (s : string) : bool :=
  match s with
  | EmptyString => true
  | String c s' => negb (blacklisted c) && clean s'
  end.

Lemma clean_app (a b : string) : clean (a +:+ b) = clean a && clean b.
Proof.
  induction a as [|c a IH]; [reflexivity|].
  rewrite append_cons. cbn [clean]. rewrite IH, andb_assoc. reflexivity.
Qed.

Lemma sanitize_char_clean (c : ascii) : clean (sanitize_char c) = true.
Proof.
  destruct c as [[|] [|] [|] [|] [|] [|] [|] [|]]; vm_compute; reflexivity.
Qed.

Lemma sanitize_char_kept (c : ascii) :
  blacklisted c = false -> sanitize_char c = String c EmptyString.
Proof.
  destruct c as [[|] [|] [|] [|] [|] [|] [|] [|]]; vm_compute;
    intros H; try reflexivity; discriminate.
Qed.

Lemma sanitize_char_length (c : ascii) : (1 <= String.length (sanitize_char c))%nat.
Proof.
  destruct c as [[|] [|] [|] [|] [|] [|] [|] [|]]; vm_compute; lia.
Qed.

Lemma Sanitizer_transform_clean (s : string) : clean (Sanitizer_transform s) = true.
Proof.
  induction s as [|c s IH]; [reflexivity|].
  rewrite Sanitizer_transform_cons, clean_app, sanitize_char_clean, IH. reflexivity.
Qed.

Lemma Sanitizer_transform_of_clean (s : string) :
  clean s = true -> Sanitizer_transform s = s.
Proof.
  induction s as [|c s IH]; [reflexivity|].
  cbn [clean]. intros H. apply andb_true_iff in H as [Hc Hs].
  apply negb_true_iff in Hc.
  rewrite Sanitizer_transform_cons, (sanitize_char_kept c Hc), (IH Hs). reflexivity.
Qed.

Lemma string_length_app (a b : string) :
  String.length (a +:+ b) = (String.length a + String.length b)%nat.
Proof.
  induction a as [|c a IH]; [reflexivity|].
  rewrite append_cons. cbn [String.length]. rewrite IH. reflexivity.
Qed.

(** X9: the sanitizer leaves none of its six characters behind.  For every
    string the result holds no blacklisted character and is at least as long
    as the input; the strings the sanitizer returns unchanged are exactly
    those that hold no blacklisted character; and the sanitizer of a
    concatenation is the concatenation of the sanitized parts. *)
Theorem sanitizer_output_is_clean :
  forall s : string,
    clean (transform Sanitizer s) = true
    /\ (String.length s <= String.length (transform Sanitizer s))%nat
    /\ (transform Sanitizer s = s <-> clean s = true)
    /\ (forall s', transform Sanitizer (s +:+ s')
                   = transform Sanitizer s +:+ transform Sanitizer s').
Proof.
  intros s. cbn [transform Sanitizer]. split; [|split; [|split]].
  - apply Sanitizer_transform_clean.
  - induction s as [|c s IH]; [simpl; lia|].
    rewrite Sanitizer_transform_cons, string_length_app. cbn [String.length].
    pose proof (sanitize_char_length c). lia.
  - split.
    + intros H. rewrite <- H. apply Sanitizer_transform_clean.
    + apply Sanitizer_transform_of_clean.
  - intros s'. apply Sanitizer_transform_app.
Qed.

(** The string leaves of a value, each with the path that leads to it through
    dictionaries and lists. *)
Definition string_leaf (v : pyval) (p : list selector) (s : string) : Prop :=
  get_path p v = Some (PStr s).

Lemma transform_dict_string (callback : string -> string) (w : pyval) (s : string) :
  transform_dict w callback = PStr s ->
  (exists s0, w = PStr s0 /\ s = callback s0)
  \/ (exists ty, unrecognized_type w = Some ty
                 /\ s = "<RLO error - unrecognized type - " +:+ ty +:+ ">").
Proof.
  destruct w; cbn [transform_dict]; try discriminate.
  - intros H. injection H as <-. left. eauto.
  - unfold unrecognized. intros H. injection H as <-. right. eexists. split; reflexivity.
  - unfold unrecognized. intros H. injection H as <-. right. eexists. split; reflexivity.
Qed.

(** X10: what [_sanitize_dict] hands on.  Every string leaf of the sanitized
    value is the sanitized text of the leaf at the same place of the input,
    and holds no blacklisted character, or it is the text that stands for a
    leaf of an unrecognized type.  The keys of a dictionary are not touched:
    they are those of the input, in the same order, whatever characters they
    hold. *)
Theorem sanitize_dict_leaves_are_clean :
  forall v : pyval,
    (forall p s,
       string_leaf (_sanitize_dict v) p s ->
       (exists s0, string_leaf v p s0 /\ s = Sanitizer_transform s0 /\ clean s = true)
       \/ (exists x ty, get_path p v = Some x /\ unrecognized_type x = Some ty
                        /\ s = "<RLO error - unrecognized type - " +:+ ty +:+ ">"))
    /\ (forall p items,
          get_path p v = Some (PDict items) ->
          exists items',
            get_path p (_sanitize_dict v) = Some (PDict items')
            /\ dict_keys items' = dict_keys items).
Proof.
  intros v. unfold _sanitize_dict, string_leaf. split.
  - intros p s H. rewrite get_path_transform in H.
    destruct (get_path p v) as [w|] eqn:Hw; [|discriminate].
    cbn [option_map] in H. injection H as H.
    apply transform_dict_string in H as [(s0 & -> & ->)|(ty & Hty & ->)].
    + left. exists s0. split; [reflexivity|]. split; [reflexivity|].
      apply Sanitizer_transform_clean.
    + right. exists w, ty. auto.
  - intros p items H. rewrite get_path_transform, H. cbn [option_map transform_dict].
    eexists. split; [reflexivity|]. unfold dict_keys. rewrite map_map. reflexivity.
Qed.

Lemma transform_dict_json_like (callback : string -> string) (v : pyval) :
  json_like v = true -> json_like (transform_dict v callback) = true.
Proof.
  induction v as [s|items IH|elems IH|elems IH| | | | |elems IH|ty]
    using pyval_nested_ind; cbn [transform_dict json_like]; intros Hj;
    try reflexivity; try discriminate.
  - induction IH as [|[k w] items Hkv IH IH']; [reflexivity|].
    cbn [forallb map fst snd] in *. apply andb_true_iff in Hj as [Hw Hrest].
    rewrite (Hkv Hw), (IH' Hrest). reflexivity.
  - induction IH as [|x elems Hx IH IH']; [reflexivity|].
    cbn [forallb map] in *. apply andb_true_iff in Hj as [Hw Hrest].
    rewrite (Hx Hw), (IH' Hrest). reflexivity.
Qed.

Lemma transform_dict_compose (f g : string -> string) (v : pyval) :
  json_like v = true ->
  transform_dict (transform_dict v f) g = transform_dict v (fun s => g (f s)).
Proof.
  induction v as [s|items IH|elems IH|elems IH| | | | |elems IH|ty]
    using pyval_nested_ind; cbn [transform_dict json_like]; intros Hj;
    try reflexivity; try discriminate.
  - f_equal. rewrite map_map.
    induction IH as [|[k w] items Hkv IH IH']; [reflexivity|].
    cbn [forallb map fst snd] in *. apply andb_true_iff in Hj as [Hw Hrest].
    rewrite (Hkv Hw), (IH' Hrest). reflexivity.
  - f_equal. rewrite map_map.
    induction IH as [|x elems Hx IH IH']; [reflexivity|].
    cbn [forallb map] in *. apply andb_true_iff in Hj as [Hw Hrest].
    rewrite (Hx Hw), (IH' Hrest). reflexivity.
Qed.

Lemma transform_dict_ext (f g : string -> string) (v : pyval) :
  (forall s, f s = g s) -> transform_dict v f = transform_dict v g.
Proof.
  intros Hfg.
  induction v as [s|items IH|elems IH|elems IH| | | | |elems IH|ty]
    using pyval_nested_ind; cbn [transform_dict]; try reflexivity.
  - rewrite Hfg. reflexivity.
  - f_equal. induction IH as [|[k w] items Hkv IH IH']; [reflexivity|].
    cbn [map fst snd] in *. rewrite Hkv, IH'. reflexivity.
  - f_equal. induction IH as [|x elems Hx IH IH']; [reflexivity|].
    cbn [map]. rewrite Hx, IH'. reflexivity.
  - f_equal. induction IH as [|x elems Hx IH IH']; [reflexivity|].
    cbn [map]. rewrite Hx, IH'. reflexivity.
Qed.

(** X11: two traversals are one.  On a value built from dictionaries, lists,
    strings, numbers, booleans and [None], the traversal with [f] followed by
    the traversal with [g] is the traversal with [g] after [f], and its result
    is again such a value.  So what [_print_result] hands to the YAML dumper
    is the object with every string leaf sanitized and then transformed by the
    transformer of the user, and a second sanitizing changes nothing. *)
Theorem traversals_compose
    (ext : collaborators) (v : pyval) (f g : string -> string) :
  json_like v = true ->
  transform_dict (transform_dict v f) g = transform_dict v (fun s => g (f s))
  /\ json_like (transform_dict v f) = true
  /\ _transform_dict ext (_sanitize_dict v)
     = transform_dict v (fun s => transform (user_transformer ext) (Sanitizer_transform s))
  /\ _sanitize_dict (_sanitize_dict v) = _sanitize_dict v.
Proof.
  intros Hj. split; [|split; [|split]].
  - apply transform_dict_compose. exact Hj.
  - apply transform_dict_json_like. exact Hj.
  - unfold _transform_dict, _sanitize_dict, get_transform_callback.
    rewrite transform_dict_compose by exact Hj. reflexivity.
  - unfold _sanitize_dict, get_transform_callback.
    rewrite transform_dict_compose by exact Hj.
    apply transform_dict_ext. intros s. apply Sanitizer_transform_idempotent.
Qed.

Definition escape_result : pyval :=
  PDict [("msg", PStr (String ESC "[2Jgone")); ("rc", PInt 0);
         ("lines", PList [PStr "a"; PStr (String BEL EmptyString)])].

Lemma traversals_compose_witness :
  json_like escape_result = true
  /\ _transform_dict Shaping.plain_collaborators (_sanitize_dict escape_result)
     = PDict [("msg", PStr "<ESC>[2Jgone"); ("rc", PInt 0);
              ("lines", PList [PStr "a"; PStr "<BEL>"])]
  /\ _sanitize_dict (_sanitize_dict escape_result) = _sanitize_dict escape_result.
Proof.
  split; [reflexivity|].
  destruct (traversals_compose Shaping.plain_collaborators
              escape_result (transform Sanitizer) (transform Identity) eq_refl)
    as (_ & _ & Hprint & Hidem).
  split; [|exact Hidem].
  rewrite Hprint. reflexivity.
Defined.

End SanitizedOutput.

(* ===================================================================== *)
(** ** The life of a run *)
(* ===================================================================== *)

Module Lifecycle.

Import Visibility Shaping Dispatch Tracker RoleBanner.

(** A start of a task on [host]. *)
Definition is_start_of (host : string) (ev : event) : bool :=
  match ev with
  | RunnerStart h _ => String.eqb h host
  | _ => false
  end.

Definition is_start (ev : event) : bool :=
  match ev with RunnerStart _ _ => true | _ => false end.

(** The number of starts in a stream. *)
Definition starts (evs : list event) : nat := length (List.filter is_start evs).

Definition is_stats (ev : event) : bool :=
  match ev with Stats _ _ => true | _ => false end.

(** The role of the task started last, ["None"] before the first start. *)
Definition last_started_role (evs : list event) : string :=
  fold_left (fun role ev => match ev with
                            | RunnerStart _ t => task_role_name t
                            | _ => role
                            end) evs "None".

(** *** What a step leaves alone *)

Lemma handle_role_display (st : state) (role_name : string) :
  _role_progress_description (_handle_role st role_name) = _role_progress_description st
  /\ _live_started (_handle_role st role_name) = _live_started st.
Proof.
  unfold _handle_role.
  repeat match goal with |- context [if ?c then _ else _] => destruct c end;
    simpl; auto.
Qed.

Lemma log_task_display (st : state) (message : string) (elapsed : option float) :
  _role_progress_description (fst (_log_task st message elapsed))
  = _role_progress_description st
  /\ _live_started (fst (_log_task st message elapsed)) = _live_started st.
Proof. unfold _log_task. destruct (_should_print_role st); simpl; auto. Qed.

Lemma on_finished_task_display (opts : options) (ext : collaborators) (st : state)
    (result : task_result) (status : string) (slot_elapsed : float) :
  let st' := fst (match _on_finished_task opts ext st result status slot_elapsed with
                  | Returned x => x
                  | Raised _ => (st, [])
                  end) in
  _role_progress_description st' = _role_progress_description st
  /\ _live_started st' = _live_started st.
Proof.
  unfold _on_finished_task. cbv beta iota zeta delta [_get_task_infos].
  destruct (_hosts st !! _host result) as [id|]; [|simpl; auto].
  set (role_name := match task_role (_task result) with Some r => r | None => "None" end).
  assert (Hst1 : exists st1 elapsed,
             match _progress_tasks st !! id with
             | Some _ => (remove_task st id, slot_elapsed)
             | None => (st, S754_zero false)
             end = (st1, elapsed)
             /\ _role_progress_description st1 = _role_progress_description st
             /\ _live_started st1 = _live_started st).
  { destruct (_progress_tasks st !! id); eexists _, _; (split; [reflexivity|]); simpl; auto. }
  destruct Hst1 as (st1 & elapsed & -> & Hd & Hl).
  destruct (handle_role_display st1 role_name) as (Hd2 & Hl2).
  destruct (_should_log_task opts result status).
  - match goal with |- context [_log_task ?s ?m ?e] =>
      destruct (log_task_display s m e) as (Hd3 & Hl3);
      destruct (_log_task s m e) as [st3 out_log]
    end.
    simpl in *. rewrite Hd3, Hl3, Hd2, Hl2. auto.
  - simpl. rewrite Hd2, Hl2. auto.
Qed.

(** The role line of the live display and the display itself after a step. *)
Lemma step_display (opts : options) (ext : collaborators) (st : state) (ev : event) :
  _role_progress_description (fst (step opts ext st ev))
  = match ev with
    | RunnerStart _ t => task_role_name t
    | _ => _role_progress_description st
    end
  /\ _live_started (fst (step opts ext st ev))
     = match ev with Stats _ _ => false | _ => _live_started st end.
Proof.
  destruct ev; unfold step, handle; try apply on_finished_task_display.
  - simpl. auto.
  - unfold v2_runner_on_start. cbv beta iota zeta delta [_get_task_infos].
    unfold _handle_new_task. simpl. auto.
  - unfold v2_runner_retry. cbv beta iota zeta delta [_get_task_infos].
    destruct (retries_left (_result result)); [|simpl; auto].
    apply log_task_display.
  - unfold v2_playbook_on_notify. cbv beta iota zeta delta [_get_task_infos]. simpl. auto.
  - unfold v2_playbook_on_no_hosts_matched. apply log_task_display.
  - simpl. auto.
Qed.

(** X12: the live display.  After any stream the role line of the live
    display names the role of the task that was started last (["None"] for a
    task without role and before the first start): it follows the starts, not
    the tasks that finish.  The live display itself is on exactly when it was
    started and no recap was printed since: no event turns it on again. *)
Theorem live_display_after_stream :
  forall (opts : options) (ext : collaborators) (force_interactive : bool)
         (evs : list event),
    _role_progress_description (fst (run opts ext (init force_interactive) evs))
    = last_started_role evs
    /\ _live_started (fst (run opts ext (init force_interactive) evs))
       = force_interactive && negb (existsb is_stats evs).
Proof.
  intros opts ext b evs.
  assert (Hgen : forall st,
    _role_progress_description (fst (run opts ext st evs))
    = fold_left (fun role ev => match ev with
                                | RunnerStart _ t => task_role_name t
                                | _ => role
                                end) evs (_role_progress_description st)
    /\ _live_started (fst (run opts ext st evs))
       = _live_started st && negb (existsb is_stats evs)).
  { induction evs as [|ev evs IH]; intros st.
    - simpl. rewrite andb_true_r. auto.
    - rewrite run_cons_state. destruct (IH (fst (step opts ext st ev))) as [Hd Hl].
      destruct (step_display opts ext st ev) as [Hd1 Hl1].
      rewrite Hd, Hl, Hd1, Hl1. cbn [fold_left existsb].
      split; [destruct ev; reflexivity|].
      destruct ev; cbn [is_stats orb negb]; rewrite ?andb_false_r; reflexivity. }
  apply (Hgen (init b)).
Qed.

(** *** The table of the hosts *)

Lemma step_table (opts : options) (ext : collaborators) (st : state) (ev : event) :
  _hosts (fst (step opts ext st ev))
  = match ev with
    | RunnerStart h _ => <[h := _progress_task_index st]> (_hosts st)
    | _ => _hosts st
    end
  /\ _progress_task_index (fst (step opts ext st ev))
     = (if is_start ev then S (_progress_task_index st) else _progress_task_index st).
Proof.
  pose proof (step_slots opts ext st ev) as H. cbv zeta in H.
  destruct ev; cbn [is_start]; intuition.
Qed.

Lemma run_table (opts : options) (ext : collaborators) (evs : list event) :
  forall st,
    _progress_task_index (fst (run opts ext st evs))
    = (_progress_task_index st + starts evs)%nat
    /\ (forall h,
          _hosts (fst (run opts ext st evs)) !! h
          = if existsb (is_start_of h) evs
            then _hosts (fst (run opts ext st evs)) !! h
            else _hosts st !! h)
    /\ (forall h, existsb (is_start_of h) evs = true ->
                  is_Some (_hosts (fst (run opts ext st evs)) !! h)).
Proof.
  induction evs as [|ev evs IH]; intros st.
  - unfold starts. simpl. split; [lia|]. split; [reflexivity | discriminate].
  - rewrite run_cons_state.
    destruct (IH (fst (step opts ext st ev))) as (Hi & Hk & Hs).
    destruct (step_table opts ext st ev) as (Ht1 & Hi1).
    rewrite Hi, Hi1. unfold starts in *. cbn [List.filter existsb].
    split; [destruct (is_start ev); simpl; lia|]. split.
    + intros h. destruct (is_start_of h ev) eqn:Hev; cbn [orb]; [reflexivity|].
      rewrite Hk. destruct (existsb (is_start_of h) evs); [reflexivity|].
      rewrite Ht1. destruct ev; try reflexivity.
      cbn [is_start_of] in Hev. apply String.eqb_neq in Hev.
      apply lookup_insert_ne. exact Hev.
    + intros h Hh. apply orb_true_iff in Hh as [Hev|Hrest]; [|apply Hs; exact Hrest].
      destruct (existsb (is_start_of h) evs) eqn:Hrest; [apply Hs; exact Hrest|].
      rewrite Hk, Hrest, Ht1.
      destruct ev; try discriminate. cbn [is_start_of] in Hev.
      apply String.eqb_eq in Hev. subst. rewrite lookup_insert_eq. eauto.
Qed.



(** X14: slot ids count the starts.  From a fresh plugin the slot of a task
    is numbered by the starts handled before it, and the table keeps pointing
    the host at that slot until the next start of a task on the same host,
    whatever else is handled in between. *)
Theorem slot_id_counts_starts
    (opts : options) (ext : collaborators) (force_interactive : bool)
    (pre post : list event) (h : string) (t : task) :
  existsb (is_start_of h) post = false ->
  _hosts (fst (run opts ext (init force_interactive) (pre ++ RunnerStart h t :: post)))
    !! h = Some (starts pre)
  /\ _progress_task_index
       (fst (run opts ext (init force_interactive) (pre ++ RunnerStart h t :: post)))
     = S (starts pre + starts post).
Proof.
  intros Hpost. rewrite run_app. cbn [fst]. rewrite run_cons_state.
  set (st := fst (run opts ext (init force_interactive) pre)).
  destruct (run_table opts ext pre (init force_interactive)) as (Hi & _).
  fold st in Hi. cbn [init _progress_task_index] in Hi.
  destruct (step_table opts ext st (RunnerStart h t)) as (Ht1 & Hi1).
  destruct (run_table opts ext post (fst (step opts ext st (RunnerStart h t))))
    as (Hi2 & Hk2 & _).
  split.
  - rewrite Hk2, Hpost, Ht1, lookup_insert_eq, Hi. reflexivity.
  - rewrite Hi2, Hi1, Hi. cbn [is_start]. lia.
Qed.

Lemma slot_id_counts_starts_witness :
  _hosts (fst (run quiet_options plain_collaborators (init true)
                 ([RunnerStart "db1" (plain_task "command" false)]
                  ++ RunnerStart "web1" (plain_task "command" false)
                     :: [RunnerOk (plain_result "command" false false) (S754_zero false)])))
    !! "web1" = Some 1%nat.
Proof.
  apply (slot_id_counts_starts quiet_options plain_collaborators true
           [RunnerStart "db1" (plain_task "command" false)]
           [RunnerOk (plain_result "command" false false) (S754_zero false)]
           "web1" (plain_task "command" false)).
  reflexivity.
Defined.

(** *** Live slots *)

Lemma created_for_cons (opts : options) (ext : collaborators) (host : string)
    (st : state) (ev : event) (evs : list event) :
  created_for opts ext host st (ev :: evs)
  = created_step host st ev ++ created_for opts ext host (fst (step opts ext st ev)) evs.
Proof. destruct ev; reflexivity. Qed.

(** Every live slot was created for a host. *)
Lemma live_created (opts : options) (ext : collaborators) (evs : list event) :
  forall st (cr : string -> list nat),
    (forall id, live st id -> exists h, In id (cr h)) ->
    forall id, live (fst (run opts ext st evs)) id ->
               exists h, In id (cr h ++ created_for opts ext h st evs).
Proof.
  induction evs as [|ev evs IH]; intros st cr Hcr id Hlive.
  - simpl in *. destruct (Hcr id Hlive) as [h Hh]. exists h. rewrite List.app_nil_r. exact Hh.
  - rewrite run_cons_state in Hlive.
    destruct (IH (fst (step opts ext st ev)) (fun h => cr h ++ created_step h st ev))
      with (id := id) as [h Hh]; [|exact Hlive|].
    + clear id Hlive. intros id Hlive.
      pose proof (step_slots opts ext st ev) as Hstep. cbv zeta in Hstep.
      assert (Hold : live st id -> exists h, In id (cr h ++ created_step h st ev)).
      { intros Hl. destruct (Hcr id Hl) as [h Hh]. exists h.
        apply List.in_or_app. left. exact Hh. }
      assert (Hkeep : forall o : option nat,
                 is_Some (match o with
                          | Some id0 => delete id0 (_progress_tasks st)
                          | None => _progress_tasks st
                          end !! id) -> live st id).
      { intros [id0|] Hs; [|exact Hs].
        unfold live. destruct (decide (id = id0)) as [->|Hne].
        - rewrite lookup_delete_eq in Hs. destruct Hs as [? Hs]. discriminate.
        - rewrite lookup_delete_ne in Hs by congruence. exact Hs. }
      unfold live in Hlive.
      destruct ev;
        try (destruct Hstep as (_ & _ & Heq); rewrite Heq in Hlive;
             cbn [finished_result] in Hlive; apply Hold;
             first [exact Hlive | exact (Hkeep _ Hlive)]).
      destruct Hstep as (_ & (s & Hs) & _). rewrite Hs in Hlive.
      destruct (decide (id = _progress_task_index st)) as [->|Hne].
      * exists host. apply List.in_or_app. right.
        cbn [created_step]. rewrite String.eqb_refl. left. reflexivity.
      * rewrite lookup_insert_ne in Hlive by congruence. apply Hold. exact Hlive.
    + exists h. rewrite created_for_cons, List.app_assoc. exact Hh.
Qed.

(** X15: the live slots of a well-matched stream.  When every start of a host
    follows the finishing event of its previous task, the slots that rich
    holds after the stream are exactly the slots the table names for the hosts
    whose task has not finished yet; when every started task has finished, no
    slot is left. *)
Theorem live_slots_are_running_hosts
    (opts : options) (ext : collaborators) (force_interactive : bool)
    (evs : list event) :
  well_matched ∅ evs = true ->
  (forall id,
     live (fst (run opts ext (init force_interactive) evs)) id
     <-> exists h, h ∈ busy_after ∅ evs
                   /\ _hosts (fst (run opts ext (init force_interactive) evs)) !! h
                      = Some id)
  /\ (busy_after ∅ evs = ∅ ->
      _progress_tasks (fst (run opts ext (init force_interactive) evs)) = ∅).
Proof.
  intros Hwm.
  pose proof (matched_run opts ext evs ∅ (init force_interactive) (fun _ => [])
                (matched_init force_interactive) Hwm) as Hm.
  set (st := fst (run opts ext (init force_interactive) evs)) in *.
  assert (Hlive : forall id,
    live st id <-> exists h, h ∈ busy_after ∅ evs /\ _hosts st !! h = Some id).
  { intros id. split.
    - intros Hl.
      destruct (live_created opts ext evs (init force_interactive) (fun _ => []))
        with (id := id) as [h Hh]; [|exact Hl|].
      { intros id0 Hl0. exfalso. unfold live in Hl0. cbn [init _progress_tasks] in Hl0.
        rewrite lookup_empty in Hl0. destruct Hl0 as [? Hl0]. discriminate. }
      exists h.
      assert (Hin : In id (List.filter (liveb st)
                             ([] ++ created_for opts ext h (init force_interactive) evs))).
      { apply List.filter_In. split; [exact Hh|]. apply liveb_true. exact Hl. }
      destruct (decide (h ∈ busy_after ∅ evs)) as [Hb|Hnb].
      + split; [exact Hb|].
        destruct (matched_busy _ _ _ Hm h Hb) as (id' & Ht & _ & Hf).
        rewrite Hf in Hin. destruct Hin as [<-|Hin]; [exact Ht | destruct Hin].
      + rewrite (matched_idle _ _ _ Hm h Hnb) in Hin. destruct Hin.
    - intros (h & Hb & Ht).
      destruct (matched_busy _ _ _ Hm h Hb) as (id' & Ht' & Hl & _).
      rewrite Ht in Ht'. injection Ht' as ->. exact Hl. }
  split; [exact Hlive|].
  intros Hempty. apply map_empty. intros id.
  destruct (_progress_tasks st !! id) eqn:Hid; [exfalso|reflexivity].
  assert (Hl : live st id) by (unfold live; rewrite Hid; eauto).
  apply Hlive in Hl as (h & Hb & _). rewrite Hempty in Hb.
  apply not_elem_of_empty in Hb. exact Hb.
Qed.

Definition two_tasks : list event :=
  [RunnerStart "web1" (plain_task "command" false);
   RunnerStart "db1" (plain_task "command" false);
   RunnerOk (plain_result "command" false false) (S754_zero false)].

Lemma live_slots_are_running_hosts_witness :
  well_matched ∅ two_tasks = true
  /\ forall id,
       live (fst (run quiet_options plain_collaborators (init true) two_tasks)) id
       <-> exists h, h ∈ busy_after ∅ two_tasks
                     /\ _hosts (fst (run quiet_options plain_collaborators (init true)
                                       two_tasks)) !! h = Some id.
Proof.
  split; [reflexivity|].
  apply (live_slots_are_running_hosts quiet_options plain_collaborators true two_tasks).
  reflexivity.
Defined.

End Lifecycle.

(* ===================================================================== *)
(** ** The sequence of the banners *)
(* ===================================================================== *)

Module BannerSequence.

Import Visibility Shaping Dispatch Tracker RoleBanner.

(** The banners of an output, in the order they were printed. *)
Definition banners (out : list printed) : list printed :=
  List.filter is_role_banner out.

(** No line is followed by an equal one. *)
Fixpoint adjacent_distinct (l : list printed) : Prop :=
  match l with
  | a :: (b :: _) as l' => a <> b /\ adjacent_distinct l'
  | _ => True
  end.

Lemma adjacent_distinct_snoc (l : list printed) (x : printed) :
  adjacent_distinct l -> last l <> Some x -> adjacent_distinct (l ++ [x]).
Proof.
  induction l as [|a l IH]; intros Hl Hlast; [exact I|].
  destruct l as [|b l].
  - cbn. split; [|exact I]. intros ->. apply Hlast. reflexivity.
  - cbn [app adjacent_distinct] in *. destruct Hl as [Hab Hl]. split; [exact Hab|].
    apply IH; [exact Hl|]. exact Hlast.
Qed.

Lemma banners_app (a b : list printed) : banners (a ++ b) = banners a ++ banners b.
Proof. apply List.filter_app. Qed.

Lemma banners_quiet (out : list printed) : quiet out = true -> banners out = [].
Proof.
  intros H. apply quiet_no_banner in H. unfold no_banner, banners in *.
  induction out as [|p out IH]; [reflexivity|].
  cbn [forallb List.filter] in *. apply andb_true_iff in H as [Hp Hout].
  apply negb_true_iff in Hp. rewrite Hp. auto.
Qed.

Lemma banner_line_inj (a b : string) : banner_line a = banner_line b -> a = b.
Proof.
  unfold banner_line, role_banner. cbn [role_text]. intros H.
  apply (f_equal (fun p => match p with
                           | Print _ [_; RStr s] => s
                           | _ => EmptyString
                           end)) in H.
  cbv beta iota in H. apply banner_text_inj. exact H.
Qed.

(** The banners a step prints: the banner of the current role, when the step
    logs while the banner is pending. *)
Lemma step_banners (opts : options) (ext : collaborators) (st : state) (ev : event) :
  role_inv (view st) ->
  (banners (snd (step opts ext st ev)) = []
   /\ _last_printed_role (fst (step opts ext st ev)) = _last_printed_role st)
  \/ (exists r, r <> "None" /\ _last_printed_role st <> Some r
                /\ banners (snd (step opts ext st ev)) = [banner_line r]
                /\ _last_printed_role (fst (step opts ext st ev)) = Some r).
Proof.
  intros Hinv.
  destruct (step_roles opts ext st ev)
    as (arm & logs & q & rest & _ & _ & Hq & Hqb & Hrest & Hv & Hout).
  pose proof (role_inv_after_arm (view st) arm Hinv) as Hinv'.
  assert (Hlast : snd (fst (after_arm (view st) arm)) = _last_printed_role st).
  { destruct arm; reflexivity. }
  assert (Hview : snd (fst (view (fst (step opts ext st ev))))
                  = _last_printed_role (fst (step opts ext st ev))) by reflexivity.
  rewrite Hv in Hview. rewrite Hout. clear Hv Hout.
  destruct (after_arm (view st) arm) as [[c l] sp]. cbn [fst snd] in *. subst l.
  unfold log_output, after_log in *. cbn [fst snd] in *.
  destruct logs; cbn [andb] in *.
  - destruct sp.
    + right. destruct Hinv' as [Hp _]. destruct (Hp eq_refl) as (r & Hc & Hn & Hl).
      cbn [fst snd] in Hc, Hl, Hview. rewrite Hc in Hview. rewrite Hc.
      exists r. split; [exact Hn|]. split; [exact Hl|].
      split; [|symmetry; exact Hview].
      unfold banners. cbn [List.filter].
      change (is_role_banner (Print false (RTimestamp :: role_banner (Some r)))) with true.
      cbv iota. rewrite Hqb. fold (banners rest). rewrite (banners_quiet rest Hrest).
      reflexivity.
    + left. cbn [fst snd] in Hview. split; [|symmetry; exact Hview].
      unfold banners. cbn [List.filter]. rewrite Hqb. fold (banners rest).
      apply banners_quiet. exact Hrest.
  - left. cbn [fst snd] in Hview. split; [|symmetry; exact Hview].
    apply banners_quiet. exact Hrest.
Qed.

(** X16: the banners of a run.  In the output of any stream from a fresh
    plugin no banner is followed by the banner of the same role: between two
    banners of a role the banner of another role is printed.  Every banner
    names a role other than ["None"], and [_last_printed_role] is the role of
    the banner printed last. *)
Theorem consecutive_banners_differ :
  forall (opts : options) (ext : collaborators) (force_interactive : bool)
         (evs : list event),
    adjacent_distinct (banners (snd (run opts ext (init force_interactive) evs)))
    /\ (forall p, In p (banners (snd (run opts ext (init force_interactive) evs))) ->
                  exists r, r <> "None" /\ p = banner_line r)
    /\ last (banners (snd (run opts ext (init force_interactive) evs)))
       = option_map banner_line
           (_last_printed_role (fst (run opts ext (init force_interactive) evs))).
Proof.
  intros opts ext b evs. induction evs as [|ev evs IH] using rev_ind.
  - cbn. split; [exact I|]. split; [intros p []|reflexivity].
  - destruct IH as (Hadj & Hall & Hlast).
    rewrite run_app. cbn [fst snd].
    set (st := fst (run opts ext (init b) evs)) in *.
    set (out := snd (run opts ext (init b) evs)) in *.
    assert (Hstep : run opts ext st [ev] = step opts ext st ev).
    { cbn [run]. destruct (step opts ext st ev) as [st1 out1].
      rewrite List.app_nil_r. reflexivity. }
    rewrite Hstep, banners_app.
    assert (Hinv : role_inv (view st)) by apply role_inv_run, role_inv_init.
    destruct (step_banners opts ext st ev Hinv) as [[Hb Hl]|(r & Hn & Hne & Hb & Hl)];
      rewrite Hb, Hl.
    + rewrite List.app_nil_r. auto.
    + split; [|split].
      * apply adjacent_distinct_snoc; [exact Hadj|].
        rewrite Hlast. destruct (_last_printed_role st) as [r0|]; [|discriminate].
        cbn [option_map]. intros H.
        assert (Heq : banner_line r0 = banner_line r) by congruence.
        apply banner_line_inj in Heq. congruence.
      * intros p Hin. apply List.in_app_or in Hin as [Hin|[<-|[]]]; [auto|eauto].
      * rewrite last_snoc. reflexivity.
Qed.

(** *** The role of the banner *)

(** The role of the finishing event that was handled last: the event of a host
    that had started. *)
Fixpoint last_finished_role (started : gset string) (role : option string)
    (evs : list event) : option string :=
  match evs with
  | [] => role
  | ev :: evs' =>
      match ev with
      | RunnerStart h _ => last_finished_role ({[h]} ∪ started) role evs'
      | _ =>
          match finished_result ev with
          | Some r =>
              if bool_decide (_host r ∈ started)
              then last_finished_role started (Some (task_role_name (_task r))) evs'
              else last_finished_role started role evs'
          | None => last_finished_role started role evs'
          end
      end
  end.

(** An event that writes with [_log_task] without a call of [_handle_role]. *)
Definition logs_without_role (ev : event) : bool :=
  match ev with
  | RunnerRetry _ | NoHostsMatched => true
  | _ => false
  end.

Lemma step_current_role (opts : options) (ext : collaborators) (st : state) (ev : event) :
  _current_role (fst (step opts ext st ev))
  = match finished_result ev with
    | Some r => if bool_decide (is_Some (_hosts st !! _host r))
                then Some (task_role_name (_task r)) else _current_role st
    | None => _current_role st
    end.
Proof.
  destruct (step_roles opts ext st ev)
    as (arm & logs & q & rest & Harm & Hfin & _ & _ & _ & Hv & _).
  assert (Hcur : _current_role (fst (step opts ext st ev))
                 = fst (fst (after_log (after_arm (view st) arm) logs))).
  { rewrite <- Hv. reflexivity. }
  assert (Hlog : forall v, fst (fst (after_log v logs)) = fst (fst v)).
  { intros [[c l] sp]. unfold after_log. destruct (logs && sp); reflexivity. }
  rewrite Hlog in Hcur.
  destruct (finished_result ev) as [r|] eqn:Hf.
  - destruct (bool_decide (is_Some (_hosts st !! _host r))) eqn:Hin.
    + apply bool_decide_eq_true in Hin. rewrite (Hfin r eq_refl Hin) in Hcur. exact Hcur.
    + apply bool_decide_eq_false in Hin.
      assert (Hnone : _hosts st !! _host r = None).
      { destruct (_hosts st !! _host r); [exfalso; apply Hin; eauto | reflexivity]. }
      pose proof (on_finished_task_slots opts ext st r) as Hraise.
      rewrite Hnone in Hraise.
      destruct ev; try discriminate; injection Hf as ->;
        unfold step, handle; rewrite Hraise; reflexivity.
  - destruct Harm as [->| ->]; [exact Hcur|].
    unfold finished_role in Hcur. rewrite Hf in Hcur. exact Hcur.
Qed.

Lemma current_role_run (opts : options) (ext : collaborators) (evs : list event) :
  forall st started,
    (forall h, is_Some (_hosts st !! h) <-> h ∈ started) ->
    _current_role (fst (run opts ext st evs))
    = last_finished_role started (_current_role st) evs.
Proof.
  induction evs as [|ev evs IH]; intros st started Hdom; [reflexivity|].
  rewrite run_cons_state.
  pose proof (step_current_role opts ext st ev) as Hcur.
  pose proof (step_slots opts ext st ev) as Hslots. cbv zeta in Hslots.
  cbn [last_finished_role].
  destruct ev;
    try (destruct Hslots as (Hh & _);
         cbn [finished_result] in *;
         first
           [ rewrite (IH (fst (step opts ext st _)) started), Hcur;
             [reflexivity | intros h; rewrite Hh; apply Hdom]
           | match goal with
             | |- context [bool_decide (_host ?r ∈ started)] =>
                 rewrite (IH (fst (step opts ext st _)) started), Hcur;
                 [|intros h; rewrite Hh; apply Hdom];
                 rewrite (bool_decide_ext (is_Some (_hosts st !! _host r))
                            (_host r ∈ started) (Hdom (_host r)));
                 destruct (bool_decide (_host r ∈ started)); reflexivity
             end ]).
  destruct Hslots as (Hh & _).
  rewrite (IH (fst (step opts ext st (RunnerStart host t))) ({[host]} ∪ started)), Hcur.
  - reflexivity.
  - intros h. rewrite Hh. destruct (decide (h = host)) as [->|Hne].
    + rewrite lookup_insert_eq. split; [|eauto].
      intros _. apply elem_of_union. left. apply elem_of_singleton. reflexivity.
    + rewrite lookup_insert_ne by congruence.
      rewrite Hdom, elem_of_union, elem_of_singleton.
      split; [auto | intros [?|?]; [congruence | assumption]].
Qed.

(** X17: a line without a role.  A retry and "No hosts matched" are written
    with [_log_task] but without [_handle_role]: the banner such an event
    prints, if it prints one, is the banner of the role of the finishing event
    that was handled last, the one that was pending, and not that of the task
    that is retried.  A retry whose result holds no [retries] or no
    [attempts] raises [KeyError] and prints nothing. *)
Theorem unrelated_banner_before_retry :
  forall (opts : options) (ext : collaborators) (force_interactive : bool)
         (evs : list event) (ev : event),
    logs_without_role ev = true ->
    (banners (snd (step opts ext (fst (run opts ext (init force_interactive) evs)) ev)) = []
     \/ exists r,
          last_finished_role ∅ None evs = Some r
          /\ banners (snd (step opts ext (fst (run opts ext (init force_interactive) evs)) ev))
             = [banner_line r])
    /\ (forall result,
          ev = RunnerRetry result ->
          (dict_get "retries" (_result result) = None ->
           handle opts ext (fst (run opts ext (init force_interactive) evs)) ev
           = Raised (KeyError "retries"))
          /\ (dict_get "retries" (_result result) <> None ->
              dict_get "attempts" (_result result) = None ->
              handle opts ext (fst (run opts ext (init force_interactive) evs)) ev
              = Raised (KeyError "attempts"))
          /\ (forall e, handle opts ext (fst (run opts ext (init force_interactive) evs)) ev
                        = Raised e ->
                        snd (step opts ext (fst (run opts ext (init force_interactive) evs)) ev)
                        = [])).
Proof.
  intros opts ext b evs ev Hev.
  set (st := fst (run opts ext (init b) evs)).
  assert (Hinv : role_inv (view st)) by apply role_inv_run, role_inv_init.
  assert (Hrole : _current_role st = last_finished_role ∅ None evs).
  { unfold st. rewrite (current_role_run opts ext evs (init b) ∅); [reflexivity|].
    intros h. cbn [init _hosts]. rewrite lookup_empty. split.
    - intros [? H]. discriminate.
    - intros H. apply not_elem_of_empty in H. destruct H. }
  split.
  - destruct (step_roles opts ext st ev)
      as (arm & logs & q & rest & Harm & _ & _ & Hqb & Hrest & _ & Hout).
    assert (Hnone : arm = None).
    { destruct Harm as [->| ->]; [reflexivity|]. destruct ev; try discriminate; reflexivity. }
    subst arm. cbn [after_arm] in Hout. rewrite Hout.
    unfold log_output, view. cbn [fst snd].
    destruct logs; [|left; apply banners_quiet; exact Hrest].
    destruct (_should_print_role st) eqn:Hsp.
    + right. destruct Hinv as [Hp _]. cbn [view fst snd] in Hp.
      destruct (Hp Hsp) as (r & Hc & _). exists r. rewrite <- Hrole. split; [exact Hc|].
      rewrite Hc. unfold banners. cbn [List.filter].
      change (is_role_banner (Print false (RTimestamp :: role_banner (Some r)))) with true.
      cbv iota. rewrite Hqb. fold (banners rest). rewrite (banners_quiet rest Hrest).
      reflexivity.
    + left. unfold banners. cbn [List.filter]. rewrite Hqb. fold (banners rest).
      apply banners_quiet. exact Hrest.
  - intros result ->. cbn [handle]. unfold v2_runner_retry, step. cbn [handle].
    unfold v2_runner_retry. cbv beta iota zeta delta [_get_task_infos].
    unfold retries_left. split; [|split].
    + intros ->. reflexivity.
    + intros Hr ->. destruct (dict_get "retries" (_result result)); [reflexivity|congruence].
    + intros e.
      destruct (dict_get "retries" (_result result)) as [r|]; [|reflexivity].
      destruct (dict_get "attempts" (_result result)) as [a|]; [|reflexivity].
      destruct r, a; try reflexivity. discriminate.
Qed.

(** A task of role [web] that ends without a line, then a retry of a task of
    role [db]. *)
Definition silent_then_retry : list event :=
  [started (Some "web"); finished_ok (Some "web")].

Definition retry_of_db : event :=
  RunnerRetry {| _host := "web1"; _task := role_task "command" (Some "db");
                 _result := [("retries", PInt 3); ("attempts", PInt 1)];
                 is_changed := false |}.

Lemma unrelated_banner_before_retry_witness :
  logs_without_role retry_of_db = true
  /\ banners (snd (step quiet_options plain_collaborators
                     (fst (run quiet_options plain_collaborators (init true)
                             silent_then_retry)) retry_of_db))
     = [banner_line "web"]
  /\ (banners (snd (step quiet_options plain_collaborators
                      (fst (run quiet_options plain_collaborators (init true)
                              silent_then_retry)) retry_of_db)) = []
      \/ exists r,
           last_finished_role ∅ None silent_then_retry = Some r
           /\ banners (snd (step quiet_options plain_collaborators
                              (fst (run quiet_options plain_collaborators (init true)
                                      silent_then_retry)) retry_of_db))
              = [banner_line r]).
Proof.
  split; [reflexivity|]. split; [vm_compute; reflexivity|].
  apply (unrelated_banner_before_retry quiet_options plain_collaborators true
           silent_then_retry retry_of_db).
  reflexivity.
Defined.

(** *** A line and its banner *)

Lemma existsb_task_line_quiet (out : list printed) :
  quiet out = true -> existsb is_task_line out = false.
Proof.
  unfold quiet. induction out as [|p out IH]; [reflexivity|].
  cbn [forallb existsb]. intros H. apply andb_true_iff in H as [Hp Hout].
  apply andb_true_iff in Hp as [_ Hp]. apply negb_true_iff in Hp.
  rewrite Hp, (IH Hout). reflexivity.
Qed.

Lemma last_banners (opts : options) (ext : collaborators) (b : bool) (evs : list event) :
  last (banners (snd (run opts ext (init b) evs)))
  = option_map banner_line (_last_printed_role (fst (run opts ext (init b) evs))).
Proof.
  induction evs as [|ev evs IH] using rev_ind; [reflexivity|].
  rewrite run_app. cbn [fst snd].
  set (st := fst (run opts ext (init b) evs)) in *.
  assert (Hstep : run opts ext st [ev] = step opts ext st ev).
  { cbn [run]. destruct (step opts ext st ev) as [st1 out1].
    rewrite List.app_nil_r. reflexivity. }
  rewrite Hstep, banners_app.
  assert (Hinv : role_inv (view st)) by apply role_inv_run, role_inv_init.
  destruct (step_banners opts ext st ev Hinv) as [[Hb Hl]|(r & _ & _ & Hb & Hl)];
    rewrite Hb, Hl.
  - rewrite List.app_nil_r. exact IH.
  - rewrite last_snoc. reflexivity.
Qed.

(** X18: a line stands under the banner of its role.  When a finishing event
    of a task with a role writes its line, the banner printed last, up to and
    with this event, is the banner of that role: read from the line upwards,
    the first banner is the one of the role of the task. *)
Theorem task_line_under_its_banner
    (opts : options) (ext : collaborators) (force_interactive : bool)
    (pre : list event) (ev : event) (r : task_result) :
  finished_result ev = Some r ->
  task_role_name (_task r) <> "None" ->
  existsb is_task_line
    (snd (step opts ext (fst (run opts ext (init force_interactive) pre)) ev)) = true ->
  last (banners (snd (run opts ext (init force_interactive) (pre ++ [ev]))))
  = Some (banner_line (task_role_name (_task r))).
Proof.
  intros Hfin Hrole Hline.
  rewrite last_banners, run_app. cbn [fst].
  set (st := fst (run opts ext (init force_interactive) pre)) in *.
  assert (Hstep : fst (run opts ext st [ev]) = fst (step opts ext st ev)).
  { cbn [run]. destruct (step opts ext st ev) as [st1 out1]. reflexivity. }
  rewrite Hstep.
  assert (Hinv : role_inv (view st)) by apply role_inv_run, role_inv_init.
  assert (Hknown : is_Some (_hosts st !! _host r)).
  { destruct (_hosts st !! _host r) eqn:Hh; [eauto|]. exfalso.
    pose proof (on_finished_task_slots opts ext st r) as Hraise. rewrite Hh in Hraise.
    destruct ev; try discriminate; injection Hfin as ->;
      unfold step, handle in Hline; rewrite Hraise in Hline; discriminate. }
  destruct (step_roles opts ext st ev)
    as (arm & logs & q & rest & _ & Harm & _ & _ & Hrest & Hv & Hout).
  rewrite (Harm r Hfin Hknown) in Hv, Hout.
  assert (Hlogs : logs = true).
  { destruct logs; [reflexivity|]. rewrite Hout in Hline. unfold log_output in Hline.
    rewrite (existsb_task_line_quiet rest Hrest) in Hline. discriminate. }
  subst logs.
  assert (Hlast : _last_printed_role (fst (step opts ext st ev))
                  = snd (fst (view (fst (step opts ext st ev))))) by reflexivity.
  rewrite Hlast, Hv. clear Hlast Hv Hout.
  set (R := task_role_name (_task r)) in *.
  pose proof (armed_view_true (view st) R Hinv) as Harmed.
  unfold after_arm, after_log. cbn [fst snd andb].
  destruct (armed_view (view st) R) eqn:Ha; cbn [fst snd option_map]; [reflexivity|].
  destruct (view st) as [[c l] sp]. cbn [fst snd] in *.
  destruct (decide (l = Some R)) as [->|Hne]; [reflexivity|].
  exfalso. assert (false = true) by (apply Harmed; auto). discriminate.
Qed.

(** Roles [web], [db], no role, and [web] again. *)
Definition back_to_web : list event :=
  [started (Some "web"); finished_failed (Some "web");
   started (Some "db"); finished_failed (Some "db");
   started None; finished_failed None;
   started (Some "web")].

Lemma task_line_under_its_banner_witness :
  last (banners (snd (run quiet_options plain_collaborators (init true)
                        (back_to_web ++ [finished_failed (Some "web")]))))
  = Some (banner_line (task_role_name (_task (role_result (Some "web"))))).
Proof.
  apply (task_line_under_its_banner quiet_options plain_collaborators true
           back_to_web (finished_failed (Some "web")) (role_result (Some "web"))).
  - reflexivity.
  - discriminate.
  - vm_compute. reflexivity.
Defined.

End BannerSequence.

(* ===================================================================== *)
(** ** The recap *)
(* ===================================================================== *)

Module Recap.









End Recap.

(* ===================================================================== *)
(** ** The transformer of the user *)
(* ===================================================================== *)

Module TransformerOption.

(** [s.split(sep)] for a separator of one character. *)
Fixpoint str_split (sep : ascii) (s : string) : list string :=
  match s with
  | EmptyString => [EmptyString]
  | String c s' =>
      if Ascii.eqb c sep then EmptyString :: str_split sep s'
      else match str_split sep s' with
           | part :: parts => String c part :: parts
           | [] => [String c EmptyString]
           end
  end.

(** [s.count(c)] *)
Fixpoint count (c : ascii) (s : string) : nat :=
  match s with
  | EmptyString => 0
  | String x s' => (if Ascii.eqb x c then 1 else 0) + count c s'
  end.

(** The exceptions of this part. *)
Inductive load_error :=
| ValueError (message : string)
| ImportError (module_name : string)
| AttributeError (module_name name : string)
| TypeError (message : string).

Inductive loaded (A : Type) :=
| Loaded (a : A)
| NotLoaded (e : load_error).
Arguments Loaded {A} a.
Arguments NotLoaded {A} e.

(** What [getattr(module, name)] can give: a type, with the answer of
    [issubclass(_, BaseRLOTransformer)] and what its call gives (an instance,
    or the exception it raises, as for an abstract class), or an object that
    is not a type. *)
Inductive py_object :=
| PyType (subclass_of_base : bool) (instance : loaded transformer)
| PyNotAType.

(** A module: its attributes. *)
Definition py_module := string -> option py_object.

(** What the plugin keeps of the transformer of the user, and how often the
    working directory was appended to [sys.path].  The source keeps the
    transformer and its callback in two attributes, assigned one after the
    other by statements of which the second cannot raise: they are [None]
    together, and the callback is [get_transform_callback] of the
    transformer. *)
Record user_transformer_state := {
  _transformer_user : option transformer;
  sys_path_appends : nat;
}.

Section Loading.

(** The interpreter: [importlib.import_module], which gives a module or
    raises, and [sys.modules["__main__"]]. *)
Variable import_module : string -> loaded py_module.
Variable main_module : py_module.

(** transformers/__init__.py, [arbitrary_import] *)
Definition arbitrary_import (module_name : string) : loaded py_module :=
  if String.eqb module_name "__main__" then Loaded main_module
  else import_module module_name.

(** [get_transformer_class]; the value is what the class gives when it is
    called. *)
Definition get_transformer_class (module_name transformer_name : string)
    : loaded (loaded transformer) :=
  match arbitrary_import module_name with
  | NotLoaded e => NotLoaded e
  | Loaded module =>
      match module transformer_name with
      | None => NotLoaded (AttributeError module_name transformer_name)
      | Some PyNotAType =>
          NotLoaded (TypeError ("'" +:+ transformer_name +:+ "' from '" +:+ module_name
                                +:+ "' is not a type!"))
      | Some (PyType false _) =>
          NotLoaded (TypeError ("'" +:+ transformer_name +:+ "' from '" +:+ module_name
                                +:+ "' is not a subclass of BaseRLOTransformer!"))
      | Some (PyType true instance) => Loaded instance
      end
  end.

(** [init_transformer] *)
Definition init_transformer (module_name transformer_name : string)
    : loaded transformer :=
  match get_transformer_class module_name transformer_name with
  | NotLoaded e => NotLoaded e
  | Loaded cls => cls
  end.

(** rlo_cb.py, [CallbackModule._transform_dict] with its first part: the
    option [rlo_transformer]
    is read, split and resolved while no transformer is kept. *)
Definition _transform_dict_with_option (st : user_transformer_state) (rlo_transformer : string)
    (input : pyval) : user_transformer_state * loaded pyval :=
  match _transformer_user st with
  | Some t => (st, Loaded (transform_dict input (get_transform_callback t)))
  | None =>
      match str_split "/" rlo_transformer with
      | [potential_transformer_module; potential_transformer_name] =>
          let '(module_name, appends) :=
            if String.eqb potential_transformer_module ""
            then ("rlo.transformers", sys_path_appends st)
            else (potential_transformer_module, S (sys_path_appends st)) in
          match init_transformer module_name potential_transformer_name with
          | NotLoaded e =>
              ({| _transformer_user := None; sys_path_appends := appends |}, NotLoaded e)
          | Loaded t =>
              ({| _transformer_user := Some t; sys_path_appends := appends |},
               Loaded (transform_dict input (get_transform_callback t)))
          end
      | _ => (st, NotLoaded (ValueError "`rlo_transformer` option is malformed!"))
      end
  end.

End Loading.

(** An interpreter for the examples: the working directory holds one module,
    [site_transformers], with a transformer class [Quiet] that answers as
    [Dummy] does, an abstract class [Base] and a constant [VERSION]. *)
Definition site_transformers : py_module :=
  fun name =>
    if String.eqb name "Quiet" then Some (PyType true (Loaded Dummy))
    else if String.eqb name "Base"
    then Some (PyType true (NotLoaded (TypeError "Can't instantiate abstract class Base")))
    else if String.eqb name "VERSION" then Some PyNotAType
    else None.

Definition site_import (module_name : string) : loaded py_module :=
  if String.eqb module_name "site_transformers" then Loaded site_transformers
  else NotLoaded (ImportError module_name).

Definition no_main : py_module := fun _ => None.

Definition fresh : user_transformer_state :=
  {| _transformer_user := None; sys_path_appends := 0 |}.

(** *** Splitting *)

Lemma str_split_not_nil (sep : ascii) (s : string) : str_split sep s <> [].
Proof.
  destruct s as [|c s]; cbn [str_split]; [discriminate|].
  destruct (Ascii.eqb c sep); [discriminate|].
  destruct (str_split sep s); discriminate.
Qed.

Lemma str_split_length (sep : ascii) (s : string) :
  length (str_split sep s) = S (count sep s).
Proof.
  induction s as [|c s IH]; [reflexivity|].
  cbn [str_split count]. destruct (Ascii.eqb c sep).
  - cbn [length]. rewrite IH. reflexivity.
  - destruct (str_split sep s) as [|part parts] eqn:Hs; [destruct (str_split_not_nil sep s Hs)|].
    cbn [length] in *. rewrite IH. reflexivity.
Qed.

Lemma str_split_no_sep (sep : ascii) (s : string) :
  count sep s = 0%nat -> str_split sep s = [s].
Proof.
  induction s as [|c s IH]; [reflexivity|].
  cbn [str_split count]. destruct (Ascii.eqb c sep); [discriminate|].
  intros H. rewrite (IH H). reflexivity.
Qed.

Lemma str_split_two (sep : ascii) (s a b : string) :
  str_split sep s = [a; b] <->
  s = a +:+ String sep b /\ count sep a = 0%nat /\ count sep b = 0%nat.
Proof.
  revert a. induction s as [|c s IH]; intros a.
  - cbn [str_split]. split; [discriminate|].
    intros (H & _). destruct a; discriminate.
  - cbn [str_split]. destruct (Ascii.eqb_spec c sep) as [->|Hne].
    + split.
      * intros H. injection H as <- Hs.
        assert (Hlen : length (str_split sep s) = 1%nat) by (rewrite Hs; reflexivity).
        rewrite str_split_length in Hlen.
        assert (Hc : count sep s = 0%nat) by lia.
        rewrite (str_split_no_sep sep s Hc) in Hs. injection Hs as ->. auto.
      * intros (Hs & Ha & Hb). destruct a as [|x a].
        -- injection Hs as ->. rewrite (str_split_no_sep sep b Hb). reflexivity.
        -- rewrite Sanitizing.append_cons in Hs. injection Hs as <- _.
           cbn [count] in Ha. rewrite Ascii.eqb_refl in Ha. discriminate.
    + split.
      * intros H. destruct (str_split sep s) as [|part parts] eqn:Hs; [discriminate|].
        injection H as <- ->.
        destruct (proj1 (IH part) eq_refl) as (-> & Ha & Hb).
        split; [reflexivity|]. split; [|exact Hb].
        cbn [count]. destruct (Ascii.eqb_spec c sep); [congruence|]. exact Ha.
      * intros (Hs & Ha & Hb). destruct a as [|x a].
        -- injection Hs as -> _. congruence.
        -- rewrite Sanitizing.append_cons in Hs. injection Hs as <- ->.
           cbn [count] in Ha. destruct (Ascii.eqb_spec c sep); [congruence|].
           rewrite (proj2 (IH a) (conj eq_refl (conj Ha Hb))). reflexivity.
Qed.

(** X20: the form of the option [rlo_transformer].  While no transformer is
    kept, [_transform_dict] accepts the option exactly when it holds one
    slash: it splits into a module and a name, neither with a slash, whose
    concatenation around the slash is the option; an empty module stands for
    [rlo.transformers].  Every other option (no slash, or a path with more
    than one) raises [ValueError] before anything is imported and changes
    nothing. *)
Theorem rlo_transformer_option_format :
  forall (import_module : string -> loaded py_module) (main_module : py_module)
         (st : user_transformer_state) (rlo_transformer : string) (input : pyval),
    _transformer_user st = None ->
    (count "/" rlo_transformer <> 1%nat ->
     _transform_dict_with_option import_module main_module st rlo_transformer input
     = (st, NotLoaded (ValueError "`rlo_transformer` option is malformed!")))
    /\ (count "/" rlo_transformer = 1%nat ->
        exists module_part name,
          rlo_transformer = module_part +:+ "/" +:+ name
          /\ count "/" module_part = 0%nat /\ count "/" name = 0%nat
          /\ snd (_transform_dict_with_option import_module main_module st rlo_transformer input)
             = match init_transformer import_module main_module
                       (if String.eqb module_part "" then "rlo.transformers"
                        else module_part) name with
               | Loaded t => Loaded (transform_dict input (get_transform_callback t))
               | NotLoaded e => NotLoaded e
               end).
Proof.
  intros import_module main_module st rlo_transformer input Hnone.
  unfold _transform_dict_with_option. rewrite Hnone.
  pose proof (str_split_length "/" rlo_transformer) as Hlen.
  split.
  - intros Hc.
    destruct (str_split "/" rlo_transformer) as [|a [|b [|c l]]]; try reflexivity.
    cbn [length] in Hlen. exfalso. apply Hc. lia.
  - intros Hc. rewrite Hc in Hlen.
    destruct (str_split "/" rlo_transformer) as [|a [|b [|c l]]] eqn:Hs; try discriminate.
    apply str_split_two in Hs as (Heq & Ha & Hb).
    exists a, b. split; [exact Heq|]. split; [exact Ha|]. split; [exact Hb|].
    destruct (String.eqb a "");
      match goal with |- context [init_transformer ?i ?m ?x ?y] =>
        destruct (init_transformer i m x y) end; reflexivity.
Qed.

Lemma rlo_transformer_option_format_witness :
  _transformer_user fresh = None
  /\ (count "/" "roles/my/Upper" <> 1%nat ->
      _transform_dict_with_option site_import no_main fresh "roles/my/Upper" (PStr "x")
      = (fresh, NotLoaded (ValueError "`rlo_transformer` option is malformed!")))
  /\ _transform_dict_with_option site_import no_main fresh "site_transformers/Quiet" (PStr "x")
     = ({| _transformer_user := Some Dummy; sys_path_appends := 1 |},
        Loaded (PStr "RLODUMMYTRANSFORMER")).
Proof.
  split; [reflexivity|]. split; [|reflexivity].
  apply (rlo_transformer_option_format site_import no_main fresh
           "roles/my/Upper" (PStr "x")).
  reflexivity.
Defined.

(** X21: the transformer is resolved once.  Once a call of [_transform_dict]
    has resolved a transformer, every later call uses it, whatever the option
    then says, and neither imports nor touches [sys.path].  A call that fails
    keeps no transformer, so the next call starts over; and each call that
    gets as far as the import with a module of the user appends the working
    directory to [sys.path], once more for every failure. *)
Theorem transformer_resolved_once :
  forall (import_module : string -> loaded py_module) (main_module : py_module)
         (st : user_transformer_state) (rlo_transformer : string) (input : pyval),
    let st' := fst (_transform_dict_with_option import_module main_module st rlo_transformer input) in
    (forall t,
       _transformer_user st = Some t ->
       forall option' input',
         _transform_dict_with_option import_module main_module st option' input'
         = (st, Loaded (transform_dict input' (transform t))))
    /\ (forall v,
          snd (_transform_dict_with_option import_module main_module st rlo_transformer input)
          = Loaded v ->
          exists t, _transformer_user st' = Some t
                    /\ v = transform_dict input (transform t))
    /\ (forall e,
          snd (_transform_dict_with_option import_module main_module st rlo_transformer input)
          = NotLoaded e ->
          _transformer_user st' = None)
    /\ (_transformer_user st = None ->
        sys_path_appends st'
        = match str_split "/" rlo_transformer with
          | [module_part; _] =>
              if String.eqb module_part "" then sys_path_appends st
              else S (sys_path_appends st)
          | _ => sys_path_appends st
          end).
Proof.
  intros import_module main_module st rlo_transformer input st'. subst st'.
  unfold _transform_dict_with_option. split; [|split; [|split]].
  - intros t -> option' input'. reflexivity.
  - intros v. destruct (_transformer_user st) as [t|] eqn:Ht.
    + cbn [fst snd]. intros H. injection H as <-. eauto.
    + destruct (str_split "/" rlo_transformer) as [|a [|b [|c l]]]; cbn [fst snd];
        try discriminate.
      destruct (String.eqb a "");
        match goal with |- context [init_transformer ?i ?m ?x ?y] =>
          destruct (init_transformer i m x y) as [t|e] end; cbn [fst snd];
        try discriminate; intros H; injection H as <-; eauto.
  - intros e. destruct (_transformer_user st) as [t|] eqn:Ht.
    + cbn [fst snd]. discriminate.
    + destruct (str_split "/" rlo_transformer) as [|a [|b [|c l]]]; cbn [fst snd];
        try (intros _; exact Ht).
      destruct (String.eqb a "");
        match goal with |- context [init_transformer ?i ?m ?x ?y] =>
          destruct (init_transformer i m x y) as [t|e'] end; cbn [fst snd];
        try discriminate; reflexivity.
  - intros ->.
    destruct (str_split "/" rlo_transformer) as [|a [|b [|c l]]]; cbn [fst snd];
      try reflexivity.
    destruct (String.eqb a "");
      match goal with |- context [init_transformer ?i ?m ?x ?y] =>
        destruct (init_transformer i m x y) as [t|e'] end; reflexivity.
Qed.

End TransformerOption.

(* ===================================================================== *)
(** ** The text of a YAML payload *)
(* ===================================================================== *)

Module YamlText.

Local Open Scope N_scope.

(** A Python [str] as the sequence of its code points: the functions of this
    part test [ord(x)] and characters beyond ASCII. *)
Definition text := list N.

Definition LINE_FEED : N := 10.
Definition SPACE : N := 32.
Definition TABULATOR : N := 9.

(** [s.split(sep)] for a separator of one character. *)
Fixpoint text_split (sep : N) (s : text) : list text :=
  match s with
  | [] => [[]]
  | c :: s' =>
      if c =? sep then [] :: text_split sep s'
      else match text_split sep s' with
           | part :: parts => (c :: part) :: parts
           | [] => [[c]]
           end
  end.

(** [sep.join(parts)] *)
Fixpoint join (sep : text) (parts : list text) : text :=
  match parts with
  | [] => []
  | [part] => part
  | part :: parts' => part ++ sep ++ join sep parts'
  end.

(** [x.isspace()] for one character: the white space of Unicode. *)
Definition isspace (c : N) : bool :=
  ((9 <=? c) && (c <=? 13)) || ((28 <=? c) && (c <=? 32))
  || (c =? 133) || (c =? 160) || (c =? 5760)
  || ((8192 <=? c) && (c <=? 8202))
  || (c =? 8232) || (c =? 8233) || (c =? 8239) || (c =? 8287) || (c =? 12288).

(** [s.rstrip()] *)
Fixpoint rstrip (s : text) : text :=
  match s with
  | [] => []
  | c :: s' =>
      match rstrip s' with
      | [] => if isspace c then [] else [c]
      | r => c :: r
      end
  end.

(** rlo_cb.py, [get_yaml_string_from_result]; [dump] is
    [to_text(yaml.dump(result, ...))]. *)
Definition get_yaml_string_from_result (dump : pyval -> text) (result : pyval) : text :=
  let dumped := if truthy result then dump result else [] in
  [SPACE; SPACE] ++ rstrip (join [LINE_FEED; SPACE; SPACE] (text_split LINE_FEED dumped)).

(** rlo_cb.py, [should_use_block] *)
Definition should_use_block (value : text) : bool :=
  existsb (fun c => existsb (N.eqb c) value) [10; 13; 28; 29; 30; 133; 8232; 8233].

(** [x in string.printable]: digits, letters, punctuation and
    [' \t\n\r\x0b\x0c']. *)
Definition printable (c : N) : bool :=
  ((32 <=? c) && (c <=? 126)) || ((9 <=? c) && (c <=? 13)).

(** [s.expandtabs()], tab stops every 8 columns; the column starts again
    after a line feed and after a carriage return. *)
Fixpoint expandtabs_from (column : nat) (s : text) : text :=
  match s with
  | [] => []
  | c :: s' =>
      if c =? TABULATOR then
        let incr := (8 - column mod 8)%nat in
        repeat SPACE incr ++ expandtabs_from (column + incr) s'
      else
        c :: expandtabs_from (if (c =? 10) || (c =? 13) then 0%nat else S column) s'
  end.

Definition expandtabs (s : text) : text := expandtabs_from 0 s.

(** [re.sub(r' +\n', '\n', s)]: every run of spaces that ends at a line feed
    is removed. *)
Fixpoint strip_spaces_before_newline (s : text) : text :=
  match s with
  | [] => []
  | c :: s' =>
      match strip_spaces_before_newline s' with
      | d :: r => if (c =? SPACE) && (d =? LINE_FEED) then d :: r else c :: d :: r
      | [] => [c]
      end
  end.

(** The value of a block scalar, as [_yaml_dumper_represent_scalar] cleans
    it. *)
Definition block_value (value : text) : text :=
  let value := rstrip value in
  let value := List.filter (fun x => printable x || (160 <=? x)) value in
  let value := expandtabs value in
  let value := List.filter (fun x => negb ((x =? 11) || (x =? 12) || (x =? 13))) value in
  strip_spaces_before_newline value.

(** rlo_cb.py, [_yaml_dumper_represent_scalar]: the value and the style of the
    scalar node it makes. *)
Definition _yaml_dumper_represent_scalar (default_style : option string)
    (value : text) (style : option string) : text * option string :=
  match style with
  | None =>
      if should_use_block value then (block_value value, Some "|"%string)
      else (value, default_style)
  | Some _ => (value, style)
  end.

(** *** Properties of the helpers *)

Definition starts_indented (s : text) : bool :=
  match s with
  | a :: b :: _ => (a =? SPACE) && (b =? SPACE)
  | _ => false
  end.

(** Every line feed is followed by two spaces. *)
Fixpoint newlines_indented (s : text) : bool :=
  match s with
  | [] => true
  | c :: s' => (if c =? LINE_FEED then starts_indented s' else true) && newlines_indented s'
  end.

(** The text does not end with white space. *)
Definition ends_with_text (s : text) : Prop :=
  match last s with
  | Some c => isspace c = false
  | None => False
  end.

Lemma text_split_not_nil (sep : N) (s : text) : text_split sep s <> [].
Proof.
  destruct s as [|c s]; cbn [text_split]; [discriminate|].
  destruct (c =? sep); [discriminate|]. destruct (text_split sep s); discriminate.
Qed.

(** Joining the lines with the indentation puts two spaces after every line
    feed. *)
Lemma join_split_indent (s : text) :
  join [LINE_FEED; SPACE; SPACE] (text_split LINE_FEED s)
  = flat_map (fun c => if c =? LINE_FEED then [LINE_FEED; SPACE; SPACE] else [c]) s.
Proof.
  induction s as [|c s IH]; [reflexivity|].
  cbn [text_split flat_map]. rewrite <- IH.
  destruct (c =? LINE_FEED) eqn:Hc.
  - apply N.eqb_eq in Hc. subst c.
    destruct (text_split LINE_FEED s) as [|p ps] eqn:Hs; [destruct (text_split_not_nil LINE_FEED s Hs)|].
    reflexivity.
  - destruct (text_split LINE_FEED s) as [|p ps] eqn:Hs; [destruct (text_split_not_nil LINE_FEED s Hs)|].
    destruct ps; reflexivity.
Qed.

Lemma indent_newlines (s : text) :
  newlines_indented (flat_map (fun c => if c =? LINE_FEED then [LINE_FEED; SPACE; SPACE] else [c]) s)
  = true.
Proof.
  induction s as [|c s IH]; [reflexivity|].
  cbn [flat_map]. destruct (c =? LINE_FEED) eqn:Hc.
  - cbn [app newlines_indented starts_indented]. rewrite IH. reflexivity.
  - cbn [app newlines_indented]. rewrite Hc, IH. reflexivity.
Qed.

Lemma rstrip_spec (s : text) :
  exists w, s = rstrip s ++ w
            /\ forallb isspace w = true
            /\ (rstrip s = [] \/ ends_with_text (rstrip s)).
Proof.
  induction s as [|c s (w & Hs & Hw & Hend)].
  - exists []. auto.
  - cbn [rstrip]. destruct (rstrip s) as [|d r] eqn:Hr.
    + destruct (isspace c) eqn:Hc.
      * exists (c :: w). cbn [app forallb] in *. rewrite Hc, Hw, Hs. auto.
      * exists s. cbn [app] in *. split; [reflexivity|].
        split; [rewrite Hs; exact Hw|]. right. unfold ends_with_text. cbn. exact Hc.
    + exists w. split; [cbn [app]; f_equal; exact Hs|]. split; [exact Hw|].
      right. destruct Hend as [Hend|Hend]; [discriminate|].
      unfold ends_with_text in *. cbn [last] in *. exact Hend.
Qed.

Lemma newlines_indented_prefix (p w : text) :
  ends_with_text p -> newlines_indented (p ++ w) = true -> newlines_indented p = true.
Proof.
  induction p as [|c p IH]; intros Hend H; [reflexivity|].
  cbn [app newlines_indented] in *. apply andb_true_iff in H as [Hc H].
  destruct p as [|a p].
  - (* [c] is the last character: it is no white space *)
    unfold ends_with_text in Hend. cbn in Hend.
    destruct (c =? LINE_FEED) eqn:Hlf; [|reflexivity].
    apply N.eqb_eq in Hlf. subst c. discriminate.
  - assert (Hend' : ends_with_text (a :: p)).
    { unfold ends_with_text in *. cbn [last] in *. exact Hend. }
    rewrite (IH Hend' H), andb_true_r.
    destruct (c =? LINE_FEED); [|reflexivity].
    cbn [app starts_indented] in Hc.
    destruct p as [|b p].
    + (* [a] is the last character and a space *)
      exfalso. cbn [app] in Hc. destruct w as [|x w]; cbn in Hc; [discriminate|].
      apply andb_true_iff in Hc as [Ha _]. apply N.eqb_eq in Ha. subst a.
      unfold ends_with_text in Hend'. cbn in Hend'. discriminate.
    + cbn [app] in Hc. exact Hc.
Qed.

(** X22: the indentation of a payload.  The text [get_yaml_string_from_result]
    returns starts with two spaces and has two spaces after every line feed:
    every line of the payload is indented by two spaces.  After the first two
    spaces it does not end with white space, and for a result that is false as
    a condition (an empty one) it is the two spaces alone. *)
Theorem yaml_text_is_indented :
  forall (dump : pyval -> text) (result : pyval),
    starts_indented (get_yaml_string_from_result dump result) = true
    /\ newlines_indented (get_yaml_string_from_result dump result) = true
    /\ (exists body,
          get_yaml_string_from_result dump result = [SPACE; SPACE] ++ body
          /\ (body = [] \/ ends_with_text body))
    /\ (truthy result = false ->
        get_yaml_string_from_result dump result = [SPACE; SPACE]).
Proof.
  intros dump result. unfold get_yaml_string_from_result.
  set (dumped := if truthy result then dump result else []).
  destruct (rstrip_spec (join [LINE_FEED; SPACE; SPACE] (text_split LINE_FEED dumped)))
    as (w & Hs & Hw & Hend).
  split; [reflexivity|]. split; [|split].
  - cbn [app newlines_indented]. change (SPACE =? LINE_FEED) with false. cbn [andb].
    destruct Hend as [->|Hend]; [reflexivity|].
    apply (newlines_indented_prefix _ w Hend).
    rewrite <- Hs, join_split_indent. apply indent_newlines.
  - eexists. split; [reflexivity|]. exact Hend.
  - intros Ht. unfold dumped. rewrite Ht. reflexivity.
Qed.

(** A character a cleaned block scalar can hold: a printable ASCII character,
    a line feed, or a character from U+00A0 on. *)
Definition plain_char (c : N) : bool :=
  ((32 <=? c) && (c <=? 126)) || (c =? LINE_FEED) || (160 <=? c).

(** No space stands before a line feed. *)
Fixpoint no_space_before_newline (s : text) : bool :=
  match s with
  | a :: (b :: _) as s' =>
      negb ((a =? SPACE) && (b =? LINE_FEED)) && no_space_before_newline s'
  | _ => true
  end.

Lemma in_repeat (c x : N) (n : nat) : In c (repeat x n) -> c = x.
Proof. induction n as [|n IH]; cbn; [tauto|]. intros [<-|H]; auto. Qed.

Lemma expandtabs_chars (s : text) :
  forall column c,
    In c (expandtabs_from column s) -> c <> TABULATOR /\ (c = SPACE \/ In c s).
Proof.
  induction s as [|x s IH]; intros column c; cbn [expandtabs_from]; [intros []|].
  destruct (x =? TABULATOR) eqn:Hx.
  - intros Hin. apply List.in_app_or in Hin as [Hin|Hin].
    + apply in_repeat in Hin. subst c. split; [discriminate | auto].
    + destruct (IH _ _ Hin) as [Hn [Hs|Hs]]; split; auto. right. right. exact Hs.
  - intros [<-|Hin].
    + apply N.eqb_neq in Hx. split; [exact Hx|]. right. left. reflexivity.
    + destruct (IH _ _ Hin) as [Hn [Hs|Hs]]; split; auto. right. right. exact Hs.
Qed.

Lemma strip_spaces_chars (s : text) (c : N) :
  In c (strip_spaces_before_newline s) -> In c s.
Proof.
  revert c. induction s as [|x s IH]; intros c; cbn [strip_spaces_before_newline];
    [intros []|].
  destruct (strip_spaces_before_newline s) as [|d r].
  - intros [<-|[]]. left. reflexivity.
  - destruct ((x =? SPACE) && (d =? LINE_FEED)).
    + intros H. right. apply IH. exact H.
    + intros [<-|H]; [left; reflexivity|]. right. apply IH. exact H.
Qed.

Lemma strip_spaces_done (s : text) :
  no_space_before_newline (strip_spaces_before_newline s) = true.
Proof.
  induction s as [|x s IH]; [reflexivity|].
  cbn [strip_spaces_before_newline].
  destruct (strip_spaces_before_newline s) as [|d r]; [reflexivity|].
  destruct ((x =? SPACE) && (d =? LINE_FEED)) eqn:Hxd; [exact IH|].
  cbn [no_space_before_newline] in *. rewrite Hxd, IH. reflexivity.
Qed.

Lemma block_value_chars (value : text) (c : N) :
  In c (block_value value) -> plain_char c = true.
Proof.
  unfold block_value. intros H.
  apply strip_spaces_chars in H.
  apply List.filter_In in H as [H Hvt].
  apply expandtabs_chars in H as [Htab [->|H]]; [reflexivity|].
  apply List.filter_In in H as [_ Hp].
  unfold plain_char, printable, TABULATOR, LINE_FEED in *.
  apply negb_true_iff in Hvt.
  apply orb_false_iff in Hvt as [Hvt H13]. apply orb_false_iff in Hvt as [H11 H12].
  apply N.eqb_neq in H11, H12, H13.
  apply orb_true_iff in Hp as [Hp|Hp].
  - apply orb_true_iff in Hp as [Hp|Hp].
    + rewrite Hp. reflexivity.
    + apply andb_true_iff in Hp as [Hlo Hhi]. apply N.leb_le in Hlo, Hhi.
      assert (c = 10) by lia. subst c. reflexivity.
  - rewrite Hp. apply orb_true_r.
Qed.

(** X23: the value of a block scalar.  A string with a line break and no
    style of its own is written in block style, and its value is cleaned:
    what is left holds printable ASCII characters, line feeds and characters
    from U+00A0 on only (no tab, no carriage return, no other control
    character) and no space before a line feed.  A string without a line
    break, or with a style of its own, is handed on as it is. *)
Theorem block_scalar_is_clean :
  forall (default_style : option string) (value : text),
    (should_use_block value = true ->
     _yaml_dumper_represent_scalar default_style value None
     = (block_value value, Some "|"%string))
    /\ forallb plain_char (block_value value) = true
    /\ no_space_before_newline (block_value value) = true
    /\ (should_use_block value = false ->
        _yaml_dumper_represent_scalar default_style value None = (value, default_style))
    /\ (forall style,
          _yaml_dumper_represent_scalar default_style value (Some style)
          = (value, Some style)).
Proof.
  intros default_style value. unfold _yaml_dumper_represent_scalar.
  split; [intros ->; reflexivity|]. split; [|split; [|split]].
  - apply forallb_forall. intros c Hc. apply block_value_chars with (value := value).
    exact Hc.
  - apply strip_spaces_done.
  - intros ->. reflexivity.
  - reflexivity.
Qed.

End YamlText.

(* ===================================================================== *)
(** ** Elapsed seconds: the whole range *)
(* ===================================================================== *)

Module ElapsedRange.

Import ElapsedFormat.

(** A number that is neither an infinity nor a NaN. *)
Definition is_finite (n : float) : bool :=
  match n with
  | S754_zero _ | S754_finite _ _ _ => true
  | S754_infinity _ | S754_nan => false
  end.

(** X24: the text of every elapsed time.  For every finite binary64 number
    that is not negative [_format_float_seconds] returns (no conversion to
    [int] raises): the short form [.mmm] exactly when the number is below 1,
    and the long form [H:MM:SS.mmm] from one second on, so also between one
    second and one minute, with hours below 3600, minutes and seconds below
    60 and milliseconds below 1000.  For an infinity and for a NaN the
    conversion of the milliseconds raises. *)
Theorem elapsed_text_is_total :
  forall n : float,
    (elapsed_value n ->
     (SFltb n (float_of_int 1) = true /\
      exists ms, 0 <= ms <= 999 /\ _format_float_seconds n = Some (sub_second_form ms))
     \/ (SFltb n (float_of_int 1) = false /\
         exists h m s ms,
           0 <= h < 3600 /\ 0 <= m < 60 /\ 0 <= s < 60 /\ 0 <= ms <= 999
           /\ _format_float_seconds n = Some (long_form h m s ms)))
    /\ (is_finite n = false -> _format_float_seconds n = None).
Proof.
  intros n. split.
  - intros Hn. destruct (SFltb n (float_of_int 1)) eqn:Hlt.
    + left. split; [reflexivity|]. apply format_below_one_second; assumption.
    + right. split; [reflexivity|]. apply format_from_one_second; assumption.
  - destruct n as [s|[|]| |s m e]; cbn [is_finite]; try discriminate;
      intros _; vm_compute; reflexivity.
Qed.

(** The binary64 number [30.25]. *)
Definition f_30_25 : float := S754_finite false 8514618045497344 (-48).

Lemma elapsed_text_is_total_witness :
  elapsed_value f_30_25
  /\ _format_float_seconds f_30_25 = Some "0:00:30.250"
  /\ ((SFltb f_30_25 (float_of_int 1) = true /\
       exists ms, 0 <= ms <= 999
                  /\ _format_float_seconds f_30_25 = Some (sub_second_form ms))
      \/ (SFltb f_30_25 (float_of_int 1) = false /\
          exists h m s ms,
            0 <= h < 3600 /\ 0 <= m < 60 /\ 0 <= s < 60 /\ 0 <= ms <= 999
            /\ _format_float_seconds f_30_25 = Some (long_form h m s ms))).
Proof.
  assert (Hv : elapsed_value f_30_25) by (split; reflexivity).
  split; [exact Hv|]. split; [vm_compute; reflexivity|].
  apply (proj1 (elapsed_text_is_total f_30_25) Hv).
Defined.

(** X25: the seconds are exact.  From one second on, the seconds of the long
    form are the whole seconds of the elapsed time modulo 60: [int(n % 60)]
    is [int(n) % 60], the remainder is not rounded. *)
Theorem seconds_field_is_exact (n : float) :
  elapsed_value n -> SFltb n (float_of_int 1) = false ->
  exists z h m ms,
    int_of_float n = Some z
    /\ 0 <= h < 3600 /\ 0 <= m < 60 /\ 0 <= ms <= 999
    /\ _format_float_seconds n = Some (long_form h m (z mod 60) ms).
Proof.
  intros Hn Hge.
  destruct (seconds_of_elapsed n Hn) as (z & Hz & Hz0 & Hs).
  destruct (milliseconds_of_elapsed n Hn) as (ms & Hms & Hr).
  destruct Hn as [Hv Hn].
  assert (Hm : exists q, int_of_float (float_div n (float_of_int 60)) = Some q).
  { destruct float_of_int_literals as (_ & -> & _).
    apply float_div_finite; try assumption; [reflexivity | lia]. }
  destruct Hm as (mt & Hm).
  assert (Hh : exists q, int_of_float (float_div n (float_of_int 3600)) = Some q).
  { destruct float_of_int_literals as (_ & _ & _ & ->).
    apply float_div_finite; try assumption; [reflexivity | lia]. }
  destruct Hh as (ht & Hh).
  exists z, (ht mod 3600), (mt mod 60), ms.
  pose proof (Z.mod_pos_bound ht 3600 ltac:(lia)) as Hhr.
  pose proof (Z.mod_pos_bound mt 60 ltac:(lia)) as Hmr.
  pose proof (Z.mod_pos_bound z 60 ltac:(lia)) as Hsr.
  split; [exact Hz|]. repeat (split; [lia|]).
  unfold _format_float_seconds. rewrite Hms, Hge, Hs, Hm, Hh.
  cbv zeta.
  rewrite format_0_right_3, !format_0_right_2, str_of_int_unpadded by lia.
  reflexivity.
Qed.

Lemma seconds_field_is_exact_witness :
  int_of_float f_3725_125 = Some 3725
  /\ 3725 mod 60 = 5
  /\ exists z h m ms,
       int_of_float f_3725_125 = Some z
       /\ 0 <= h < 3600 /\ 0 <= m < 60 /\ 0 <= ms <= 999
       /\ _format_float_seconds f_3725_125 = Some (long_form h m (z mod 60) ms).
Proof.
  split; [reflexivity|]. split; [reflexivity|].
  apply (seconds_field_is_exact f_3725_125); [split|]; reflexivity.
Defined.

End ElapsedRange.
